(** * Internly: the Reports page aggregation (src/pages/Reports.tsx)

    A shallow embedding of [fetchReportStats]: the status counters, the
    tag / tool tally, and the weekly and monthly bucketing passes, together
    with the parts of JavaScript and of date-fns they rely on, and of the
    handlers of the Dashboard, the Entries page and the entry form that
    compute with the same rows.

    Conventions of the model.
    - A JavaScript number is [NaN] or a finite value carried as an exact
      rational; IEEE-754 rounding and the infinities are not modelled.
      The code computes with doubles: 21 / 60 is a little below 0.35
      there, so that 21 minutes show as 0.3 hours where the exact value
      rounds to 0.4.  The theorems therefore say which rows a total sums
      and with which operations, or bound a value, and assert no printed
      decimal that depends on this difference; whole numbers of minutes
      and of hours, as in the worked example, are exact in both.
    - A [Date] is its time value in milliseconds since the epoch ([Z]);
      an Invalid Date is [None].  The +-8.64e15 ms clipping is not modelled.
    - date-fns works in the local time zone; the zone is a fixed offset
      [tz] (milliseconds east of UTC), so there are no DST transitions:
      a local day is 24 hours, where date-fns counts calendar days and
      keeps the wall-clock time across a change of offset.
    - date-fns is taken with the behaviour of its 2.x line, where
      [eachDayOfInterval] and [isWithinInterval] throw a RangeError on an
      interval whose start is after its end.
    - A string is a sequence of code units below 256. *)

From Stdlib Require Import ZArith QArith Qround Qabs List String Ascii Bool Lia.
From Stdlib Require Import Sorted Permutation.
Import ListNotations.
Open Scope Z_scope.

(** ** Exceptions *)

Inductive exn : Type := RangeError.

Inductive result (A : Type) : Type :=
| Ok (a : A)
| Throw (e : exn).
Arguments Ok {A} a.
Arguments Throw {A} e.

Definition bind {A B : Type} (m : result A) (k : A -> result B) : result B :=
  match m with
  | Ok a => k a
  | Throw e => Throw e
  end.

Notation "x <- m ;; k" := (bind m (fun x => k))
  (at level 61, m at next level, right associativity).

(** [xs.forEach(f)] for a body that updates an accumulator and may throw. *)
Fixpoint forEach {A S : Type} (f : S -> A -> result S) (xs : list A) (s : S)
  : result S :=
  match xs with
  | [] => Ok s
  | x :: rest => s' <- f s x ;; forEach f rest s'
  end.

(** ** JavaScript numbers and property values *)

Module JS.

Inductive number : Type :=
| NaN
| Num (q : Q).

(** The value read from a property that holds a number: the property may
    be absent ([undefined]) or hold [null]. *)
Inductive field : Type :=
| Undefined
| Null
| Value (n : number).

(** ToNumber. *)
Definition toNumber (f : field) : number :=
  match f with
  | Undefined => NaN
  | Null => Num 0
  | Value n => n
  end.

(** ToBoolean on such a value: [undefined], [null], [NaN] and [0] are falsy. *)
Definition truthy (f : field) : bool :=
  match f with
  | Undefined | Null | Value NaN => false
  | Value (Num q) => negb (Qeq_bool q 0)
  end.

(** [f || 0] *)
Definition orZero (f : field) : number :=
  if truthy f then toNumber f else Num 0.

Definition add (a b : number) : number :=
  match a, b with
  | Num p, Num q => Num (p + q)%Q
  | _, _ => NaN
  end.

Definition mul (a b : number) : number :=
  match a, b with
  | Num p, Num q => Num (p * q)%Q
  | _, _ => NaN
  end.

(** [a / b] for a non-zero constant divisor [b]: the exact quotient,
    where the code has the nearest double. *)
Definition div (a : number) (b : Q) : number :=
  match a with
  | Num p => Num (p / b)%Q
  | NaN => NaN
  end.

Definition isNaN (a : number) : bool :=
  match a with NaN => true | Num _ => false end.

(** Equality of numbers up to the representation of the rational. *)
Definition eqn (a b : number) : Prop :=
  match a, b with
  | NaN, NaN => True
  | Num p, Num q => (p == q)%Q
  | _, _ => False
  end.

Definition pow10 (d : nat) : Z := Z.pow 10 (Z.of_nat d).

(** [parseFloat(x.toFixed(d))]: [toFixed] picks the integer [n] with
    [n / 10^d] closest to [|x|], the larger one on a tie, keeps the sign,
    and prints values of magnitude at least 10^21 unchanged.  Here [x]
    is the exact value; the code rounds the double next to it, which can
    fall on the other side of a tie. *)
Definition toFixed (d : nat) (x : number) : number :=
  match x with
  | NaN => NaN
  | Num q =>
      if Qle_bool (inject_Z (Z.pow 10 21)) (Qabs q) then Num q
      else
        let n := Qfloor (Qabs q * inject_Z (pow10 d) + (1 # 2))%Q in
        let r := (inject_Z n / inject_Z (pow10 d))%Q in
        Num (if Qle_bool 0 q then r else (- r)%Q)
  end.

(** *** Strings *)

Definition ascii_eqb (a b : ascii) : bool := Ascii.eqb a b.

(** White space and line terminators, for code units below 256. *)
Definition isWhiteSpace (c : ascii) : bool :=
  let n := nat_of_ascii c in
  (Nat.leb 9 n && Nat.leb n 13)%bool || Nat.eqb n 32 || Nat.eqb n 160.

Fixpoint trimStart (s : string) : string :=
  match s with
  | EmptyString => EmptyString
  | String c rest => if isWhiteSpace c then trimStart rest else s
  end.

Fixpoint trimEnd (s : string) : string :=
  match s with
  | EmptyString => EmptyString
  | String c rest =>
      match trimEnd rest with
      | EmptyString => if isWhiteSpace c then EmptyString else String c EmptyString
      | rest' => String c rest'
      end
  end.

(** [s.trim()] *)
Definition trim (s : string) : string := trimEnd (trimStart s).

(** [s.split(',')]: the pieces between commas; a string without a comma
    is its own single piece, the empty string included. *)
Fixpoint split_comma (s : string) : list string :=
  match s with
  | EmptyString => [EmptyString]
  | String c rest =>
      if ascii_eqb c ","%char then EmptyString :: split_comma rest
      else match split_comma rest with
           | [] => [String c EmptyString]
           | p :: ps => String c p :: ps
           end
  end.

(** *** Objects used as maps

    [{ [key: string]: number }] as the page fills it: an object literal
    [{}] with its own properties in creation order, in front of
    [Object.prototype].  A read of a key the object does not own finds
    the property [Object.prototype] has under that name, if any: a
    built-in function, or under [__proto__] the prototype object. *)

(** What such an object can hold: a number, or the string that [+] makes
    once an operand is not a number, namely the text of
    [Object.prototype]'s property [name] followed by [ones] digits 1. *)
Inductive value : Type :=
| Number (n : number)
| Appended (name : string) (ones : nat).

Definition object : Type := list (string * value).

(** The property names of [Object.prototype]. *)
Definition objectPrototype : list string :=
  ["constructor"; "__defineGetter__"; "__defineSetter__"; "hasOwnProperty";
   "__lookupGetter__"; "__lookupSetter__"; "isPrototypeOf";
   "propertyIsEnumerable"; "toString"; "valueOf"; "__proto__";
   "toLocaleString"]%string.

Definition inherited (k : string) : bool :=
  existsb (String.eqb k) objectPrototype.

(** What [o[k]] finds: nothing ([undefined]), a property of the object
    itself, or the function or object that [Object.prototype] holds. *)
Inductive lookup : Type :=
| Absent
| Own (v : value)
| Inherited (name : string).

Fixpoint getOwn (o : object) (k : string) : option value :=
  match o with
  | [] => None
  | (k', v) :: rest => if String.eqb k' k then Some v else getOwn rest k
  end.

(** [o[k]] *)
Definition get (o : object) (k : string) : lookup :=
  match getOwn o k with
  | Some v => Own v
  | None => if inherited k then Inherited k else Absent
  end.

(** [(x || 0) + 1] for what a read found.  [undefined] and a falsy
    number count from 0.  A string is truthy and [+] appends the digit to
    it; a function or an object is truthy too and [+] takes its text. *)
Definition orZeroPlusOne (x : lookup) : value :=
  match x with
  | Absent => Number (add (orZero Undefined) (Num 1))
  | Own (Number n) => Number (add (orZero (Value n)) (Num 1))
  | Own (Appended name ones) => Appended name (S ones)
  | Inherited name => Appended name 1
  end.

(** An own property gets the value: an existing one keeps its place, a
    new one is added last. *)
Fixpoint setOwn (o : object) (k : string) (v : value) : object :=
  match o with
  | [] => [(k, v)]
  | (k', v') :: rest =>
      if String.eqb k' k then (k', v) :: rest else (k', v') :: setOwn rest k v
  end.

(** [o[k] = v] for a number or a string [v].  [__proto__] is the accessor
    of [Object.prototype]; its setter ignores a value that is not an
    object.  Every other name becomes an own property. *)
Definition set (o : object) (k : string) (v : value) : object :=
  if String.eqb k "__proto__" then o else setOwn o k v.

Definition isDigit (c : ascii) : bool :=
  let n := nat_of_ascii c in (Nat.leb 48 n && Nat.leb n 57)%bool.

Fixpoint allDigits (s : string) : bool :=
  match s with
  | EmptyString => true
  | String c rest => isDigit c && allDigits rest
  end.

Fixpoint digitsValue (acc : Z) (s : string) : Z :=
  match s with
  | EmptyString => acc
  | String c rest => digitsValue (10 * acc + Z.of_nat (nat_of_ascii c) - 48) rest
  end.

(** An array index: the canonical decimal form of an integer below
    2^32 - 1.  Such keys are enumerated first, in ascending order. *)
Definition arrayIndex (k : string) : option Z :=
  match k with
  | EmptyString => None
  | String c rest =>
      if (allDigits k && (negb (ascii_eqb c "0"%char) || String.eqb rest ""))%bool
      then let v := digitsValue 0 k in
           if v <? 4294967295 then Some v else None
      else None
  end.

Fixpoint insertIndexed (e : Z * (string * value)) (l : list (Z * (string * value)))
  : list (Z * (string * value)) :=
  match l with
  | [] => [e]
  | x :: rest => if fst e <? fst x then e :: l else x :: insertIndexed e rest
  end.

Fixpoint indexedEntries (o : object) : list (Z * (string * value)) :=
  match o with
  | [] => []
  | (k, v) :: rest =>
      match arrayIndex k with
      | Some i => insertIndexed (i, (k, v)) (indexedEntries rest)
      | None => indexedEntries rest
      end
  end.

Fixpoint namedEntries (o : object) : list (string * value) :=
  match o with
  | [] => []
  | (k, v) :: rest =>
      match arrayIndex k with
      | Some _ => namedEntries rest
      | None => (k, v) :: namedEntries rest
      end
  end.

(** [Object.entries(o)]: array-index keys ascending, then the other keys
    in the order they were created. *)
Definition entries (o : object) : list (string * value) :=
  map snd (indexedEntries o) ++ namedEntries o.

(** ToNumber of a stored value: the strings built from a function's or
    an object's text are not numeric. *)
Definition valueToNumber (v : value) : number :=
  match v with
  | Number n => n
  | Appended _ _ => NaN
  end.

End JS.

(** ** Calendar arithmetic behind [Date] *)

Module Calendar.

Definition msPerDay : Z := 86400000.

(** Day number (days since 1970-01-01) to proleptic Gregorian
    (year, month 1..12, day 1..31). *)
Definition civil_from_days (z : Z) : Z * Z * Z :=
  let z := z + 719468 in
  let era := z / 146097 in
  let doe := z - era * 146097 in
  let yoe := (doe - doe / 1460 + doe / 36524 - doe / 146096) / 365 in
  let y := yoe + era * 400 in
  let doy := doe - (365 * yoe + yoe / 4 - yoe / 100) in
  let mp := (5 * doy + 2) / 153 in
  let d := doy - (153 * mp + 2) / 5 + 1 in
  let m := if mp <? 10 then mp + 3 else mp - 9 in
  (if m <=? 2 then y + 1 else y, m, d).

(** The inverse: (year, month 1..12, day) to the day number. *)
Definition days_from_civil (y m d : Z) : Z :=
  let y := if m <=? 2 then y - 1 else y in
  let era := y / 400 in
  let yoe := y - era * 400 in
  let doy := (153 * (if 2 <? m then m - 3 else m + 9) + 2) / 5 + d - 1 in
  let doe := yoe * 365 + yoe / 4 - yoe / 100 + doy in
  era * 146097 + doe - 719468.

(** MakeDay(year, month, date) of ECMAScript: [month] is 0-based and may
    lie outside 0..11, [date] may lie outside the month. *)
Definition makeDay (year month date : Z) : Z :=
  days_from_civil (year + month / 12) (month mod 12 + 1) 1 + date - 1.

Definition isLeapYear (y : Z) : bool :=
  ((y mod 4 =? 0) && negb (y mod 100 =? 0)) || (y mod 400 =? 0).

(** Days in month [m] (0-based) of year [y]. *)
Definition daysInMonth (y m : Z) : Z :=
  if m =? 1 then (if isLeapYear y then 29 else 28)
  else if (m =? 3) || (m =? 5) || (m =? 8) || (m =? 10) then 30
  else 31.

(** *** Printing *)

Definition digitChar (d : Z) : ascii := ascii_of_nat (48 + Z.to_nat d).

Fixpoint decimalAux (fuel : nat) (n : Z) (acc : string) : string :=
  match fuel with
  | O => acc
  | S f =>
      let acc' := String (digitChar (n mod 10)) acc in
      if n / 10 =? 0 then acc' else decimalAux f (n / 10) acc'
  end.

(** Decimal digits of a non-negative integer. *)
Definition decimal (n : Z) : string :=
  decimalAux (S (Z.to_nat (Z.log2 n))) n EmptyString.

Fixpoint zeros (k : nat) : string :=
  match k with
  | O => EmptyString
  | S k' => String "0"%char (zeros k')
  end.

(** date-fns [addLeadingZeros]. *)
Definition addLeadingZeros (n : Z) (width : nat) : string :=
  let s := decimal n in
  (zeros (width - String.length s) ++ s)%string.

Definition monthAbbr (m : Z) : string :=
  nth (Z.to_nat m)
      ["Jan"; "Feb"; "Mar"; "Apr"; "May"; "Jun";
       "Jul"; "Aug"; "Sep"; "Oct"; "Nov"; "Dec"]%string ""%string.

Definition dayAbbr (d : Z) : string :=
  nth (Z.to_nat d) ["Sun"; "Mon"; "Tue"; "Wed"; "Thu"; "Fri"; "Sat"]%string ""%string.

End Calendar.

(** ** [Date] getters and the date-fns functions used by the page *)

Section DateFns.

Import Calendar.

(** The local zone: milliseconds east of UTC. *)
Variable tz : Z.

Definition localDay (t : Z) : Z := (t + tz) / msPerDay.
Definition timeWithinDay (t : Z) : Z := (t + tz) mod msPerDay.

Definition getFullYear (t : Z) : Z := fst (fst (civil_from_days (localDay t))).
Definition getMonth (t : Z) : Z := snd (fst (civil_from_days (localDay t))) - 1.
Definition getDate (t : Z) : Z := snd (civil_from_days (localDay t)).
(** 0 is Sunday; 1970-01-01 was a Thursday. *)
Definition getDay (t : Z) : Z := (localDay t + 4) mod 7.

(** The time value of local day number [d] at [ms] past local midnight. *)
Definition localTime (d ms : Z) : Z := d * msPerDay + ms - tz.

(** [startOfDay]: [setHours(0, 0, 0, 0)]. *)
Definition startOfDay (t : Z) : Z := localTime (localDay t) 0.

(** [endOfDay]: [setHours(23, 59, 59, 999)]. *)
Definition endOfDay (t : Z) : Z := localTime (localDay t) (msPerDay - 1).

(** [addDays]: [setDate(getDate() + amount)], which keeps the local time
    of day; at a constant offset that is [amount] times 24 hours later. *)
Definition addDays (t amount : Z) : Z := t + amount * msPerDay.

(** [addWeeks(date, amount)] is [addDays(date, amount * 7)]. *)
Definition addWeeks (t amount : Z) : Z := addDays t (amount * 7).

(** [startOfWeek(date, { weekStartsOn: 1 })]:
    [diff = (day < 1 ? 7 : 0) + day - 1; setDate(getDate() - diff);
     setHours(0, 0, 0, 0)]. *)
Definition startOfWeek (t : Z) : Z :=
  let day := getDay t in
  let diff := (if day <? 1 then 7 else 0) + day - 1 in
  startOfDay (addDays t (- diff)).

(** [endOfWeek(date, { weekStartsOn: 1 })]:
    [diff = (day < 1 ? -7 : 0) + 6 - (day - 1); setDate(getDate() + diff);
     setHours(23, 59, 59, 999)]. *)
Definition endOfWeek (t : Z) : Z :=
  let day := getDay t in
  let diff := (if day <? 1 then -7 else 0) + 6 - (day - 1) in
  endOfDay (addDays t diff).

(** [differenceInDays]: the full local calendar days between two dates,
    truncated towards zero; at a constant offset a full day is 24 hours
    and the count is the quotient of the difference. *)
Definition differenceInDays (dateLeft dateRight : Z) : Z :=
  Z.quot (dateLeft - dateRight) msPerDay.

(** [differenceInWeeks]: [differenceInDays / 7] rounded towards zero. *)
Definition differenceInWeeks (dateLeft dateRight : Z) : Z :=
  Z.quot (differenceInDays dateLeft dateRight) 7.

Definition isAfter (date dateToCompare : Z) : bool := dateToCompare <? date.
Definition isBefore (date dateToCompare : Z) : bool := date <? dateToCompare.

(** [min([a, b])] on two valid dates. *)
Definition min (a b : Z) : Z := if b <? a then b else a.

(** [compareAsc]: -1, 0 or 1. *)
Definition compareAsc (dateLeft dateRight : Z) : Z := Z.sgn (dateLeft - dateRight).

(** [setDate(d)], [setMonth(m)] and [setFullYear(y, m, d)]: the fields
    are normalised by MakeDay, the time of day is kept. *)
Definition setDate (t d : Z) : Z :=
  localTime (makeDay (getFullYear t) (getMonth t) d) (timeWithinDay t).
Definition setMonth (t m : Z) : Z :=
  localTime (makeDay (getFullYear t) m (getDate t)) (timeWithinDay t).
Definition setFullYear (t y m d : Z) : Z :=
  localTime (makeDay y m d) (timeWithinDay t).

(** [startOfMonth]: [setDate(1); setHours(0, 0, 0, 0)], that is, back
    [getDate() - 1] days to local midnight. *)
Definition startOfMonth (t : Z) : Z :=
  startOfDay (addDays t (- (getDate t - 1))).

(** [endOfMonth]: [setFullYear(year, month + 1, 0);
    setHours(23, 59, 59, 999)], the last millisecond of the month. *)
Definition endOfMonth (t : Z) : Z :=
  startOfMonth t + daysInMonth (getFullYear t) (getMonth t) * msPerDay - 1.

Definition isLastDayOfMonth (t : Z) : bool := endOfDay t =? endOfMonth t.

(** [addMonths]: no-op for 0; otherwise the same day of the target
    month, or its last day when the target month is shorter. *)
Definition addMonths (t amount : Z) : Z :=
  if amount =? 0 then t
  else
    let dayOfMonth := getDate t in
    let endOfDesiredMonth := setFullYear t (getFullYear t) (getMonth t + amount + 1) 0 in
    let daysInMonth := getDate endOfDesiredMonth in
    if daysInMonth <=? dayOfMonth then endOfDesiredMonth
    else setFullYear t (getFullYear endOfDesiredMonth) (getMonth endOfDesiredMonth) dayOfMonth.

Definition differenceInCalendarMonths (dateLeft dateRight : Z) : Z :=
  (getFullYear dateLeft - getFullYear dateRight) * 12
  + (getMonth dateLeft - getMonth dateRight).

(** [differenceInMonths]: full months between two dates. *)
Definition differenceInMonths (dateLeft dateRight : Z) : Z :=
  let sign := compareAsc dateLeft dateRight in
  let difference := Z.abs (differenceInCalendarMonths dateLeft dateRight) in
  if difference <? 1 then 0
  else
    let left1 :=
      if (getMonth dateLeft =? 1) && (27 <? getDate dateLeft)
      then setDate dateLeft 30 else dateLeft in
    let left2 := setMonth left1 (getMonth left1 - sign * difference) in
    let isLastMonthNotFull := compareAsc left2 dateRight =? - sign in
    let isLastMonthNotFull :=
      if isLastDayOfMonth dateLeft && (difference =? 1)
         && (compareAsc dateLeft dateRight =? 1)
      then false else isLastMonthNotFull in
    sign * (difference - (if isLastMonthNotFull then 1 else 0)).

(** [eachDayOfInterval({ start, end })]: local midnights from the day of
    [start] while not after [end]; RangeError when [start] is after [end]. *)
Fixpoint eachDayLoop (fuel : nat) (currentDate endTime : Z) : list Z :=
  match fuel with
  | O => []
  | S fuel' =>
      if currentDate <=? endTime
      then currentDate :: eachDayLoop fuel' (startOfDay (addDays currentDate 1)) endTime
      else []
  end.

Definition eachDayOfInterval (start end_ : Z) : result (list Z) :=
  if start <=? end_
  then Ok (eachDayLoop (Z.to_nat ((end_ - startOfDay start) / msPerDay + 1))
                       (startOfDay start) end_)
  else Throw RangeError.

(** [isWithinInterval(date, { start, end })]: RangeError when [start] is
    after [end]; an Invalid Date is in no interval. *)
Definition isWithinInterval (date : option Z) (start end_ : Z) : result bool :=
  if start <=? end_
  then Ok match date with
          | Some t => (start <=? t) && (t <=? end_)
          | None => false
          end
  else Throw RangeError.

(** [format]: the four patterns the page uses.  The token [yyyy] prints
    the year of the era (1 - year for years up to 0). *)
Definition yearOfEra (t : Z) : Z :=
  let y := getFullYear t in if 0 <? y then y else 1 - y.

Definition format_yyyy_MM_dd (t : Z) : string :=
  (addLeadingZeros (yearOfEra t) 4 ++ "-" ++ addLeadingZeros (getMonth t + 1) 2
   ++ "-" ++ addLeadingZeros (getDate t) 2)%string.

Definition format_MMM_dd (t : Z) : string :=
  (monthAbbr (getMonth t) ++ " " ++ addLeadingZeros (getDate t) 2)%string.

Definition format_MMM_yyyy (t : Z) : string :=
  (monthAbbr (getMonth t) ++ " " ++ addLeadingZeros (yearOfEra t) 4)%string.

Definition format_EEE (t : Z) : string := dayAbbr (getDay t).

(** [toISOString().split('T')[0]]: the UTC calendar date; RangeError on
    an Invalid Date. *)
Definition isoDay (d : option Z) : result Z :=
  match d with
  | Some t => Ok (t / msPerDay)
  | None => Throw RangeError
  end.

End DateFns.

(** The date-only form [YYYY-MM-DD] of the ECMAScript date-time string
    format, read as UTC midnight; any other string is an Invalid Date
    here. *)
Definition isoDateOnly (s : string) : option Z :=
  match s with
  | String y1 (String y2 (String y3 (String y4 (String d1 (String m1 (String m2
      (String d2 (String a1 (String a2 EmptyString))))))))) =>
      let year := String y1 (String y2 (String y3 (String y4 EmptyString))) in
      let month := String m1 (String m2 EmptyString) in
      let day := String a1 (String a2 EmptyString) in
      if (JS.ascii_eqb d1 "-"%char && JS.ascii_eqb d2 "-"%char
          && JS.allDigits year && JS.allDigits month && JS.allDigits day)%bool
      then
        let y := JS.digitsValue 0 year in
        let m := JS.digitsValue 0 month in
        let d := JS.digitsValue 0 day in
        if ((1 <=? m) && (m <=? 12) && (1 <=? d)
            && (d <=? Calendar.daysInMonth y (m - 1)))%bool
        then Some (Calendar.days_from_civil y m d * Calendar.msPerDay)
        else None
      else None
  | _ => None
  end.

(** ** The data of the page *)

(** A row of the [reports] table, with the columns the statistics read. *)
Module Report.
Record t : Type := mk {
  date : string;
  status : string;
  time_spent : JS.field;
  tags : option string;
  skills_tools : option string
}.
End Report.

(** An element of [WeeklyHoursData.days]. *)
Module Day.
Record t : Type := mk {
  day : string;
  date : Z;
  hours : JS.number
}.
End Day.

(** [WeeklyHoursData] *)
Module Week.
Record t : Type := mk {
  weekStart : string;
  weekEnd : string;
  totalHours : JS.number;
  completionRate : JS.number;
  days : list Day.t
}.
End Week.

(** An element of [ReportStats.monthlyData]. *)
Module Month.
Record t : Type := mk {
  month : string;
  totalHours : JS.number;
  completionRate : JS.number
}.
End Month.

(** [ReportStats], without the chart colours. *)
Module Stats.
Record t : Type := mk {
  totalEntries : Z;
  completed : Z;
  pending : Z;
  inProgress : Z;
  totalHours : JS.number;
  dayStreak : Z;
  tags : JS.object;
  tools : JS.object;
  weeklyData : list Week.t;
  monthlyData : list Month.t
}.
End Stats.

(** ** [fetchReportStats] *)

Section Reports.

(** The local zone and the engine's [new Date(string)]. *)
Variable tz : Z.
Variable newDate : string -> option Z.

(** [reports.filter(p).length] *)
Definition count (p : Report.t -> bool) (reports : list Report.t) : Z :=
  Z.of_nat (List.length (filter p reports)).

Definition isCompleted (r : Report.t) : bool :=
  String.eqb (Report.status r) "completed".
Definition isPending (r : Report.t) : bool :=
  String.eqb (Report.status r) "pending".
Definition isInProgress (r : Report.t) : bool :=
  String.eqb (Report.status r) "in progress"
  || String.eqb (Report.status r) "in_progress"
  || String.eqb (Report.status r) "inprogress".

Definition completed (reports : list Report.t) : Z := count isCompleted reports.
Definition pending (reports : list Report.t) : Z := count isPending reports.
Definition inProgress (reports : list Report.t) : Z := count isInProgress reports.

(** [reports.reduce((sum, report) => sum + (report.time_spent / 60), 0)] *)
Definition totalHours (reports : list Report.t) : JS.number :=
  fold_left
    (fun sum report => JS.add sum (JS.div (JS.toNumber (Report.time_spent report)) 60))
    reports (JS.Num 0).

(** [[...new Set(xs)].length] on day numbers. *)
Fixpoint distinct (xs : list Z) : list Z :=
  match xs with
  | [] => []
  | x :: rest =>
      let rest' := distinct rest in
      if existsb (Z.eqb x) rest' then rest' else x :: rest'
  end.

Fixpoint mapM {A B : Type} (f : A -> result B) (xs : list A) : result (list B) :=
  match xs with
  | [] => Ok []
  | x :: rest => y <- f x ;; ys <- mapM f rest ;; Ok (y :: ys)
  end.

(** [calculateDayStreak]: the number of distinct UTC dates with an
    entry; [toISOString] throws on a row whose date is invalid. *)
Definition calculateDayStreak (reports : list Report.t) : result Z :=
  match reports with
  | [] => Ok 0
  | _ =>
      ds <- mapM (fun r => isoDay (newDate (Report.date r))) reports ;;
      Ok (Z.of_nat (List.length (distinct ds)))
  end.

(** *** Tags and tools *)

(** [list.forEach(tag => { o[tag] = (o[tag] || 0) + 1 })] *)
Definition tallyLabels (o : JS.object) (labels : list string) : JS.object :=
  fold_left
    (fun o label => JS.set o label (JS.orZeroPlusOne (JS.get o label)))
    labels o.

(** [if (f) { f.split(',').map(t => t.trim()).forEach(...) }]: [null]
    and the empty string are skipped. *)
Definition tallyField (o : JS.object) (f : option string) : JS.object :=
  match f with
  | None => o
  | Some EmptyString => o
  | Some s => tallyLabels o (map JS.trim (JS.split_comma s))
  end.

Definition tallyTags (reports : list Report.t) : JS.object :=
  fold_left (fun o r => tallyField o (Report.tags r)) reports [].

Definition tallyTools (reports : list Report.t) : JS.object :=
  fold_left (fun o r => tallyField o (Report.skills_tools r)) reports [].

(** *** Weekly data *)

(** The variables the inner [forEach] updates. *)
Record WeekAcc : Type := mkWeekAcc {
  daysData : list Day.t;
  weekTotalHours : JS.number;
  weekCompleted : Z;
  weekTotal : Z
}.

(** [xs.findIndex(p)], [None] for -1. *)
Fixpoint findIndex {A : Type} (p : A -> bool) (xs : list A) : option nat :=
  match xs with
  | [] => None
  | x :: rest => if p x then Some O else option_map S (findIndex p rest)
  end.

(** [daysData.findIndex(day => format(day.date, 'yyyy-MM-dd') ===
    format(reportDate, 'yyyy-MM-dd'))]; [format] throws on an Invalid
    Date, which the callback meets at the first element. *)
Definition dayIndexOf (daysData : list Day.t) (reportDate : option Z)
  : result (option nat) :=
  match reportDate with
  | Some t =>
      Ok (findIndex
            (fun day => String.eqb (format_yyyy_MM_dd tz (Day.date day))
                                   (format_yyyy_MM_dd tz t))
            daysData)
  | None => match daysData with [] => Ok None | _ :: _ => Throw RangeError end
  end.

(** [daysData[i].hours += h] *)
Fixpoint addHoursAt (daysData : list Day.t) (i : nat) (h : JS.number) : list Day.t :=
  match daysData, i with
  | [], _ => []
  | d :: rest, O => Day.mk (Day.day d) (Day.date d) (JS.add (Day.hours d) h) :: rest
  | d :: rest, S i' => d :: addHoursAt rest i' h
  end.

(** [(report.time_spent || 0) / 60] *)
Definition reportHours (report : Report.t) : JS.number :=
  JS.div (JS.orZero (Report.time_spent report)) 60.

(** The body of [reports.forEach] in the weekly pass. *)
Definition weekReport (weekStart adjustedWeekEnd : Z) (s : WeekAcc) (report : Report.t)
  : result WeekAcc :=
  let reportDate := newDate (Report.date report) in
  inside <- isWithinInterval reportDate weekStart adjustedWeekEnd ;;
  if (inside : bool) then
    dayIndex <- dayIndexOf (daysData s) reportDate ;;
    let s1 :=
      match dayIndex with
      | Some i =>
          mkWeekAcc (addHoursAt (daysData s) i (reportHours report))
                    (JS.add (weekTotalHours s) (reportHours report))
                    (weekCompleted s) (weekTotal s)
      | None => s
      end in
    Ok (mkWeekAcc (daysData s1) (weekTotalHours s1)
                  (if isCompleted report then weekCompleted s1 + 1 else weekCompleted s1)
                  (weekTotal s1 + 1))
  else Ok s.

(** [total > 0 ? (completed / total) * 100 : 0] *)
Definition rate (completed total : Z) : JS.number :=
  if 0 <? total
  then JS.mul (JS.Num (inject_Z completed / inject_Z total)) (JS.Num 100)
  else JS.Num 0.

(** One turn of the weekly loop after the [break] test. *)
Definition weekBucket (reports : list Report.t) (endDateToUse weekStartDate : Z)
  : result Week.t :=
  let weekStart := startOfWeek tz weekStartDate in
  let weekEnd := endOfWeek tz weekStartDate in
  let adjustedWeekEnd := if isBefore weekEnd endDateToUse then weekEnd else endDateToUse in
  weekDays <- eachDayOfInterval tz weekStart adjustedWeekEnd ;;
  let days0 := map (fun date => Day.mk (format_EEE tz date) date (JS.Num 0)) weekDays in
  s <- forEach (weekReport weekStart adjustedWeekEnd) reports
               (mkWeekAcc days0 (JS.Num 0) 0 0) ;;
  let completionRate := rate (weekCompleted s) (weekTotal s) in
  Ok (Week.mk (format_MMM_dd tz weekStart)
              (format_MMM_dd tz adjustedWeekEnd)
              (JS.toFixed 1 (weekTotalHours s))
              (JS.toFixed 0 completionRate)
              (daysData s)).

Definition numWeeks (startDate endDateToUse : Z) : Z :=
  Z.max 1 (differenceInWeeks endDateToUse startDate + 1).

(** [for (let i = 0; i < numWeeks; i++)], [fuel] turns being left. *)
Fixpoint weeksLoop (reports : list Report.t) (startDate endDateToUse : Z)
  (fuel : nat) (i : Z) (weeks : list Week.t) : result (list Week.t) :=
  match fuel with
  | O => Ok weeks
  | S fuel' =>
      let weekStartDate := addWeeks startDate i in
      if endDateToUse <? weekStartDate then Ok weeks
      else
        b <- weekBucket reports endDateToUse weekStartDate ;;
        weeksLoop reports startDate endDateToUse fuel' (i + 1) (weeks ++ [b])
  end.

(** The weekly pass ([bucketByWeek] of the specification):
    [today] is the [new Date()] taken before the loop. *)
Definition weeklyData (reports : list Report.t) (startDate endDate today : Z)
  : result (list Week.t) :=
  let endDateToUse := min today endDate in
  weeksLoop reports startDate endDateToUse
            (Z.to_nat (numWeeks startDate endDateToUse)) 0 [].

(** *** Monthly data *)

Record MonthAcc : Type := mkMonthAcc {
  monthlyHours : JS.number;
  monthCompleted : Z;
  monthTotal : Z
}.

(** The body of [reports.forEach] in the monthly pass. *)
Definition monthReport (monthStart actualMonthEnd : Z) (s : MonthAcc) (report : Report.t)
  : result MonthAcc :=
  let reportDate := newDate (Report.date report) in
  inside <- isWithinInterval reportDate monthStart actualMonthEnd ;;
  if (inside : bool) then
    Ok (mkMonthAcc (JS.add (monthlyHours s) (reportHours report))
                   (if isCompleted report then monthCompleted s + 1 else monthCompleted s)
                   (monthTotal s + 1))
  else Ok s.

Definition monthBucket (reports : list Report.t) (analysisEndDate monthDate : Z)
  : result Month.t :=
  let monthStart := startOfMonth tz monthDate in
  let monthEnd := endOfMonth tz monthDate in
  let actualMonthEnd := if isBefore monthEnd analysisEndDate then monthEnd else analysisEndDate in
  s <- forEach (monthReport monthStart actualMonthEnd) reports
               (mkMonthAcc (JS.Num 0) 0 0) ;;
  let completionRate := rate (monthCompleted s) (monthTotal s) in
  Ok (Month.mk (format_MMM_yyyy tz monthStart)
               (JS.toFixed 1 (monthlyHours s))
               (JS.toFixed 0 completionRate)).

Definition numMonths (startDate analysisEndDate : Z) : Z :=
  Z.max 1 (differenceInMonths tz analysisEndDate startDate + 1).

Fixpoint monthsLoop (reports : list Report.t) (startDate analysisEndDate : Z)
  (fuel : nat) (i : Z) (months : list Month.t) : result (list Month.t) :=
  match fuel with
  | O => Ok months
  | S fuel' =>
      let monthDate := addMonths tz startDate i in
      if isAfter monthDate analysisEndDate then Ok months
      else
        b <- monthBucket reports analysisEndDate monthDate ;;
        monthsLoop reports startDate analysisEndDate fuel' (i + 1) (months ++ [b])
  end.

(** The monthly pass ([bucketByMonth] of the specification):
    [currentDate] is the [new Date()] taken when the profile is read. *)
Definition monthlyData (reports : list Report.t) (startDate endDate currentDate : Z)
  : result (list Month.t) :=
  let analysisEndDate := if isAfter endDate currentDate then currentDate else endDate in
  monthsLoop reports startDate analysisEndDate
             (Z.to_nat (numMonths startDate analysisEndDate)) 0 [].

(** *** The whole computation

    [startDate] and [endDate] are the profile's dates (valid dates);
    [currentDate] and [today] are the two readings of the clock.  A
    [Throw] is what the [catch] block turns into the error toast. *)
Definition fetchReportStats (reports : list Report.t)
  (startDate endDate currentDate today : Z) : result Stats.t :=
  streak <- calculateDayStreak reports ;;
  weeks <- weeklyData reports startDate endDate today ;;
  months <- monthlyData reports startDate endDate currentDate ;;
  Ok (Stats.mk (Z.of_nat (List.length reports))
               (completed reports) (pending reports) (inProgress reports)
               (JS.toFixed 1 (totalHours reports))
               streak
               (tallyTags reports) (tallyTools reports)
               weeks months).

End Reports.

(** ** More of JavaScript: arithmetic, strings, sorting *)

Module JSMath.

(** [a - b] *)
Definition sub (a b : JS.number) : JS.number :=
  match a, b with
  | JS.Num p, JS.Num q => JS.Num (p - q)%Q
  | _, _ => JS.NaN
  end.

(** [Math.floor(x)] *)
Definition floor (x : JS.number) : JS.number :=
  match x with
  | JS.NaN => JS.NaN
  | JS.Num q => JS.Num (inject_Z (Qfloor q))
  end.

(** The integer part of a quotient, rounded towards zero. *)
Definition truncate (x : Q) : Z :=
  if Qle_bool 0 x then Qfloor x else Qceiling x.

(** [x % d] for a non-zero constant [d]: the remainder has the sign of
    the dividend. *)
Definition rem (x : JS.number) (d : Q) : JS.number :=
  match x with
  | JS.NaN => JS.NaN
  | JS.Num q => JS.Num (q - d * inject_Z (truncate (q / d)))%Q
  end.

End JSMath.

Module JSString.

(** The lower-case form of a code unit below 256: A-Z and the upper-case
    letters of Latin-1 move up by 32.  Among these code units the mapping
    is per character; the mappings that depend on the neighbours (the
    final sigma) concern letters outside this range. *)
Definition lowerChar (c : ascii) : ascii :=
  let n := nat_of_ascii c in
  if ((Nat.leb 65 n && Nat.leb n 90)
      || (Nat.leb 192 n && Nat.leb n 222 && negb (Nat.eqb n 215)))%bool
  then ascii_of_nat (n + 32) else c.

(** [s.toLowerCase()] *)
Fixpoint toLowerCase (s : string) : string :=
  match s with
  | EmptyString => EmptyString
  | String c rest => String (lowerChar c) (toLowerCase rest)
  end.

(** [s.startsWith(q)] *)
Fixpoint startsWith (s q : string) : bool :=
  match q, s with
  | EmptyString, _ => true
  | String _ _, EmptyString => false
  | String b q', String a s' => JS.ascii_eqb a b && startsWith s' q'
  end.

(** [s.includes(q)]: [q] occurs in [s] at some position. *)
Fixpoint includes (s q : string) : bool :=
  startsWith s q
  || match s with
     | EmptyString => false
     | String _ s' => includes s' q
     end.

End JSString.

Module JSArray.

Section Sort.

Variable A : Type.
Variable comparefn : A -> A -> JS.number.

(** SortCompare says [x] need not come after [y]: the comparator's value
    is not positive, a [NaN] counting as 0. *)
Definition notAfter (x y : A) : bool :=
  match comparefn x y with
  | JS.NaN => true
  | JS.Num v => Qle_bool v 0
  end.

(** Insertion behind every element that need not come after [e]. *)
Fixpoint insert (e : A) (sorted : list A) : list A :=
  match sorted with
  | [] => [e]
  | x :: rest => if notAfter x e then x :: insert e rest else e :: sorted
  end.

(** [xs.sort(comparefn)]: the sort is stable, which fixes the result for
    a consistent comparator; here by insertion from the left. *)
Definition sort (xs : list A) : list A :=
  fold_left (fun sorted e => insert e sorted) xs [].

(** [xs.slice(0, n)] *)
Definition slice0 (n : nat) (xs : list A) : list A := firstn n xs.

End Sort.

End JSArray.

(** ** The charts of the Reports page *)

(** [([, a], [, b]) => b - a] *)
Definition byCountDescending (x y : string * JS.value) : JS.number :=
  JSMath.sub (JS.valueToNumber (snd y)) (JS.valueToNumber (snd x)).

(** [Object.entries(o).sort(([, a], [, b]) => b - a).slice(0, n)]: 5 for
    the tools chart, 12 for the popular tags. *)
Definition topEntries (n : nat) (o : JS.object) : list (string * JS.value) :=
  JSArray.slice0 _ n (JSArray.sort _ byCountDescending (JS.entries o)).

Definition popularTools (stats : Stats.t) : list (string * JS.value) :=
  topEntries 5 (Stats.tools stats).

Definition popularTags (stats : Stats.t) : list (string * JS.value) :=
  topEntries 12 (Stats.tags stats).

(** ** The Dashboard page (src/pages/Dashboard.tsx) *)

Module Dashboard.

Section Dashboard.

Variable tz : Z.
Variable newDate : string -> option Z.

(** [entriesData.filter(entry => entry.status === 'completed').length] *)
Definition completedEntries (entriesData : list Report.t) : Z :=
  count isCompleted entriesData.

Definition isPendingOrInProgress (entry : Report.t) : bool :=
  String.eqb (Report.status entry) "pending"
  || String.eqb (Report.status entry) "in progress".

(** [... entry.status === 'pending' || entry.status === 'in progress'] *)
Definition pendingEntries (entriesData : list Report.t) : Z :=
  count isPendingOrInProgress entriesData.

(** [[...new Set(entriesData.map(entry =>
    new Date(entry.date).toISOString().split('T')[0]))].length] *)
Definition daysWithEntries (entriesData : list Report.t) : result Z :=
  ds <- mapM (fun entry => isoDay (newDate (Report.date entry))) entriesData ;;
  Ok (Z.of_nat (List.length (distinct ds))).

(** [entriesData.reduce((total, entry) =>
    total + ((entry.time_spent || 0) / 60), 0)] *)
Definition totalHours (entriesData : list Report.t) : JS.number :=
  fold_left (fun total entry => JS.add total (reportHours entry)) entriesData (JS.Num 0).

(** The body of [entriesData.forEach] that fills the week. *)
Definition weekEntry (weeklyHours : list Day.t) (entry : Report.t)
  : result (list Day.t) :=
  let entryDate := newDate (Report.date entry) in
  weekDayIndex <- dayIndexOf tz weeklyHours entryDate ;;
  Ok match weekDayIndex with
     | Some i => addHoursAt weeklyHours i (reportHours entry)
     | None => weeklyHours
     end.

(** The days of the current week with the hours of each. *)
Definition weeklyHours (today : Z) (entriesData : list Report.t) : result (list Day.t) :=
  let startWeek := startOfWeek tz today in
  let endWeek := endOfWeek tz today in
  weekDays <- eachDayOfInterval tz startWeek endWeek ;;
  forEach weekEntry entriesData
          (map (fun date => Day.mk (format_EEE tz date) date (JS.Num 0)) weekDays).

End Dashboard.

End Dashboard.

(** ** The Entries page (second component of src/pages/Settings.tsx) *)

Module Entry.
Record t : Type := mk {
  id : string;
  summary : string;
  achievements : option string;
  challenges : option string;
  remarks : option string;
  date : string;
  user_id : string;
  created_at : string;
  updated_at : string;
  status : string;
  skills_tools : option string;
  tags : option string;
  time_spent : JS.field
}.
End Entry.

Module Entries.

(** [startEditing]: [Math.floor(entry.time_spent / 60)] and
    [entry.time_spent % 60]. *)
Definition hours (entry : Entry.t) : JS.number :=
  JSMath.floor (JS.div (JS.toNumber (Entry.time_spent entry)) 60).

Definition minutes (entry : Entry.t) : JS.number :=
  JSMath.rem (JS.toNumber (Entry.time_spent entry)) 60.

(** [handleAddEntry] and [handleEditEntry]:
    [(newEntry.hours * 60) + newEntry.minutes]. *)
Definition time_spent (hours minutes : JS.number) : JS.number :=
  JS.add (JS.mul hours (JS.Num 60)) minutes.

(** [toggleEntryStatus]: the status written back. *)
Definition newStatus (currentStatus : string) : string :=
  let s := JSString.toLowerCase currentStatus in
  if String.eqb s "completed" then "completed"
  else if String.eqb s "in progress" then "in progress"
  else if String.eqb s "pending" then "pending"
  else "pending".

(** What the handler shows when it is done. *)
Inductive toast : Type :=
| StatusUpdated (newStatus : string)
| FailedToUpdateStatus (message : string).

(** [toggleEntryStatus]: the entries of the page and the toast after the
    handler.  [error] is what the update of the table returned: with an
    error the handler throws before [setEntries], and the [catch] block
    only shows the failure.  Otherwise
    [setEntries(entries.map(entry => entry.id === id
      ? { ...entry, status: newStatus, updated_at: now } : entry))]. *)
Definition toggleEntryStatus (entries : list Entry.t) (id currentStatus now : string)
  (error : option string) : list Entry.t * toast :=
  match error with
  | Some message => (entries, FailedToUpdateStatus message)
  | None =>
      (map (fun entry =>
              if String.eqb (Entry.id entry) id
              then Entry.mk (Entry.id entry) (Entry.summary entry) (Entry.achievements entry)
                            (Entry.challenges entry) (Entry.remarks entry) (Entry.date entry)
                            (Entry.user_id entry) (Entry.created_at entry) now
                            (newStatus currentStatus)
                            (Entry.skills_tools entry) (Entry.tags entry)
                            (Entry.time_spent entry)
              else entry)
           entries,
       StatusUpdated (newStatus currentStatus))
  end.

(** [f?.toLowerCase() || ''] *)
Definition lowerOrEmpty (f : option string) : string :=
  match f with
  | Some s => JSString.toLowerCase s
  | None => EmptyString
  end.

(** The predicate of [filteredEntries]. *)
Definition matchesQuery (searchQuery : string) (entry : Entry.t) : bool :=
  JSString.includes (JSString.toLowerCase (Entry.summary entry))
                    (JSString.toLowerCase searchQuery)
  || JSString.includes (lowerOrEmpty (Entry.achievements entry))
                       (JSString.toLowerCase searchQuery)
  || JSString.includes (lowerOrEmpty (Entry.remarks entry))
                       (JSString.toLowerCase searchQuery)
  || JSString.includes (lowerOrEmpty (Entry.challenges entry))
                       (JSString.toLowerCase searchQuery).

Definition filteredEntries (entries : list Entry.t) (searchQuery : string)
  : list Entry.t :=
  filter (matchesQuery searchQuery) entries.

End Entries.

(** ** The entry form (src/components/NewEntryForm.tsx) *)

Module NewEntryForm.

(** The effect that loads [editData]: [editData.time_spent || 0], then
    the same split into hours and minutes. *)
Definition timeSpent (time_spent : JS.field) : JS.number := JS.orZero time_spent.

Definition hours (time_spent : JS.field) : JS.number :=
  JSMath.floor (JS.div (timeSpent time_spent) 60).

Definition minutes (time_spent : JS.field) : JS.number :=
  JSMath.rem (timeSpent time_spent) 60.

End NewEntryForm.

(** ** Notions used to state the properties *)

(** The value of a number, 0 for [NaN]. *)
Definition valueOf (x : JS.number) : Q :=
  match x with
  | JS.Num q => q
  | JS.NaN => 0%Q
  end.

(** The sum [((0 + a1) + a2) + ...] of JavaScript numbers, in the order
    in which a loop accumulates it. *)
Definition sumNumbers (xs : list JS.number) : JS.number :=
  fold_left JS.add xs (JS.Num 0).

(** The status is none of the five spellings the counters know. *)
Definition isOther (r : Report.t) : bool :=
  negb (isCompleted r || isPending r || isInProgress r).

(** Number of occurrences of a label in a list of labels. *)
Definition occurrences (label : string) (labels : list string) : Z :=
  Z.of_nat (List.length (filter (String.eqb label) labels)).

(** The labels a field contributes, and those of a whole record set. *)
Definition fieldLabels (f : option string) : list string :=
  match f with
  | None => []
  | Some EmptyString => []
  | Some s => map JS.trim (JS.split_comma s)
  end.

Definition allLabels (field : Report.t -> option string) (reports : list Report.t)
  : list string :=
  flat_map (fun r => fieldLabels (field r)) reports.

(** The worked example: one completed entry of 60 minutes on each day
    from 2024-01-01 to 2024-01-20. *)
Definition entryOn (d : string) : Report.t :=
  Report.mk d "completed" (JS.Value (JS.Num 60)) None None.

Definition january2024 : list Report.t :=
  map entryOn
      ["2024-01-01"; "2024-01-02"; "2024-01-03"; "2024-01-04"; "2024-01-05";
       "2024-01-06"; "2024-01-07"; "2024-01-08"; "2024-01-09"; "2024-01-10";
       "2024-01-11"; "2024-01-12"; "2024-01-13"; "2024-01-14"; "2024-01-15";
       "2024-01-16"; "2024-01-17"; "2024-01-18"; "2024-01-19"; "2024-01-20"]%string.

(** 2024-01-01 and 2024-01-20 at 00:00 UTC. *)
Definition jan01 : Z := 1704067200000.
Definition jan20 : Z := 1705708800000.

(** Whole days from the Monday of the local week to the day of [t]. *)
Definition daysSinceMonday (tz t : Z) : Z := (localDay tz t + 3) mod 7.

(** [n] consecutive local midnights starting at [first]. *)
Definition dayList (first : Z) (n : nat) : list Z :=
  map (fun k => first + Z.of_nat k * Calendar.msPerDay) (seq 0 n).

(** The row has a valid date within [[lo, hi]]. *)
Definition inInterval (newDate : string -> option Z) (lo hi : Z) (r : Report.t) : bool :=
  match newDate (Report.date r) with
  | Some t => (lo <=? t) && (t <=? hi)
  | None => false
  end.

(** The rows of a record set that a bucket over [[lo, hi]] takes in. *)
Definition rowsIn (newDate : string -> option Z) (lo hi : Z) (reports : list Report.t)
  : list Report.t :=
  filter (inInterval newDate lo hi) reports.

(** The day of a bucket on which a row falls: the first of the days'
    [dates] that [format] prints like the row's date. *)
Definition dayOfRow (tz : Z) (newDate : string -> option Z) (dates : list Z)
  (r : Report.t) : option nat :=
  match newDate (Report.date r) with
  | Some t =>
      findIndex (fun d => String.eqb (format_yyyy_MM_dd tz d) (format_yyyy_MM_dd tz t))
                dates
  | None => None
  end.

Definition isOnDay (tz : Z) (newDate : string -> option Z) (dates : list Z) (i : nat)
  (r : Report.t) : bool :=
  match dayOfRow tz newDate dates r with
  | Some j => Nat.eqb j i
  | None => false
  end.

(** The rows of a list that fall on day [i]. *)
Definition rowsOnDay (tz : Z) (newDate : string -> option Z) (dates : list Z) (i : nat)
  (rows : list Report.t) : list Report.t :=
  filter (isOnDay tz newDate dates i) rows.

(** The interval of the weekly bucket built for [weekStartDate]. *)
Definition weekLo (tz weekStartDate : Z) : Z := startOfWeek tz weekStartDate.
Definition weekHi (tz endDateToUse weekStartDate : Z) : Z :=
  if isBefore (endOfWeek tz weekStartDate) endDateToUse
  then endOfWeek tz weekStartDate else endDateToUse.

(** The interval of the monthly bucket built for [monthDate]. *)
Definition monthLo (tz monthDate : Z) : Z := startOfMonth tz monthDate.
Definition monthHi (tz analysisEndDate monthDate : Z) : Z :=
  if isBefore (endOfMonth tz monthDate) analysisEndDate
  then endOfMonth tz monthDate else analysisEndDate.

(** A number other than [NaN]. *)
Definition isNum (x : JS.number) : Prop := exists q, x = JS.Num q.

(** Exact sums of the hours of days and of rows. *)
Definition dayHoursQ (days : list Day.t) : Q :=
  fold_right (fun d acc => (valueOf (Day.hours d) + acc)%Q) 0%Q days.

Definition hoursQ (rows : list Report.t) : Q :=
  fold_right (fun r acc => (valueOf (reportHours r) + acc)%Q) 0%Q rows.

(** The days of a bucket reach every instant of [[lo, hi]]. *)
Definition coversDays (tz lo hi : Z) (dates : list Z) : Prop :=
  forall t, lo <= t <= hi -> exists d, In d dates /\ localDay tz d = localDay tz t.

(** [x] is [c / t * 100] rounded to a nearest integer, between 0 and
    100, and 0 when [t] is 0. *)
Definition roundedPercent (c t : Z) (x : JS.number) : Prop :=
  exists n : Z,
    JS.eqn x (JS.Num (inject_Z n))
    /\ 0 <= n <= 100
    /\ (t = 0 -> n = 0)
    /\ (0 < t -> 2 * Z.abs (100 * c - n * t) <= t).

(** The row with another value in [time_spent]. *)
Definition withDuration (r : Report.t) (f : JS.field) : Report.t :=
  Report.mk (Report.date r) (Report.status r) f (Report.tags r) (Report.skills_tools r).

(** The read [o[label]] finds the count [n]: nothing when [n] is 0. *)
Definition hasCount (x : JS.lookup) (n : Z) : Prop :=
  (n = 0 /\ x = JS.Absent)
  \/ (0 < n /\ exists q, x = JS.Own (JS.Number (JS.Num q)) /\ (q == inject_Z n)%Q).

(** The read [o[label]] of a name of [Object.prototype] after [n]
    increments: still what the prototype holds when [n] is 0 or the name
    is [__proto__], else the text of that followed by [n] digits 1. *)
Definition hasText (x : JS.lookup) (label : string) (n : Z) : Prop :=
  ((n = 0 \/ label = "__proto__"%string) /\ x = JS.Inherited label)
  \/ (0 < n /\ label <> "__proto__"%string
      /\ x = JS.Own (JS.Appended label (Z.to_nat n))).

(** A stored value that is a number other than [NaN]. *)
Definition isCount (v : JS.value) : Prop := exists q, v = JS.Number (JS.Num q).

(** No label of the list is a property name of [Object.prototype]. *)
Definition plainLabels (labels : list string) : Prop :=
  Forall (fun label => JS.inherited label = false) labels.

(** The two rows of the tag example. *)
Definition taggedRows : list Report.t :=
  [Report.mk "2024-01-01" "completed" (JS.Value (JS.Num 60)) (Some "api, testing"%string) None;
   Report.mk "2024-01-02" "completed" (JS.Value (JS.Num 60)) (Some "api, design"%string) None].

(** 2024-01-03 (a Wednesday) and 2024-01-05 at 00:00 UTC. *)
Definition jan03 : Z := 1704240000000.

(** A row whose [time_spent] property is absent. *)
Definition rowWithoutDuration : Report.t :=
  Report.mk "2024-01-01" "completed" JS.Undefined None None.

(** A row whose [time_spent] is [null], as a query delivers a missing
    value. *)
Definition rowWithNullDuration : Report.t :=
  Report.mk "2024-01-01" "completed" JS.Null None None.

(** A row with a negative [time_spent], a row dated 2024-01-02,
    a row whose tags end in a comma, a row with an unknown status. *)
Definition rowWithNegativeDuration : Report.t :=
  Report.mk "2024-01-01" "completed" (JS.Value (JS.Num (-30))) None None.
Definition rowOnTuesday : Report.t := entryOn "2024-01-02".
Definition rowWithTrailingComma : Report.t :=
  Report.mk "2024-01-01" "completed" (JS.Value (JS.Num 60)) (Some "api,"%string) None.
Definition rowTaggedConstructor : Report.t :=
  Report.mk "2024-01-01" "completed" (JS.Value (JS.Num 60))
            (Some "constructor, api"%string) None.
Definition rowInProgress : Report.t :=
  Report.mk "2024-01-01" "in_progress" (JS.Value (JS.Num 60)) None None.
Definition rowWithBadDate : Report.t :=
  Report.mk "bad-date" "completed" (JS.Value (JS.Num 30)) None None.

(** 2024-01-16 (a Tuesday) at 00:00 UTC, and a row on that day. *)
Definition jan16 : Z := 1705363200000.
Definition rowOnJan16 : Report.t := entryOn "2024-01-16".

(** US Eastern standard time and Indian standard time as fixed offsets. *)
Definition utcMinus5 : Z := -18000000.
Definition utcPlus0530 : Z := 19800000.

(** A row of one minute. *)
Definition rowOfOneMinute : Report.t :=
  Report.mk "2024-01-01" "completed" (JS.Value (JS.Num 1)) None None.

(** An entry that differs from [e] in [time_spent] only. *)
Definition entryWithTime (e : Entry.t) (f : JS.field) : Entry.t :=
  Entry.mk (Entry.id e) (Entry.summary e) (Entry.achievements e) (Entry.challenges e)
           (Entry.remarks e) (Entry.date e) (Entry.user_id e) (Entry.created_at e)
           (Entry.updated_at e) (Entry.status e) (Entry.skills_tools e) (Entry.tags e) f.

(** The three statuses the entry form offers. *)
Definition canonicalStatus (s : string) : Prop :=
  s = "completed"%string \/ s = "in progress"%string \/ s = "pending"%string.

(** A string of ASCII characters: lower-casing maps such a string
    character by character. *)
Fixpoint asciiOnly (s : string) : bool :=
  match s with
  | EmptyString => true
  | String c rest => Nat.ltb (nat_of_ascii c) 128 && asciiOnly rest
  end.

(** Sample entries. *)
Definition sampleEntry (id summary status : string) (minutes : Z) : Entry.t :=
  Entry.mk id summary None None None "2024-01-01" "u1" "" "" status None None
           (JS.Value (JS.Num (inject_Z minutes))).

(** The labels of the days of a week that starts on Monday. *)
Definition weekdayLabels : list string :=
  ["Mon"; "Tue"; "Wed"; "Thu"; "Fri"; "Sat"; "Sun"]%string.

(** The UTC day number of a row with a valid date. *)
Definition utcDayOf (newDate : string -> option Z) (r : Report.t) : Z :=
  match newDate (Report.date r) with
  | Some t => t / Calendar.msPerDay
  | None => 0
  end.

(** The spellings of "in progress" that only the Reports page knows. *)
Definition isOtherInProgress (r : Report.t) : bool :=
  String.eqb (Report.status r) "in_progress"
  || String.eqb (Report.status r) "inprogress".

(** [time_spent] holds a number or [null]: the value can be divided. *)
Definition hasNumericTime (r : Report.t) : Prop :=
  Report.time_spent r = JS.Null
  \/ exists q, Report.time_spent r = JS.Value (JS.Num q).

(** [x] has at least the count of [y]. *)
Definition countAtLeast (x y : string * JS.value) : Prop :=
  (valueOf (JS.valueToNumber (snd y)) <= valueOf (JS.valueToNumber (snd x)))%Q.

(** 2024-01-25 at 00:00 UTC, after the range of the worked example, and
    a row on that day. *)
Definition jan25 : Z := 1706140800000.
Definition rowAfterEnd : Report.t := entryOn "2024-01-25".

(** Entries for the instances of the Entries page. *)
Definition entryOf135Minutes : Entry.t := sampleEntry "e1" "Fix API bug" "pending" 135.
Definition entryOfMinus30Minutes : Entry.t := sampleEntry "e2" "Write tests" "completed" (-30).
Definition entryOf1h75 : Entry.t :=
  entryWithTime entryOf135Minutes
    (JS.Value (Entries.time_spent (JS.Num (inject_Z 1)) (JS.Num (inject_Z 75)))).
Definition entryWithoutTime : Entry.t := entryWithTime entryOf135Minutes JS.Undefined.

(** ** Status counters *)

Section StatusCounters.

Lemma count_cons (p : Report.t -> bool) (r : Report.t) (reports : list Report.t) :
  count p (r :: reports) = count p reports + (if p r then 1 else 0).
Proof.
  unfold count; simpl. destruct (p r); simpl List.length; lia.
Qed.

Lemma count_nonneg (p : Report.t -> bool) (reports : list Report.t) :
  0 <= count p reports.
Proof. unfold count; lia. Qed.

Lemma isInProgress_iff (r : Report.t) :
  isInProgress r = true <->
  (Report.status r = "in progress" \/ Report.status r = "in_progress"
   \/ Report.status r = "inprogress")%string.
Proof.
  unfold isInProgress. rewrite !orb_true_iff, !String.eqb_eq. tauto.
Qed.

(** The three named statuses exclude one another. *)
Lemma status_exclusive (r : Report.t) :
  (if isCompleted r then 1 else 0) + (if isPending r then 1 else 0)
  + (if isInProgress r then 1 else 0) + (if isOther r then 1 else 0) = 1.
Proof.
  unfold isOther, isInProgress, isCompleted, isPending.
  destruct (String.eqb_spec (Report.status r) "completed") as [e | _];
    [rewrite e; reflexivity |].
  destruct (String.eqb_spec (Report.status r) "pending") as [e | _];
    [rewrite e; reflexivity |].
  destruct (String.eqb (Report.status r) "in progress"),
           (String.eqb (Report.status r) "in_progress"),
           (String.eqb (Report.status r) "inprogress"); reflexivity.
Qed.

Lemma counters_partition (reports : list Report.t) :
  completed reports + pending reports + inProgress reports + count isOther reports
  = Z.of_nat (List.length reports).
Proof.
  unfold completed, pending, inProgress.
  induction reports as [| r reports IH]; [reflexivity |].
  rewrite !count_cons. pose proof (status_exclusive r).
  change (List.length (r :: reports)) with (S (List.length reports)). lia.
Qed.

(** C9. A record is counted as in progress exactly when its status is
    'in progress', 'in_progress' or 'inprogress'.  The three counters and
    the records of any other status add up to totalEntries, so a record
    whose status is none of 'completed', 'pending' and the three spellings
    is in totalEntries and in no counter: for some record set
    completed + pending + inProgress is strictly below totalEntries. *)
Theorem inProgress_spellings_and_uncounted_statuses :
  (forall r reports,
      (inProgress (r :: reports) = inProgress reports + 1 <->
       (Report.status r = "in progress" \/ Report.status r = "in_progress"
        \/ Report.status r = "inprogress")%string)
      /\ (inProgress (r :: reports) = inProgress reports
          \/ inProgress (r :: reports) = inProgress reports + 1))
  /\ (forall reports,
         completed reports + pending reports + inProgress reports
         + count isOther reports = Z.of_nat (List.length reports))
  /\ (exists reports r,
         In r reports
         /\ isCompleted r = false /\ isPending r = false /\ isInProgress r = false
         /\ completed reports + pending reports + inProgress reports
            < Z.of_nat (List.length reports)).
Proof.
  split; [| split].
  - intros r reports. unfold inProgress. rewrite count_cons.
    rewrite <- isInProgress_iff. destruct (isInProgress r); split.
    + split; [reflexivity | lia].
    + right; reflexivity.
    + split; [lia | discriminate].
    + left; lia.
  - exact counters_partition.
  - exists [Report.mk "2024-01-01" "blocked" (JS.Value (JS.Num 30)) None None].
    eexists. split; [left; reflexivity |]. repeat split; reflexivity.
Qed.

End StatusCounters.

(** ** The overall total *)

Lemma add_NaN_l (x : JS.number) : JS.add JS.NaN x = JS.NaN.
Proof. reflexivity. Qed.

Lemma totalHours_fold_NaN (reports : list Report.t) :
  fold_left
    (fun sum report => JS.add sum (JS.div (JS.toNumber (Report.time_spent report)) 60))
    reports JS.NaN = JS.NaN.
Proof. induction reports as [| r reports IH]; simpl; auto. Qed.

(** Once a row without [time_spent] is met the sum stays [NaN]. *)
Lemma totalHours_undefined (before after : list Report.t) (r : Report.t) :
  Report.time_spent r = JS.Undefined ->
  totalHours (before ++ r :: after) = JS.NaN.
Proof.
  intros Hu. unfold totalHours. rewrite fold_left_app. simpl. rewrite Hu. simpl.
  destruct (fold_left _ before (JS.Num 0)); simpl; apply totalHours_fold_NaN.
Qed.

(** [null / 60] is 0: a row whose [time_spent] is [null] adds nothing. *)
Lemma totalHours_null_only (r : Report.t) :
  Report.time_spent r = JS.Null ->
  JS.eqn (totalHours [r]) (JS.Num 0).
Proof. intros Hn. unfold totalHours. simpl. rewrite Hn. simpl. reflexivity. Qed.

(** ** Local days and weeks *)

Section DateLemmas.

Import Calendar.
Variable tz : Z.

Lemma msPerDay_pos : 0 < msPerDay.
Proof. reflexivity. Qed.

Lemma localDay_addDays (t k : Z) : localDay tz (addDays t k) = localDay tz t + k.
Proof.
  unfold localDay, addDays.
  replace (t + k * msPerDay + tz) with (t + tz + k * msPerDay) by ring.
  apply Z.div_add. discriminate.
Qed.

Lemma localDay_localTime (d ms : Z) :
  0 <= ms < msPerDay -> localDay tz (localTime tz d ms) = d.
Proof.
  intros H. unfold localDay, localTime.
  replace (d * msPerDay + ms - tz + tz) with (ms + d * msPerDay) by ring.
  rewrite Z.div_add by discriminate. rewrite Z.div_small by assumption. ring.
Qed.

Lemma startOfDay_bounds (t : Z) :
  startOfDay tz t <= t < startOfDay tz t + msPerDay.
Proof.
  unfold startOfDay, localTime, localDay.
  pose proof (Z.mod_pos_bound (t + tz) msPerDay msPerDay_pos) as Hm.
  pose proof (Z.div_mod (t + tz) msPerDay) as Hd.
  assert (msPerDay <> 0) as Hnz by discriminate. specialize (Hd Hnz). lia.
Qed.

Lemma localDay_startOfDay (t : Z) : localDay tz (startOfDay tz t) = localDay tz t.
Proof.
  unfold startOfDay. apply localDay_localTime. unfold msPerDay. lia.
Qed.

Lemma startOfDay_addDays (t k : Z) :
  startOfDay tz (addDays t k) = startOfDay tz t + k * msPerDay.
Proof.
  unfold startOfDay. rewrite localDay_addDays. unfold localTime. ring.
Qed.

Lemma startOfDay_idem (t : Z) : startOfDay tz (startOfDay tz t) = startOfDay tz t.
Proof. unfold startOfDay at 1. rewrite localDay_startOfDay. reflexivity. Qed.

Lemma localDay_mono (a b : Z) : a <= b -> localDay tz a <= localDay tz b.
Proof.
  intros H. unfold localDay. apply Z.div_le_mono; [reflexivity | lia].
Qed.

Lemma daysSinceMonday_bounds (t : Z) : 0 <= daysSinceMonday tz t < 7.
Proof. unfold daysSinceMonday. apply Z.mod_pos_bound. reflexivity. Qed.

(** [startOfWeek] is the local midnight of the Monday on or before [t]. *)
Lemma startOfWeek_eq (t : Z) :
  startOfWeek tz t = startOfDay tz t - daysSinceMonday tz t * msPerDay.
Proof.
  unfold startOfWeek. rewrite startOfDay_addDays.
  unfold getDay, daysSinceMonday.
  set (d := localDay tz t).
  assert ((if (d + 4) mod 7 <? 1 then 7 else 0) + (d + 4) mod 7 - 1 = (d + 3) mod 7) as E.
  { destruct (Z.ltb_spec ((d + 4) mod 7) 1); Z.to_euclidean_division_equations; lia. }
  rewrite E. ring.
Qed.

(** [endOfWeek] is the last millisecond of the Sunday that follows. *)
Lemma endOfWeek_eq (t : Z) :
  endOfWeek tz t = startOfWeek tz t + 7 * msPerDay - 1.
Proof.
  rewrite startOfWeek_eq. unfold endOfWeek, endOfDay, startOfDay.
  rewrite localDay_addDays. unfold getDay, daysSinceMonday, localTime.
  set (d := localDay tz t).
  assert ((if (d + 4) mod 7 <? 1 then -7 else 0) + 6 - ((d + 4) mod 7 - 1)
          = 6 - (d + 3) mod 7) as E.
  { destruct (Z.ltb_spec ((d + 4) mod 7) 1); Z.to_euclidean_division_equations; lia. }
  rewrite E. ring.
Qed.

Lemma startOfWeek_le (t : Z) : startOfWeek tz t <= t.
Proof.
  rewrite startOfWeek_eq. pose proof (startOfDay_bounds t).
  pose proof (daysSinceMonday_bounds t). pose proof msPerDay_pos. nia.
Qed.

Lemma endOfWeek_ge (t : Z) : t <= endOfWeek tz t.
Proof.
  rewrite endOfWeek_eq, startOfWeek_eq. pose proof (startOfDay_bounds t).
  pose proof (daysSinceMonday_bounds t). pose proof msPerDay_pos. nia.
Qed.

Lemma daysSinceMonday_addWeeks (t i : Z) :
  daysSinceMonday tz (addWeeks t i) = daysSinceMonday tz t.
Proof.
  unfold daysSinceMonday, addWeeks. rewrite localDay_addDays.
  replace (localDay tz t + i * 7 + 3) with (localDay tz t + 3 + i * 7) by ring.
  apply Z.mod_add. discriminate.
Qed.

(** Adding weeks moves the Monday by as many weeks. *)
Lemma startOfWeek_addWeeks (t i : Z) :
  startOfWeek tz (addWeeks t i) = startOfWeek tz t + i * 7 * msPerDay.
Proof.
  rewrite !startOfWeek_eq, daysSinceMonday_addWeeks.
  unfold addWeeks. rewrite startOfDay_addDays. ring.
Qed.

Lemma localDay_startOfWeek (t : Z) :
  localDay tz (startOfWeek tz t) = localDay tz t - daysSinceMonday tz t.
Proof.
  rewrite startOfWeek_eq.
  replace (startOfDay tz t - daysSinceMonday tz t * msPerDay)
    with (addDays (startOfDay tz t) (- daysSinceMonday tz t))
    by (unfold addDays; ring).
  rewrite localDay_addDays, localDay_startOfDay. ring.
Qed.

(** The start of a week is a Monday at local midnight. *)
Lemma startOfWeek_monday (t : Z) :
  getDay tz (startOfWeek tz t) = 1
  /\ startOfDay tz (startOfWeek tz t) = startOfWeek tz t.
Proof.
  split.
  - unfold getDay. rewrite localDay_startOfWeek. unfold daysSinceMonday.
    Z.to_euclidean_division_equations; lia.
  - rewrite startOfWeek_eq.
    replace (startOfDay tz t - daysSinceMonday tz t * msPerDay)
      with (addDays (startOfDay tz t) (- daysSinceMonday tz t))
      by (unfold addDays; ring).
    rewrite startOfDay_addDays, startOfDay_idem. reflexivity.
Qed.

(** *** [eachDayOfInterval] *)

Lemma eachDayLoop_dayList (fuel : nat) (cur endTime : Z) :
  startOfDay tz cur = cur ->
  cur + (Z.of_nat fuel - 1) * msPerDay <= endTime ->
  eachDayLoop tz fuel cur endTime = dayList cur fuel.
Proof.
  revert cur. induction fuel as [| fuel IH]; intros cur Hmid Hle; [reflexivity |].
  cbn [eachDayLoop].
  assert (cur <= endTime) as Hc by (pose proof msPerDay_pos; nia).
  destruct (Z.leb_spec cur endTime) as [_ | Hgt]; [| lia].
  rewrite startOfDay_addDays, Hmid.
  rewrite IH.
  - unfold dayList. cbn [seq map]. f_equal; [simpl; ring |].
    rewrite <- seq_shift, map_map. apply map_ext. intros k.
    rewrite Nat2Z.inj_succ. ring.
  - replace (cur + 1 * msPerDay) with (addDays cur 1) by (unfold addDays; ring).
    rewrite startOfDay_addDays, Hmid. unfold addDays. ring.
  - rewrite Nat2Z.inj_succ in Hle. lia.
Qed.

Lemma eachDayOfInterval_dayList (start end_ : Z) :
  start <= end_ ->
  eachDayOfInterval tz start end_
  = Ok (dayList (startOfDay tz start)
                (Z.to_nat (localDay tz end_ - localDay tz start + 1))).
Proof.
  intros Hle. unfold eachDayOfInterval.
  destruct (Z.leb_spec start end_) as [_ | Hgt]; [| lia].
  assert ((end_ - startOfDay tz start) / msPerDay = localDay tz end_ - localDay tz start) as E.
  { unfold startOfDay, localTime, localDay.
    replace (end_ - ((start + tz) / msPerDay * msPerDay + 0 - tz))
      with (end_ + tz + (- ((start + tz) / msPerDay)) * msPerDay) by ring.
    rewrite Z.div_add by discriminate. ring. }
  rewrite E. f_equal. apply eachDayLoop_dayList.
  - apply startOfDay_idem.
  - pose proof (localDay_mono _ _ Hle) as Hm.
    rewrite Z2Nat.id by lia.
    unfold startOfDay, localTime.
    pose proof (startOfDay_bounds end_) as Hb. unfold startOfDay, localTime in Hb.
    lia.
Qed.

Lemma In_dayList (first : Z) (n : nat) (x : Z) :
  In x (dayList first n) <->
  exists k, 0 <= k < Z.of_nat n /\ x = first + k * msPerDay.
Proof.
  unfold dayList. rewrite in_map_iff. split.
  - intros (k & Hx & Hin). apply in_seq in Hin. exists (Z.of_nat k). split; [lia | auto].
  - intros (k & Hk & Hx). exists (Z.to_nat k). split.
    + rewrite Z2Nat.id by lia. auto.
    + apply in_seq. lia.
Qed.

(** Every instant of the interval has its day in the list. *)
Lemma dayList_covers (lo hi t : Z) :
  lo <= t <= hi ->
  exists d, In d (dayList (startOfDay tz lo) (Z.to_nat (localDay tz hi - localDay tz lo + 1)))
            /\ localDay tz d = localDay tz t.
Proof.
  intros [Hlo Hhi].
  pose proof (localDay_mono _ _ Hlo). pose proof (localDay_mono _ _ Hhi).
  exists (addDays (startOfDay tz lo) (localDay tz t - localDay tz lo)). split.
  - apply In_dayList. exists (localDay tz t - localDay tz lo). split; [lia |].
    reflexivity.
  - rewrite localDay_addDays, localDay_startOfDay. ring.
Qed.

(** The printed calendar date depends on the local day only. *)
Lemma format_yyyy_MM_dd_same_day (a b : Z) :
  localDay tz a = localDay tz b ->
  format_yyyy_MM_dd tz a = format_yyyy_MM_dd tz b.
Proof.
  intros H. unfold format_yyyy_MM_dd, yearOfEra, getFullYear, getMonth, getDate.
  rewrite H. reflexivity.
Qed.

(** *** Months *)

Lemma getDate_pos (t : Z) : 1 <= getDate tz t.
Proof.
  unfold getDate, civil_from_days. cbn [snd].
  Z.to_euclidean_division_equations; lia.
Qed.

Lemma startOfMonth_le (t : Z) : startOfMonth tz t <= t.
Proof.
  unfold startOfMonth. rewrite startOfDay_addDays.
  pose proof (startOfDay_bounds t). pose proof (getDate_pos t).
  pose proof msPerDay_pos. nia.
Qed.

Lemma daysInMonth_pos (y m : Z) : 28 <= daysInMonth y m.
Proof.
  unfold daysInMonth.
  destruct (m =? 1); [destruct (isLeapYear y); lia |].
  destruct ((m =? 3) || (m =? 5) || (m =? 8) || (m =? 10))%bool; lia.
Qed.

Lemma startOfMonth_le_endOfMonth (t : Z) : startOfMonth tz t <= endOfMonth tz t.
Proof.
  unfold endOfMonth.
  pose proof (daysInMonth_pos (getFullYear tz t) (getMonth tz t)).
  pose proof msPerDay_pos. nia.
Qed.

End DateLemmas.

(** ** The passes over the rows *)

Section BucketLemmas.

Variable tz : Z.
Variable newDate : string -> option Z.

Lemma forEach_app {A S : Type} (f : S -> A -> result S) (l1 l2 : list A) (s : S) :
  forEach f (l1 ++ l2) s = (s' <- forEach f l1 s ;; forEach f l2 s').
Proof.
  revert s. induction l1 as [| a l1 IH]; intros s; simpl; [reflexivity |].
  destruct (f s a); simpl; auto.
Qed.

Lemma reportHours_isNum (r : Report.t) : isNum (reportHours r).
Proof.
  unfold isNum, reportHours, JS.orZero.
  destruct (Report.time_spent r) as [| | [| q]]; simpl; eauto.
  destruct (negb (Qeq_bool q 0)); simpl; eauto.
Qed.

Lemma isWithinInterval_ok (lo hi : Z) (r : Report.t) :
  lo <= hi ->
  isWithinInterval (newDate (Report.date r)) lo hi = Ok (inInterval newDate lo hi r).
Proof.
  intros H. unfold isWithinInterval, inInterval.
  destruct (Z.leb_spec lo hi); [reflexivity | lia].
Qed.

Lemma findIndex_some {A : Type} (p : A -> bool) (l : list A) :
  (exists x, In x l /\ p x = true) ->
  exists i, findIndex p l = Some i /\ (i < List.length l)%nat.
Proof.
  induction l as [| a l IH]; intros (x & Hin & Hp); [destruct Hin |].
  simpl. destruct (p a) eqn:Ea.
  - exists O. split; [reflexivity | simpl; lia].
  - destruct Hin as [-> | Hin]; [congruence |].
    destruct IH as (i & Hi & Hlt); [eauto |].
    exists (S i). rewrite Hi. split; [reflexivity | simpl; lia].
Qed.

Lemma addHoursAt_dates (l : list Day.t) (i : nat) (h : JS.number) :
  map Day.date (addHoursAt l i h) = map Day.date l.
Proof.
  revert i. induction l as [| d l IH]; intros [| i]; simpl; auto. f_equal. apply IH.
Qed.

Lemma addHoursAt_labels (l : list Day.t) (i : nat) (h : JS.number) :
  map Day.day (addHoursAt l i h) = map Day.day l.
Proof.
  revert i. induction l as [| d l IH]; intros [| i]; simpl; auto. f_equal. apply IH.
Qed.

Lemma addHoursAt_sum (l : list Day.t) (i : nat) (q : Q) :
  (i < List.length l)%nat ->
  Forall isNum (map Day.hours l) ->
  Forall isNum (map Day.hours (addHoursAt l i (JS.Num q)))
  /\ (dayHoursQ (addHoursAt l i (JS.Num q)) == dayHoursQ l + q)%Q.
Proof.
  revert i. induction l as [| d l IH]; intros i Hi Hall; [simpl in Hi; lia |].
  simpl in Hall. inversion Hall as [| x xs [h Hh] Hrest]; subst.
  destruct i as [| i]; simpl.
  - rewrite Hh. simpl. split.
    + constructor; [eexists; reflexivity | assumption].
    + ring.
  - destruct (IH i) as [Hn Hs]; [simpl in Hi; lia | assumption |].
    split.
    + constructor; [eexists; eassumption | assumption].
    + rewrite Hs. ring.
Qed.

(** A row inside the interval finds its day, adds its hours to the day
    and to the week, and is counted. *)
Lemma weekReport_in (lo hi : Z) (s : WeekAcc) (r : Report.t) :
  lo <= hi ->
  inInterval newDate lo hi r = true ->
  coversDays tz lo hi (map Day.date (daysData s)) ->
  exists i, (i < List.length (daysData s))%nat /\
    weekReport tz newDate lo hi s r
    = Ok (mkWeekAcc (addHoursAt (daysData s) i (reportHours r))
                    (JS.add (weekTotalHours s) (reportHours r))
                    (if isCompleted r then weekCompleted s + 1 else weekCompleted s)
                    (weekTotal s + 1)).
Proof.
  intros Hle Hin Hcov. unfold weekReport.
  rewrite isWithinInterval_ok by assumption. rewrite Hin. cbn [bind].
  unfold inInterval in Hin.
  destruct (newDate (Report.date r)) as [t |] eqn:Et; [| discriminate].
  apply andb_prop in Hin. destruct Hin as [H1 H2].
  apply Z.leb_le in H1. apply Z.leb_le in H2.
  destruct (Hcov t (conj H1 H2)) as (d & Hd & Hday).
  apply in_map_iff in Hd. destruct Hd as (day & Hdate & Hday_in).
  destruct (findIndex_some
              (fun day => String.eqb (format_yyyy_MM_dd tz (Day.date day))
                                     (format_yyyy_MM_dd tz t))
              (daysData s)) as (i & Hi & Hlt).
  { exists day. split; [assumption |]. apply String.eqb_eq.
    apply format_yyyy_MM_dd_same_day. rewrite Hdate. assumption. }
  exists i. split; [assumption |].
  unfold dayIndexOf. rewrite Hi. reflexivity.
Qed.

Lemma weekReport_out (lo hi : Z) (s : WeekAcc) (r : Report.t) :
  lo <= hi ->
  inInterval newDate lo hi r = false ->
  weekReport tz newDate lo hi s r = Ok s.
Proof.
  intros Hle Hout. unfold weekReport.
  rewrite isWithinInterval_ok by assumption. rewrite Hout. reflexivity.
Qed.

(** The weekly pass over all rows. *)
Lemma forEach_weekReport (lo hi : Z) (reports : list Report.t) :
  lo <= hi ->
  forall s,
    coversDays tz lo hi (map Day.date (daysData s)) ->
    exists s',
      forEach (weekReport tz newDate lo hi) reports s = Ok s'
      /\ map Day.date (daysData s') = map Day.date (daysData s)
      /\ map Day.day (daysData s') = map Day.day (daysData s)
      /\ weekTotalHours s'
         = fold_left JS.add (map reportHours (rowsIn newDate lo hi reports))
                     (weekTotalHours s)
      /\ weekCompleted s' = weekCompleted s + count isCompleted (rowsIn newDate lo hi reports)
      /\ weekTotal s' = weekTotal s + Z.of_nat (List.length (rowsIn newDate lo hi reports))
      /\ (Forall isNum (map Day.hours (daysData s)) ->
          Forall isNum (map Day.hours (daysData s'))
          /\ (dayHoursQ (daysData s')
              == dayHoursQ (daysData s) + hoursQ (rowsIn newDate lo hi reports))%Q).
Proof.
  intros Hle. induction reports as [| r reports IH]; intros s Hcov.
  - exists s. unfold rowsIn, count. cbn.
    split; [reflexivity |]. split; [reflexivity |]. split; [reflexivity |].
    split; [reflexivity |]. split; [lia |]. split; [lia |].
    intros Hall. split; [assumption | ring].
  - cbn [forEach]. unfold rowsIn. cbn [filter].
    destruct (inInterval newDate lo hi r) eqn:Hin.
    + destruct (weekReport_in lo hi s r Hle Hin Hcov) as (i & Hi & Hstep).
      rewrite Hstep. cbn [bind].
      destruct (IH (mkWeekAcc (addHoursAt (daysData s) i (reportHours r))
                              (JS.add (weekTotalHours s) (reportHours r))
                              (if isCompleted r then weekCompleted s + 1 else weekCompleted s)
                              (weekTotal s + 1)))
        as (s' & Hrun & Hdates & Hlabels & Htot & Hc & Ht & Hsum).
      { cbn [daysData]. rewrite addHoursAt_dates. assumption. }
      cbn [daysData weekTotalHours weekCompleted weekTotal] in *.
      exists s'. split; [assumption |].
      rewrite addHoursAt_dates in Hdates. rewrite addHoursAt_labels in Hlabels.
      split; [assumption |]. split; [assumption |].
      split; [exact Htot |].
      split; [rewrite Hc, count_cons; fold (rowsIn newDate lo hi reports);
              destruct (isCompleted r); lia |].
      split; [rewrite Ht; fold (rowsIn newDate lo hi reports);
              change (List.length (r :: rowsIn newDate lo hi reports))
                with (S (List.length (rowsIn newDate lo hi reports))); lia |].
      intros Hall. destruct (reportHours_isNum r) as [q Hq].
      rewrite Hq in Hsum.
      destruct (addHoursAt_sum (daysData s) i q Hi Hall) as [Hall' Hs'].
      destruct (Hsum Hall') as [Hfin Hval]. split; [assumption |].
      rewrite Hval, Hs'. cbn [hoursQ fold_right].
      fold (rowsIn newDate lo hi reports). fold (hoursQ (rowsIn newDate lo hi reports)).
      rewrite Hq. simpl valueOf. ring.
    + rewrite (weekReport_out lo hi s r Hle Hin). cbn [bind].
      apply IH. assumption.
Qed.

(** *** The hours of each day *)

Lemma findIndex_map {A B : Type} (f : A -> B) (p : B -> bool) (l : list A) :
  findIndex (fun x => p (f x)) l = findIndex p (map f l).
Proof.
  induction l as [| a l IH]; cbn [findIndex map]; [reflexivity |].
  destruct (p (f a)); [reflexivity |]. rewrite IH. reflexivity.
Qed.

(** A row inside the interval falls on one of the days. *)
Lemma dayOfRow_some (lo hi : Z) (dates : list Z) (r : Report.t) :
  inInterval newDate lo hi r = true ->
  coversDays tz lo hi dates ->
  exists i, dayOfRow tz newDate dates r = Some i /\ (i < List.length dates)%nat.
Proof.
  intros Hin Hcov. unfold inInterval in Hin. unfold dayOfRow.
  destruct (newDate (Report.date r)) as [t |]; [| discriminate].
  apply andb_prop in Hin. destruct Hin as [H1 H2].
  apply Z.leb_le in H1. apply Z.leb_le in H2.
  destruct (Hcov t (conj H1 H2)) as (d & Hd & Hday).
  apply findIndex_some. exists d. split; [assumption |].
  apply String.eqb_eq. apply format_yyyy_MM_dd_same_day. assumption.
Qed.

Lemma weekReport_in_day (lo hi : Z) (s : WeekAcc) (r : Report.t) (i : nat) :
  lo <= hi ->
  inInterval newDate lo hi r = true ->
  dayOfRow tz newDate (map Day.date (daysData s)) r = Some i ->
  weekReport tz newDate lo hi s r
  = Ok (mkWeekAcc (addHoursAt (daysData s) i (reportHours r))
                  (JS.add (weekTotalHours s) (reportHours r))
                  (if isCompleted r then weekCompleted s + 1 else weekCompleted s)
                  (weekTotal s + 1)).
Proof.
  intros Hle Hin Hday. unfold weekReport.
  rewrite isWithinInterval_ok by assumption. rewrite Hin. cbn [bind].
  unfold dayOfRow in Hday. unfold dayIndexOf.
  destruct (newDate (Report.date r)) as [t |]; [| discriminate].
  rewrite <- findIndex_map in Hday. rewrite Hday. reflexivity.
Qed.

Lemma hours_addHoursAt (l : list Day.t) (i j : nat) (h : JS.number) :
  nth_error (map Day.hours (addHoursAt l i h)) j
  = if Nat.eqb i j
    then option_map (fun x => JS.add x h) (nth_error (map Day.hours l) j)
    else nth_error (map Day.hours l) j.
Proof.
  revert i j. induction l as [| d l IH]; intros i j.
  - destruct i, j; cbn; try reflexivity; destruct (Nat.eqb i j); reflexivity.
  - destruct i as [| i], j as [| j]; cbn [addHoursAt map nth_error Nat.eqb Day.hours];
      try reflexivity.
    apply IH.
Qed.

(** After the pass, the hours of day [j] are its hours before plus, in the
    order of the rows, the hours of the rows of the interval that fall on
    day [j]. *)
Lemma forEach_weekReport_days (lo hi : Z) (reports : list Report.t) :
  lo <= hi ->
  forall s,
    coversDays tz lo hi (map Day.date (daysData s)) ->
    exists s',
      forEach (weekReport tz newDate lo hi) reports s = Ok s'
      /\ forall j,
           nth_error (map Day.hours (daysData s')) j
           = option_map
               (fun h0 =>
                  fold_left JS.add
                    (map reportHours
                       (rowsOnDay tz newDate (map Day.date (daysData s)) j
                                  (rowsIn newDate lo hi reports)))
                    h0)
               (nth_error (map Day.hours (daysData s)) j).
Proof.
  intros Hle. induction reports as [| r reports IH]; intros s Hcov.
  - exists s. split; [reflexivity |]. intros j. cbn.
    destruct (nth_error (map Day.hours (daysData s)) j); reflexivity.
  - cbn [forEach]. unfold rowsIn. cbn [filter].
    destruct (inInterval newDate lo hi r) eqn:Hin.
    + destruct (dayOfRow_some lo hi _ r Hin Hcov) as (i & Hi & Hlt).
      rewrite (weekReport_in_day lo hi s r i Hle Hin Hi). cbn [bind].
      destruct (IH (mkWeekAcc (addHoursAt (daysData s) i (reportHours r))
                              (JS.add (weekTotalHours s) (reportHours r))
                              (if isCompleted r then weekCompleted s + 1 else weekCompleted s)
                              (weekTotal s + 1)))
        as (s' & Hrun & Hdays).
      { cbn [daysData]. rewrite addHoursAt_dates. assumption. }
      exists s'. split; [assumption |]. intros j. rewrite Hdays.
      cbn [daysData]. rewrite addHoursAt_dates, hours_addHoursAt.
      fold (rowsIn newDate lo hi reports).
      assert (rowsOnDay tz newDate (map Day.date (daysData s)) j
                        (r :: rowsIn newDate lo hi reports)
              = if Nat.eqb i j
                then r :: rowsOnDay tz newDate (map Day.date (daysData s)) j
                                    (rowsIn newDate lo hi reports)
                else rowsOnDay tz newDate (map Day.date (daysData s)) j
                               (rowsIn newDate lo hi reports)) as ->.
      { unfold rowsOnDay. cbn [filter]. unfold isOnDay at 1. rewrite Hi. reflexivity. }
      destruct (Nat.eqb i j); [| reflexivity].
      destruct (nth_error (map Day.hours (daysData s)) j); reflexivity.
    + rewrite (weekReport_out lo hi s r Hle Hin). cbn [bind].
      apply IH. assumption.
Qed.

(** The monthly pass over all rows. *)
Lemma forEach_monthReport (lo hi : Z) (reports : list Report.t) :
  lo <= hi ->
  forall s,
    forEach (monthReport newDate lo hi) reports s
    = Ok (mkMonthAcc
            (fold_left JS.add (map reportHours (rowsIn newDate lo hi reports))
                       (monthlyHours s))
            (monthCompleted s + count isCompleted (rowsIn newDate lo hi reports))
            (monthTotal s + Z.of_nat (List.length (rowsIn newDate lo hi reports)))).
Proof.
  intros Hle. induction reports as [| r reports IH]; intros s.
  - cbn. destruct s; cbn. f_equal. f_equal; unfold count; simpl; lia.
  - cbn [forEach]. unfold monthReport at 1.
    rewrite isWithinInterval_ok by assumption.
    unfold rowsIn. cbn [filter].
    destruct (inInterval newDate lo hi r) eqn:Hin; cbn [bind].
    + rewrite IH. cbn [monthlyHours monthCompleted monthTotal map fold_left].
      fold (rowsIn newDate lo hi reports). rewrite count_cons.
      change (List.length (r :: rowsIn newDate lo hi reports))
        with (S (List.length (rowsIn newDate lo hi reports))).
      f_equal. f_equal; destruct (isCompleted r); lia.
    + rewrite IH. reflexivity.
Qed.

End BucketLemmas.

(** ** Rounding the completion rate *)

Lemma toFixed_isNum (d : nat) (q : Q) : isNum (JS.toFixed d (JS.Num q)).
Proof.
  unfold isNum, JS.toFixed.
  destruct (Qle_bool _ (Qabs q)); [eauto |]. eauto.
Qed.

Lemma toFixed0_percent (p : positive) (c : Z) :
  0 <= c <= Z.pos p ->
  roundedPercent c (Z.pos p) (JS.toFixed 0 (rate c (Z.pos p))).
Proof.
  intros Hc. unfold rate. cbn [Z.ltb Z.compare JS.mul].
  set (x := (inject_Z c / inject_Z (Z.pos p) * 100)%Q).
  assert (x == (100 * c) # p)%Q as Hx.
  { unfold x, Qdiv, Qinv, inject_Z. cbn [Qnum Qden]. unfold Qeq, Qmult. cbn [Qnum Qden].
    rewrite !Pos2Z.inj_mul. ring. }
  assert (0 <= x)%Q as Hx0.
  { rewrite Hx. unfold Qle. cbn [Qnum Qden]. lia. }
  assert (x <= 100)%Q as Hx100.
  { rewrite Hx. unfold Qle. cbn [Qnum Qden]. lia. }
  assert (Qabs x == x)%Q as Habs by (apply Qabs_pos; assumption).
  unfold JS.toFixed.
  destruct (Qle_bool (inject_Z (10 ^ 21)) (Qabs x)) eqn:Hbig.
  { apply Qle_bool_iff in Hbig. rewrite Habs in Hbig.
    exfalso. apply (Qle_not_lt _ _ Hbig).
    apply Qle_lt_trans with (y := 100%Q); [assumption | reflexivity]. }
  assert (Qle_bool 0 x = true) as Hpos by (apply Qle_bool_iff; assumption).
  rewrite Hpos.
  set (y := (Qabs x * inject_Z (JS.pow10 0) + (1 # 2))%Q).
  assert (y == (200 * c + Z.pos p) # (2 * p))%Q as Hy.
  { unfold y. rewrite Habs, Hx. unfold JS.pow10, inject_Z, Qeq, Qplus, Qmult.
    cbn [Qnum Qden Z.of_nat Z.pow]. rewrite !Pos2Z.inj_mul. ring. }
  set (n := Qfloor y).
  assert (inject_Z n <= (200 * c + Z.pos p) # (2 * p))%Q as Hlo
    by (rewrite <- Hy; apply Qfloor_le).
  assert ((200 * c + Z.pos p) # (2 * p) < inject_Z (n + 1))%Q as Hhi
    by (rewrite <- Hy; apply Qlt_floor).
  unfold Qle, inject_Z in Hlo. unfold Qlt, inject_Z in Hhi.
  cbn [Qnum Qden] in Hlo, Hhi. rewrite Pos2Z.inj_mul in Hlo, Hhi.
  exists n. split; [| split; [| split]].
  - unfold JS.eqn, JS.pow10, Qdiv, Qinv, inject_Z, Qeq, Qmult. cbn. ring.
  - clearbody n. clear - Hc Hlo Hhi. pose proof (Pos2Z.is_pos p). split; nia.
  - intros Ht; discriminate.
  - intros _. clearbody n. clear - Hc Hlo Hhi.
    replace (n * (2 * Z.pos p)) with (2 * (n * Z.pos p)) in Hlo by ring.
    replace ((n + 1) * (2 * Z.pos p)) with (2 * (n * Z.pos p) + 2 * Z.pos p) in Hhi by ring.
    lia.
Qed.

(** The completion rate of a bucket with [c] completed rows out of [t]. *)
Lemma toFixed0_rate (c t : Z) :
  0 <= c <= t -> roundedPercent c t (JS.toFixed 0 (rate c t)).
Proof.
  intros Hc. destruct t as [| p | p]; [| apply toFixed0_percent; assumption | lia].
  exists 0. unfold JS.eqn. cbn. repeat split; lia.
Qed.

Lemma count_le_length (p : Report.t -> bool) (rows : list Report.t) :
  0 <= count p rows <= Z.of_nat (List.length rows).
Proof.
  unfold count. split; [lia |]. apply Nat2Z.inj_le. apply filter_length_le.
Qed.

(** ** Buckets *)

Section Buckets.

Import Calendar.
Variable tz : Z.
Variable newDate : string -> option Z.

Lemma weekLo_le_weekHi (E wsd : Z) : wsd <= E -> weekLo tz wsd <= weekHi tz E wsd.
Proof.
  intros Hg. unfold weekLo, weekHi, isBefore.
  pose proof (startOfWeek_le tz wsd). pose proof (endOfWeek_ge tz wsd).
  destruct (Z.ltb_spec (endOfWeek tz wsd) E); lia.
Qed.

Lemma monthLo_le_monthHi (A md : Z) : md <= A -> monthLo tz md <= monthHi tz A md.
Proof.
  intros Hg. unfold monthLo, monthHi, isBefore.
  pose proof (startOfMonth_le tz md). pose proof (startOfMonth_le_endOfMonth tz md).
  destruct (Z.ltb_spec (endOfMonth tz md) A); lia.
Qed.

Lemma dayHoursQ_zero (dates : list Z) :
  Forall isNum (map Day.hours (map (fun date => Day.mk (format_EEE tz date) date (JS.Num 0)) dates))
  /\ (dayHoursQ (map (fun date => Day.mk (format_EEE tz date) date (JS.Num 0)) dates) == 0)%Q.
Proof.
  induction dates as [| d dates [IH1 IH2]]; cbn.
  - split; [constructor | reflexivity].
  - split; [constructor; [eexists; reflexivity | assumption] |].
    fold (dayHoursQ (map (fun date => Day.mk (format_EEE tz date) date (JS.Num 0)) dates)).
    rewrite IH2. reflexivity.
Qed.

(** What one turn of the weekly loop builds. *)
Lemma weekBucket_spec (reports : list Report.t) (E wsd : Z) :
  wsd <= E ->
  let lo := weekLo tz wsd in
  let hi := weekHi tz E wsd in
  let rows := rowsIn newDate lo hi reports in
  let dates := dayList lo (Z.to_nat (localDay tz hi - localDay tz lo + 1)) in
  exists b,
    weekBucket tz newDate reports E wsd = Ok b
    /\ Week.weekStart b = format_MMM_dd tz lo
    /\ Week.weekEnd b = format_MMM_dd tz hi
    /\ Week.totalHours b = JS.toFixed 1 (sumNumbers (map reportHours rows))
    /\ Week.completionRate b
       = JS.toFixed 0 (rate (count isCompleted rows) (Z.of_nat (List.length rows)))
    /\ map Day.date (Week.days b) = dates
    /\ map Day.day (Week.days b) = map (format_EEE tz) dates
    /\ Forall isNum (map Day.hours (Week.days b))
    /\ (dayHoursQ (Week.days b) == hoursQ rows)%Q.
Proof.
  intros Hg lo hi rows dates.
  pose proof (weekLo_le_weekHi E wsd Hg) as Hle. fold lo hi in Hle.
  unfold weekBucket. fold (weekLo tz wsd) (weekHi tz E wsd). fold lo hi.
  assert (startOfDay tz lo = lo) as Hmid by (apply startOfWeek_monday).
  rewrite (eachDayOfInterval_dayList tz lo hi Hle), Hmid. fold dates. cbn [bind].
  set (days0 := map (fun date => Day.mk (format_EEE tz date) date (JS.Num 0)) dates).
  assert (map Day.date days0 = dates) as Hd0.
  { unfold days0. rewrite map_map. cbn. apply map_id. }
  assert (map Day.day days0 = map (format_EEE tz) dates) as Hl0.
  { unfold days0. rewrite map_map. reflexivity. }
  destruct (forEach_weekReport tz newDate lo hi reports Hle
              (mkWeekAcc days0 (JS.Num 0) 0 0))
    as (s & Hrun & Hdates & Hlabels & Htot & Hc & Ht & Hsum).
  { cbn [daysData]. rewrite Hd0. intros t Ht.
    pose proof (dayList_covers tz lo hi t Ht) as Hcov. rewrite Hmid in Hcov. exact Hcov. }
  rewrite Hrun. cbn [bind]. eexists. split; [reflexivity |].
  cbn [Week.weekStart Week.weekEnd Week.totalHours Week.completionRate Week.days].
  cbn [daysData weekTotalHours weekCompleted weekTotal] in *.
  fold rows in Htot, Hc, Ht, Hsum.
  destruct (dayHoursQ_zero dates) as [Hnum0 Hzero]. fold days0 in Hnum0, Hzero.
  destruct (Hsum Hnum0) as [Hnum Hval].
  repeat split.
  - rewrite Htot. reflexivity.
  - rewrite Hc, Ht. reflexivity.
  - rewrite Hdates. assumption.
  - rewrite Hlabels. assumption.
  - assumption.
  - rewrite Hval, Hzero. ring.
Qed.

(** The hours of each day of a weekly bucket: the sum, in the order of the
    rows, of the hours of the bucket's rows that fall on the day; and
    every row of the bucket falls on one of its days. *)
Lemma weekBucket_days (reports : list Report.t) (E wsd : Z) (b : Week.t) :
  wsd <= E ->
  weekBucket tz newDate reports E wsd = Ok b ->
  let rows := rowsIn newDate (weekLo tz wsd) (weekHi tz E wsd) reports in
  (forall i d, nth_error (Week.days b) i = Some d ->
     Day.hours d
     = sumNumbers (map reportHours
                       (rowsOnDay tz newDate (map Day.date (Week.days b)) i rows)))
  /\ (forall r, In r rows ->
        exists i, dayOfRow tz newDate (map Day.date (Week.days b)) r = Some i
                  /\ (i < List.length (Week.days b))%nat).
Proof.
  intros Hg Hb rows.
  pose proof (weekLo_le_weekHi E wsd Hg) as Hle.
  unfold weekBucket in Hb. fold (weekLo tz wsd) (weekHi tz E wsd) in Hb.
  set (lo := weekLo tz wsd) in *. set (hi := weekHi tz E wsd) in *.
  assert (startOfDay tz lo = lo) as Hmid by (apply startOfWeek_monday).
  rewrite (eachDayOfInterval_dayList tz lo hi Hle), Hmid in Hb. cbn [bind] in Hb.
  set (dates := dayList lo (Z.to_nat (localDay tz hi - localDay tz lo + 1))) in *.
  set (days0 := map (fun date => Day.mk (format_EEE tz date) date (JS.Num 0)) dates) in *.
  assert (map Day.date days0 = dates) as Hd0.
  { unfold days0. rewrite map_map. cbn. apply map_id. }
  assert (coversDays tz lo hi dates) as Hcov.
  { intros t Ht. pose proof (dayList_covers tz lo hi t Ht) as H.
    rewrite Hmid in H. exact H. }
  destruct (forEach_weekReport tz newDate lo hi reports Hle
              (mkWeekAcc days0 (JS.Num 0) 0 0)) as (s & Hrun & Hdates & _).
  { cbn [daysData]. rewrite Hd0. exact Hcov. }
  destruct (forEach_weekReport_days tz newDate lo hi reports Hle
              (mkWeekAcc days0 (JS.Num 0) 0 0)) as (s2 & Hrun2 & Hdays).
  { cbn [daysData]. rewrite Hd0. exact Hcov. }
  rewrite Hrun in Hrun2. injection Hrun2 as <-.
  rewrite Hrun in Hb. cbn [bind] in Hb. injection Hb as <-. cbn [Week.days].
  cbn [daysData] in Hdates, Hdays. rewrite Hd0 in Hdates, Hdays. rewrite Hdates.
  fold rows in Hdays. split.
  - intros i d Hi.
    pose proof (map_nth_error Day.hours _ _ Hi) as Hh. rewrite Hdays in Hh.
    assert (forall h, nth_error (map Day.hours days0) i = Some h -> h = JS.Num 0) as Hz.
    { unfold days0. rewrite map_map. cbn [Day.hours]. intros h Hj.
      apply nth_error_In in Hj. apply in_map_iff in Hj.
      destruct Hj as (x & <- & _). reflexivity. }
    destruct (nth_error (map Day.hours days0) i) as [h0 |]; [| discriminate].
    rewrite (Hz h0 eq_refl) in Hh. cbn [option_map] in Hh. injection Hh as <-.
    reflexivity.
  - intros r Hr. apply filter_In in Hr. destruct Hr as [_ Hr].
    destruct (dayOfRow_some tz newDate lo hi dates r Hr Hcov) as (i & Hi & Hlt).
    exists i. split; [assumption |].
    rewrite <- (length_map Day.date), Hdates. assumption.
Qed.

(** What one turn of the monthly loop builds. *)
Lemma monthBucket_spec (reports : list Report.t) (A md : Z) :
  md <= A ->
  let rows := rowsIn newDate (monthLo tz md) (monthHi tz A md) reports in
  monthBucket tz newDate reports A md
  = Ok (Month.mk (format_MMM_yyyy tz (monthLo tz md))
                 (JS.toFixed 1 (sumNumbers (map reportHours rows)))
                 (JS.toFixed 0 (rate (count isCompleted rows)
                                     (Z.of_nat (List.length rows))))).
Proof.
  intros Hg rows. unfold monthBucket.
  fold (monthLo tz md) (monthHi tz A md).
  rewrite (forEach_monthReport newDate _ _ reports (monthLo_le_monthHi A md Hg)).
  reflexivity.
Qed.

(** *** The loops *)

Lemma addWeeks_mono (S i j : Z) : i <= j -> addWeeks S i <= addWeeks S j.
Proof. intros H. unfold addWeeks, addDays. pose proof msPerDay_pos. nia. Qed.

Lemma weeksLoop_spec (reports : list Report.t) (S E : Z) (fuel : nat) :
  forall (i : Z) (acc : list Week.t),
  exists bs,
    weeksLoop tz newDate reports S E fuel i acc = Ok (acc ++ bs)
    /\ (List.length bs <= fuel)%nat
    /\ (forall k b, nth_error bs k = Some b ->
          addWeeks S (i + Z.of_nat k) <= E
          /\ weekBucket tz newDate reports E (addWeeks S (i + Z.of_nat k)) = Ok b)
    /\ ((List.length bs < fuel)%nat -> E < addWeeks S (i + Z.of_nat (List.length bs))).
Proof.
  induction fuel as [| fuel IH]; intros i acc.
  - exists []. cbn. rewrite app_nil_r.
    split; [reflexivity |]. split; [lia |]. split; [| lia].
    intros [| k] b Hk; discriminate.
  - cbn [weeksLoop].
    destruct (Z.ltb_spec E (addWeeks S i)) as [Hbreak | Hgo].
    + exists []. rewrite app_nil_r. cbn.
      split; [reflexivity |]. split; [lia |]. split.
      * intros [| k] b0 Hk; discriminate.
      * intros _. rewrite Z.add_0_r. assumption.
    + destruct (weekBucket_spec reports E (addWeeks S i) Hgo) as (b & Hb & _).
      rewrite Hb. cbn [bind].
      destruct (IH (i + 1) (acc ++ [b])) as (bs & Hrun & Hlen & Hnth & Hstop).
      exists (b :: bs). rewrite Hrun, <- app_assoc. cbn [app List.length].
      split; [reflexivity |]. split; [lia |]. split.
      * intros [| k] b' Hk.
        -- cbn [nth_error] in Hk. injection Hk as <-. rewrite Z.add_0_r.
           split; assumption.
        -- cbn [nth_error] in Hk. destruct (Hnth k b' Hk) as [H1 H2].
           replace (i + Z.of_nat (Datatypes.S k)) with (i + 1 + Z.of_nat k) by lia.
           split; assumption.
      * intros Hlt.
        replace (i + Z.of_nat (Datatypes.S (List.length bs)))
          with (i + 1 + Z.of_nat (List.length bs)) by lia.
        apply Hstop. lia.
Qed.

Lemma numWeeks_within (S E k : Z) :
  S <= E -> 0 <= k < numWeeks S E -> addWeeks S k <= E.
Proof.
  intros Hle Hk. unfold numWeeks, differenceInWeeks, differenceInDays in Hk.
  unfold addWeeks, addDays.
  rewrite (Z.quot_div_nonneg (E - S) msPerDay) in Hk by (unfold msPerDay; lia).
  rewrite Z.quot_div_nonneg in Hk
    by (try lia; apply Z.div_pos; unfold msPerDay; lia).
  unfold msPerDay in *. Z.to_euclidean_division_equations. lia.
Qed.

Lemma numWeeks_pos (S E : Z) : 1 <= numWeeks S E.
Proof. unfold numWeeks. lia. Qed.

(** The weekly pass always returns: it builds one bucket for each of the
    first weeks, as many as [numWeeks] when the start is not after the
    effective end and none otherwise. *)
Lemma weeklyData_spec (reports : list Report.t) (S endDate today : Z) :
  let E := min today endDate in
  exists ws,
    weeklyData tz newDate reports S endDate today = Ok ws
    /\ (forall k b, nth_error ws k = Some b ->
          addWeeks S (Z.of_nat k) <= E
          /\ weekBucket tz newDate reports E (addWeeks S (Z.of_nat k)) = Ok b)
    /\ (S <= E -> List.length ws = Z.to_nat (numWeeks S E))
    /\ (E < S -> ws = []).
Proof.
  intros E. unfold weeklyData. fold E.
  destruct (weeksLoop_spec reports S E (Z.to_nat (numWeeks S E)) 0 [])
    as (bs & Hrun & Hlen & Hnth & Hstop).
  exists bs. cbn [app] in Hrun. split; [assumption |]. split; [| split].
  - intros k b Hk. destruct (Hnth k b Hk) as [H1 H2]. rewrite Z.add_0_l in H1, H2.
    split; assumption.
  - intros Hle.
    destruct (Nat.eq_dec (List.length bs) (Z.to_nat (numWeeks S E))) as [e | ne];
      [assumption |].
    exfalso. assert (List.length bs < Z.to_nat (numWeeks S E))%nat as Hlt by lia.
    specialize (Hstop Hlt). rewrite Z.add_0_l in Hstop.
    pose proof (numWeeks_within S E (Z.of_nat (List.length bs)) Hle) as Hin.
    pose proof (numWeeks_pos S E). lia.
  - intros Hgt. destruct bs as [| b bs]; [reflexivity |].
    destruct (Hnth O b eq_refl) as [H1 _]. cbn in H1.
    unfold addWeeks, addDays in H1. lia.
Qed.

Lemma monthsLoop_spec (reports : list Report.t) (S A : Z) (fuel : nat) :
  forall (i : Z) (acc : list Month.t),
  exists bs,
    monthsLoop tz newDate reports S A fuel i acc = Ok (acc ++ bs)
    /\ (forall k b, nth_error bs k = Some b ->
          addMonths tz S (i + Z.of_nat k) <= A
          /\ monthBucket tz newDate reports A (addMonths tz S (i + Z.of_nat k)) = Ok b).
Proof.
  induction fuel as [| fuel IH]; intros i acc.
  - exists []. cbn. rewrite app_nil_r. split; [reflexivity |].
    intros [| k] b Hk; discriminate.
  - cbn [monthsLoop]. unfold isAfter.
    destruct (Z.ltb_spec A (addMonths tz S i)) as [Hbreak | Hgo].
    + exists []. rewrite app_nil_r. split; [reflexivity |].
      intros [| k] b Hk; discriminate.
    + pose proof (monthBucket_spec reports A (addMonths tz S i) Hgo) as Hb.
      cbv zeta in Hb. remember (Month.mk _ _ _) as b eqn:Eb in Hb. clear Eb.
      rewrite Hb. cbn [bind].
      destruct (IH (i + 1) (acc ++ [b])) as (bs & Hrun & Hnth).
      exists (b :: bs). rewrite Hrun, <- app_assoc. cbn [app].
      split; [reflexivity |].
      intros [| k] b' Hk.
      * cbn [nth_error] in Hk. injection Hk as <-. rewrite Z.add_0_r.
        split; assumption.
      * cbn [nth_error] in Hk. destruct (Hnth k b' Hk) as [H1 H2].
        replace (i + Z.of_nat (Datatypes.S k)) with (i + 1 + Z.of_nat k) by lia.
        split; assumption.
Qed.

(** The monthly pass always returns. *)
Lemma monthlyData_spec (reports : list Report.t) (S endDate currentDate : Z) :
  let A := if isAfter endDate currentDate then currentDate else endDate in
  exists ms,
    monthlyData tz newDate reports S endDate currentDate = Ok ms
    /\ (forall k b, nth_error ms k = Some b ->
          addMonths tz S (Z.of_nat k) <= A
          /\ monthBucket tz newDate reports A (addMonths tz S (Z.of_nat k)) = Ok b)
    /\ (A < S -> ms = []).
Proof.
  intros A. unfold monthlyData. fold A.
  destruct (monthsLoop_spec reports S A (Z.to_nat (numMonths tz S A)) 0 [])
    as (bs & Hrun & Hnth).
  exists bs. cbn [app] in Hrun. split; [assumption |]. split.
  - intros k b Hk. destruct (Hnth k b Hk) as [H1 H2]. rewrite Z.add_0_l in H1, H2.
    split; assumption.
  - intros Hgt. destruct bs as [| b bs]; [reflexivity |].
    destruct (Hnth O b eq_refl) as [H1 _]. cbn in H1. lia.
Qed.

End Buckets.

(** ** Rows that do not matter, rows that can be exchanged *)

Section Rows.

Variable tz : Z.
Variable newDate : string -> option Z.

Lemma forEach_skip {A S : Type} (f : S -> A -> result S) (l1 l2 : list A) (a : A) :
  (forall s, f s a = Ok s) ->
  forall s, forEach f (l1 ++ a :: l2) s = forEach f (l1 ++ l2) s.
Proof.
  intros Hskip s. rewrite !forEach_app.
  destruct (forEach f l1 s) as [s' | e]; cbn [bind forEach]; [| reflexivity].
  rewrite Hskip. reflexivity.
Qed.

Lemma forEach_replace {A S : Type} (f : S -> A -> result S) (l1 l2 : list A) (a a' : A) :
  (forall s, f s a = f s a') ->
  forall s, forEach f (l1 ++ a :: l2) s = forEach f (l1 ++ a' :: l2) s.
Proof.
  intros Hsame s. rewrite !forEach_app.
  destruct (forEach f l1 s) as [s' | e]; cbn [bind forEach]; [| reflexivity].
  rewrite Hsame. reflexivity.
Qed.

(** The loops only look at the rows through the buckets they build. *)
Lemma weeksLoop_ext (reports reports' : list Report.t) (S E : Z) :
  (forall wsd, weekBucket tz newDate reports E wsd = weekBucket tz newDate reports' E wsd) ->
  forall fuel i acc,
    weeksLoop tz newDate reports S E fuel i acc
    = weeksLoop tz newDate reports' S E fuel i acc.
Proof.
  intros Hb. induction fuel as [| fuel IH]; intros i acc; cbn [weeksLoop]; [reflexivity |].
  destruct (E <? addWeeks S i); [reflexivity |].
  rewrite Hb. destruct (weekBucket tz newDate reports' E (addWeeks S i)); cbn [bind];
    [apply IH | reflexivity].
Qed.

Lemma monthsLoop_ext (reports reports' : list Report.t) (S A : Z) :
  (forall md, md <= A ->
     monthBucket tz newDate reports A md = monthBucket tz newDate reports' A md) ->
  forall fuel i acc,
    monthsLoop tz newDate reports S A fuel i acc
    = monthsLoop tz newDate reports' S A fuel i acc.
Proof.
  intros Hb. induction fuel as [| fuel IH]; intros i acc; cbn [monthsLoop]; [reflexivity |].
  unfold isAfter. destruct (Z.ltb_spec A (addMonths tz S i)) as [| Hgo]; [reflexivity |].
  rewrite (Hb _ Hgo).
  destruct (monthBucket tz newDate reports' A (addMonths tz S i)); cbn [bind];
    [apply IH | reflexivity].
Qed.

(** A row with an invalid date leaves every bucket as it is. *)
Lemma weekBucket_skip_invalid (before after : list Report.t) (r : Report.t) (E wsd : Z) :
  newDate (Report.date r) = None ->
  weekBucket tz newDate (before ++ r :: after) E wsd
  = weekBucket tz newDate (before ++ after) E wsd.
Proof.
  intros Hbad. unfold weekBucket.
  set (lo := startOfWeek tz wsd).
  set (hi := if isBefore (endOfWeek tz wsd) E then endOfWeek tz wsd else E).
  unfold eachDayOfInterval. destruct (Z.leb_spec lo hi) as [Hle | Hgt]; [| reflexivity].
  cbn [bind]. rewrite forEach_skip; [reflexivity |].
  intros s. apply weekReport_out; [assumption |].
  unfold inInterval. rewrite Hbad. reflexivity.
Qed.

Lemma monthBucket_skip_invalid (before after : list Report.t) (r : Report.t) (A md : Z) :
  newDate (Report.date r) = None ->
  md <= A ->
  monthBucket tz newDate (before ++ r :: after) A md
  = monthBucket tz newDate (before ++ after) A md.
Proof.
  intros Hbad Hg. unfold monthBucket.
  rewrite forEach_skip; [reflexivity |].
  intros s. unfold monthReport.
  rewrite isWithinInterval_ok by (apply (monthLo_le_monthHi tz A md Hg)).
  unfold inInterval. rewrite Hbad. reflexivity.
Qed.

(** Rows that agree on date, status and [(time_spent || 0) / 60] build
    the same buckets. *)
Lemma weekReport_same (lo hi : Z) (r r' : Report.t) :
  Report.date r = Report.date r' ->
  Report.status r = Report.status r' ->
  reportHours r = reportHours r' ->
  forall s, weekReport tz newDate lo hi s r = weekReport tz newDate lo hi s r'.
Proof.
  intros Hd Hs Hh s. unfold weekReport, isCompleted. rewrite Hd, Hs, Hh. reflexivity.
Qed.

Lemma monthReport_same (lo hi : Z) (r r' : Report.t) :
  Report.date r = Report.date r' ->
  Report.status r = Report.status r' ->
  reportHours r = reportHours r' ->
  forall s, monthReport newDate lo hi s r = monthReport newDate lo hi s r'.
Proof.
  intros Hd Hs Hh s. unfold monthReport, isCompleted. rewrite Hd, Hs, Hh. reflexivity.
Qed.

Lemma weekBucket_replace (before after : list Report.t) (r r' : Report.t) (E wsd : Z) :
  Report.date r = Report.date r' ->
  Report.status r = Report.status r' ->
  reportHours r = reportHours r' ->
  weekBucket tz newDate (before ++ r :: after) E wsd
  = weekBucket tz newDate (before ++ r' :: after) E wsd.
Proof.
  intros Hd Hs Hh. unfold weekBucket.
  destruct (eachDayOfInterval tz _ _); cbn [bind]; [| reflexivity].
  rewrite (forEach_replace _ before after r r'); [reflexivity |].
  apply weekReport_same; assumption.
Qed.

Lemma monthBucket_replace (before after : list Report.t) (r r' : Report.t) (A md : Z) :
  Report.date r = Report.date r' ->
  Report.status r = Report.status r' ->
  reportHours r = reportHours r' ->
  monthBucket tz newDate (before ++ r :: after) A md
  = monthBucket tz newDate (before ++ r' :: after) A md.
Proof.
  intros Hd Hs Hh. unfold monthBucket.
  rewrite (forEach_replace _ before after r r'); [reflexivity |].
  apply monthReport_same; assumption.
Qed.

Lemma min_le_r (a b : Z) : min a b <= b.
Proof. unfold min. destruct (Z.ltb_spec b a); lia. Qed.

Lemma min_eq_Zmin (a b : Z) : min a b = Z.min a b.
Proof. unfold min. destruct (Z.ltb_spec b a); lia. Qed.

(** C2 (as amended). When range.start is after range.end, the weekly and
    the monthly bucketing each return the empty sequence, without failing:
    the first candidate week (month) already starts after the effective
    end, and the loop stops before it builds a bucket. *)
Theorem inverted_range_yields_no_bucket
  (reports : list Report.t) (startDate endDate today currentDate : Z) :
  endDate < startDate ->
  weeklyData tz newDate reports startDate endDate today = Ok []
  /\ monthlyData tz newDate reports startDate endDate currentDate = Ok [].
Proof.
  intros Hinv. split.
  - destruct (weeklyData_spec tz newDate reports startDate endDate today)
      as (ws & Hrun & _ & _ & Hnone).
    rewrite Hrun, Hnone; [reflexivity |].
    pose proof (min_le_r today endDate). lia.
  - destruct (monthlyData_spec tz newDate reports startDate endDate currentDate)
      as (ms & Hrun & _ & Hnone).
    rewrite Hrun, Hnone; [reflexivity |].
    unfold isAfter. destruct (Z.ltb_spec currentDate endDate); lia.
Qed.

(** C4 (as amended). A record whose time_spent is missing (undefined or
    null) is treated exactly like a record of zero minutes by the weekly
    and the monthly bucketing, in the totals and in the daily breakdown.
    A negative time_spent q is not replaced: the record is one of the
    rows summed into the total of the weekly and of the monthly bucket
    that takes it in and into the hours of its day, and what it adds
    there is q / 60, below zero. *)
Theorem missing_duration_is_zero_negative_is_kept :
  (forall (before after : list Report.t) (r : Report.t)
          (startDate endDate today currentDate : Z),
      Report.time_spent r = JS.Undefined \/ Report.time_spent r = JS.Null ->
      weeklyData tz newDate (before ++ r :: after) startDate endDate today
      = weeklyData tz newDate
          (before ++ withDuration r (JS.Value (JS.Num 0)) :: after)
          startDate endDate today
      /\ monthlyData tz newDate (before ++ r :: after) startDate endDate currentDate
         = monthlyData tz newDate
             (before ++ withDuration r (JS.Value (JS.Num 0)) :: after)
             startDate endDate currentDate)
  /\ (forall (reports : list Report.t) (r : Report.t) (q : Q)
             (startDate endDate today currentDate : Z),
         In r reports ->
         Report.time_spent r = JS.Value (JS.Num q) ->
         (q < 0)%Q ->
         reportHours r = JS.Num (q / 60) /\ (q / 60 < 0)%Q
         /\ (forall ws k b,
               weeklyData tz newDate reports startDate endDate today = Ok ws ->
               nth_error ws k = Some b ->
               let lo := weekLo tz (addWeeks startDate (Z.of_nat k)) in
               let hi := weekHi tz (min today endDate) (addWeeks startDate (Z.of_nat k)) in
               let rows := rowsIn newDate lo hi reports in
               inInterval newDate lo hi r = true ->
               In r rows
               /\ Week.totalHours b = JS.toFixed 1 (sumNumbers (map reportHours rows))
               /\ exists i d,
                    nth_error (Week.days b) i = Some d
                    /\ In r (rowsOnDay tz newDate (map Day.date (Week.days b)) i rows)
                    /\ Day.hours d
                       = sumNumbers
                           (map reportHours
                                (rowsOnDay tz newDate (map Day.date (Week.days b)) i rows)))
         /\ (forall ms k m,
               monthlyData tz newDate reports startDate endDate currentDate = Ok ms ->
               nth_error ms k = Some m ->
               let A := if isAfter endDate currentDate then currentDate else endDate in
               let lo := monthLo tz (addMonths tz startDate (Z.of_nat k)) in
               let hi := monthHi tz A (addMonths tz startDate (Z.of_nat k)) in
               let rows := rowsIn newDate lo hi reports in
               inInterval newDate lo hi r = true ->
               In r rows
               /\ Month.totalHours m = JS.toFixed 1 (sumNumbers (map reportHours rows)))).
Proof.
  split.
  - intros before after r startDate endDate today currentDate Hmiss.
    assert (reportHours r = reportHours (withDuration r (JS.Value (JS.Num 0)))) as Hh.
    { unfold reportHours, withDuration. cbn [Report.time_spent].
      destruct Hmiss as [-> | ->]; reflexivity. }
    split.
    + unfold weeklyData. apply weeksLoop_ext. intros wsd.
      apply weekBucket_replace; [reflexivity | reflexivity | assumption].
    + unfold monthlyData. apply monthsLoop_ext. intros md _.
      apply monthBucket_replace; [reflexivity | reflexivity | assumption].
  - intros reports r q startDate endDate today currentDate Hr Hq Hneg.
    split; [| split; [| split]].
    + unfold reportHours, JS.orZero, JS.truthy. rewrite Hq.
      destruct (Qeq_bool q 0) eqn:Hz.
      * apply Qeq_bool_eq in Hz. rewrite Hz in Hneg. discriminate.
      * reflexivity.
    + unfold Qdiv. setoid_replace 0%Q with (0 * / 60)%Q by ring.
      apply Qmult_lt_compat_r; [reflexivity | assumption].
    + intros ws k b Hws Hk lo hi rows Hin.
      destruct (weeklyData_spec tz newDate reports startDate endDate today)
        as (ws' & Hrun & Hnth & _).
      rewrite Hrun in Hws. injection Hws as ->.
      destruct (Hnth k b Hk) as [Hg Hb].
      assert (In r rows) as Hrows by (apply filter_In; split; assumption).
      split; [exact Hrows |].
      destruct (weekBucket_spec tz newDate reports _ _ Hg) as (b' & Hb' & _ & _ & Htot & _).
      rewrite Hb in Hb'. injection Hb' as <-.
      split; [exact Htot |].
      destruct (weekBucket_days tz newDate reports _ _ b Hg Hb) as [Hhours Hday].
      destruct (Hday r Hrows) as (i & Hi & Hlt).
      destruct (nth_error (Week.days b) i) as [d |] eqn:Hd;
        [| apply nth_error_None in Hd; lia].
      exists i, d. split; [exact Hd |]. split.
      * apply filter_In. split; [exact Hrows |].
        unfold isOnDay. rewrite Hi. apply Nat.eqb_refl.
      * apply Hhours. assumption.
    + intros ms k m Hms Hk A lo hi rows Hin.
      destruct (monthlyData_spec tz newDate reports startDate endDate currentDate)
        as (ms' & Hrun & Hnth & _).
      rewrite Hrun in Hms. injection Hms as ->.
      destruct (Hnth k m Hk) as [Hg Hb].
      split; [apply filter_In; split; assumption |].
      rewrite (monthBucket_spec tz newDate reports _ _ Hg) in Hb.
      injection Hb as <-. reflexivity.
Qed.

(** The two loops tolerate a record whose date does not parse: it
    contributes to no weekly and to no monthly bucket, and each loop
    returns, without an exception, exactly what it returns for the record
    set without that record. *)
Lemma passes_skip_invalid_date
  (before after : list Report.t) (r : Report.t)
  (startDate endDate today currentDate : Z) :
  newDate (Report.date r) = None ->
  (exists ws,
      weeklyData tz newDate (before ++ r :: after) startDate endDate today = Ok ws
      /\ weeklyData tz newDate (before ++ after) startDate endDate today = Ok ws)
  /\ (exists ms,
         monthlyData tz newDate (before ++ r :: after) startDate endDate currentDate = Ok ms
         /\ monthlyData tz newDate (before ++ after) startDate endDate currentDate = Ok ms).
Proof.
  intros Hbad. split.
  - destruct (weeklyData_spec tz newDate (before ++ after) startDate endDate today)
      as (ws & Hrun & _).
    exists ws. split; [| assumption]. rewrite <- Hrun.
    unfold weeklyData. apply weeksLoop_ext. intros wsd.
    apply weekBucket_skip_invalid. assumption.
  - destruct (monthlyData_spec tz newDate (before ++ after) startDate endDate currentDate)
      as (ms & Hrun & _).
    exists ms. split; [| assumption]. rewrite <- Hrun.
    unfold monthlyData. apply monthsLoop_ext. intros md Hg.
    apply monthBucket_skip_invalid; assumption.
Qed.

End Rows.

(** C5 (code bug). For the record of the example, dated "bad-date",
    [fetchReportStats] raises a RangeError whatever the zone, the range
    and the clock: [calculateDayStreak] calls [toISOString] on the
    Invalid Date before either loop runs, so no bucket is built at all.
    The two loops by themselves skip the record. *)
Theorem bad_date_record_raises (tz startDate endDate currentDate today : Z) :
  isoDateOnly (Report.date rowWithBadDate) = None
  /\ calculateDayStreak isoDateOnly [rowWithBadDate] = Throw RangeError
  /\ fetchReportStats tz isoDateOnly [rowWithBadDate] startDate endDate currentDate today
     = Throw RangeError
  /\ weeklyData tz isoDateOnly [rowWithBadDate] startDate endDate today
     = weeklyData tz isoDateOnly [] startDate endDate today
  /\ monthlyData tz isoDateOnly [rowWithBadDate] startDate endDate currentDate
     = monthlyData tz isoDateOnly [] startDate endDate currentDate.
Proof.
  split; [reflexivity |]. split; [reflexivity |]. split; [reflexivity |].
  destruct (passes_skip_invalid_date tz isoDateOnly [] [] rowWithBadDate
              startDate endDate today currentDate eq_refl)
    as [(ws & Hw1 & Hw2) (ms & Hm1 & Hm2)].
  cbn [app] in *. split; congruence.
Qed.

(** ** Properties of the buckets *)

Section BucketProperties.

Import Calendar.
Variable tz : Z.
Variable newDate : string -> option Z.

(** C3. In every weekly and every monthly bucket, completionRate is
    completedCount / totalCount * 100 rounded to a nearest integer, where
    the counts range over the records the bucket takes in; it lies between
    0 and 100, and it is 0 when the bucket takes in no record. *)
Theorem completionRate_is_rounded_percentage
  (reports : list Report.t) (startDate endDate today currentDate : Z) :
  (forall ws k b,
      weeklyData tz newDate reports startDate endDate today = Ok ws ->
      nth_error ws k = Some b ->
      let weekStartDate := addWeeks startDate (Z.of_nat k) in
      let rows := rowsIn newDate (weekLo tz weekStartDate)
                         (weekHi tz (min today endDate) weekStartDate) reports in
      roundedPercent (count isCompleted rows) (Z.of_nat (List.length rows))
                     (Week.completionRate b))
  /\ (forall ms k b,
         monthlyData tz newDate reports startDate endDate currentDate = Ok ms ->
         nth_error ms k = Some b ->
         let monthDate := addMonths tz startDate (Z.of_nat k) in
         let analysisEndDate := if isAfter endDate currentDate then currentDate else endDate in
         let rows := rowsIn newDate (monthLo tz monthDate)
                            (monthHi tz analysisEndDate monthDate) reports in
         roundedPercent (count isCompleted rows) (Z.of_nat (List.length rows))
                        (Month.completionRate b)).
Proof.
  split.
  - intros ws k b Hws Hk weekStartDate rows.
    destruct (weeklyData_spec tz newDate reports startDate endDate today)
      as (ws' & Hrun & Hnth & _).
    rewrite Hrun in Hws. injection Hws as ->.
    destruct (Hnth k b Hk) as [Hg Hb].
    destruct (weekBucket_spec tz newDate reports _ _ Hg)
      as (b' & Hb' & _ & _ & _ & Hrate & _).
    rewrite Hb in Hb'. injection Hb' as <-.
    rewrite Hrate. apply toFixed0_rate. apply count_le_length.
  - intros ms k b Hms Hk monthDate analysisEndDate rows.
    destruct (monthlyData_spec tz newDate reports startDate endDate currentDate)
      as (ms' & Hrun & Hnth & _).
    rewrite Hrun in Hms. injection Hms as ->.
    destruct (Hnth k b Hk) as [Hg Hb].
    rewrite (monthBucket_spec tz newDate reports _ _ Hg) in Hb.
    injection Hb as <-. cbn [Month.completionRate].
    apply toFixed0_rate. apply count_le_length.
Qed.

Lemma localDay_endOfWeek (t : Z) :
  localDay tz (endOfWeek tz t) = localDay tz (startOfWeek tz t) + 6.
Proof.
  rewrite localDay_startOfWeek. unfold endOfWeek, endOfDay.
  rewrite localDay_localTime by (unfold msPerDay; lia).
  rewrite localDay_addDays. unfold getDay, daysSinceMonday.
  set (d := localDay tz t).
  destruct (Z.ltb_spec ((d + 4) mod 7) 1); Z.to_euclidean_division_equations; lia.
Qed.

Lemma weekHi_eq (E wsd : Z) :
  weekHi tz E wsd = Z.min (startOfWeek tz wsd + 7 * msPerDay - 1) E.
Proof.
  unfold weekHi, isBefore. rewrite endOfWeek_eq.
  destruct (Z.ltb_spec (startOfWeek tz wsd + 7 * msPerDay - 1) E); lia.
Qed.

Lemma addWeeks_startOfWeek (t k : Z) :
  addWeeks (startOfWeek tz t) k = startOfWeek tz (addWeeks t k).
Proof. rewrite startOfWeek_addWeeks. unfold addWeeks, addDays. ring. Qed.

(** C8. The weekly buckets come in ascending order of week start, one
    calendar week after the other: the bucket of index k starts on the
    Monday k weeks after the Monday of the week of range.start, at local
    midnight, and lists the consecutive days from that Monday.  Every
    bucket but the last has all seven days, Monday to Sunday, and takes in
    the records of exactly that week; the last one has between one and
    seven days and, when shorter than seven, ends on the day of
    effectiveEnd. *)
Theorem weekly_buckets_are_consecutive_weeks
  (reports : list Report.t) (startDate endDate today : Z) (ws : list Week.t) :
  weeklyData tz newDate reports startDate endDate today = Ok ws ->
  forall k b,
    nth_error ws k = Some b ->
    let effectiveEnd := min today endDate in
    let monday := addWeeks (startOfWeek tz startDate) (Z.of_nat k) in
    let sundayEnd := monday + 7 * msPerDay - 1 in
    getDay tz monday = 1
    /\ startOfDay tz monday = monday
    /\ exists n : nat,
         map Day.date (Week.days b) = dayList monday n
         /\ (1 <= n <= 7)%nat
         /\ ((Datatypes.S k < List.length ws)%nat -> n = 7%nat /\ sundayEnd < effectiveEnd)
         /\ ((n < 7)%nat ->
             localDay tz effectiveEnd = localDay tz monday + Z.of_nat n - 1)
         /\ Week.totalHours b
            = JS.toFixed 1
                (sumNumbers
                   (map reportHours
                        (rowsIn newDate monday (Z.min sundayEnd effectiveEnd) reports))).
Proof.
  intros Hws k b Hk effectiveEnd monday sundayEnd.
  destruct (weeklyData_spec tz newDate reports startDate endDate today)
    as (ws' & Hrun & Hnth & _).
  rewrite Hrun in Hws. injection Hws as ->. fold effectiveEnd in Hnth.
  destruct (Hnth k b Hk) as [Hg Hb].
  set (wsd := addWeeks startDate (Z.of_nat k)) in *.
  assert (monday = startOfWeek tz wsd) as Hmon by apply addWeeks_startOfWeek.
  destruct (startOfWeek_monday tz wsd) as [Hday Hmid].
  split; [rewrite Hmon; assumption |]. split; [rewrite Hmon; assumption |].
  destruct (weekBucket_spec tz newDate reports effectiveEnd wsd Hg)
    as (b' & Hb' & _ & _ & Htot & _ & Hdates & _).
  rewrite Hb in Hb'. injection Hb' as <-.
  unfold weekLo in Hdates, Htot. rewrite weekHi_eq in Hdates, Htot.
  rewrite <- Hmon in Hdates, Htot. fold sundayEnd in Hdates, Htot.
  pose proof (localDay_endOfWeek wsd) as Hsun.
  rewrite endOfWeek_eq, <- Hmon in Hsun. fold sundayEnd in Hsun.
  pose proof (startOfWeek_le tz wsd) as Hlo. rewrite <- Hmon in Hlo.
  pose proof (localDay_mono tz _ _ Hlo) as Hm1.
  pose proof (localDay_mono tz _ _ Hg) as Hm2.
  exists (Z.to_nat (localDay tz (Z.min sundayEnd effectiveEnd) - localDay tz monday + 1)).
  split; [exact Hdates |].
  destruct (Z.min_spec sundayEnd effectiveEnd) as [[Hlt Hmin] | [Hge Hmin]];
    rewrite Hmin.
  - rewrite Hsun. split; [lia |]. split; [| split; [lia |]].
    + intros _. split; [lia | assumption].
    + rewrite Hmin in Htot. exact Htot.
  - pose proof (localDay_mono tz _ _ Hge) as Hm3. rewrite Hsun in Hm3.
    split; [lia |]. split; [| split].
    + intros Hnext.
      destruct (nth_error ws (Datatypes.S k)) as [b2 |] eqn:Hk2;
        [| apply nth_error_None in Hk2; lia].
      destruct (Hnth _ _ Hk2) as [Hg2 _]. exfalso.
      unfold addWeeks, addDays in Hg2. unfold sundayEnd in Hge.
      rewrite Hmon in Hge. unfold wsd, addWeeks, addDays in Hlo, Hge.
      rewrite Hmon in Hlo. unfold wsd, addWeeks, addDays in Hlo.
      rewrite Nat2Z.inj_succ in Hg2. unfold msPerDay in *. lia.
    + intros _. rewrite Z2Nat.id by lia. ring.
    + rewrite Hmin in Htot. exact Htot.
Qed.

Lemma dayList_length (first : Z) (n : nat) : List.length (dayList first n) = n.
Proof. unfold dayList. rewrite length_map, length_seq. reflexivity. Qed.

Lemma getDay_addDays_monday (M k : Z) :
  getDay tz M = 1 -> getDay tz (M + k * msPerDay) = (1 + k) mod 7.
Proof.
  intros Hmon. unfold getDay in *.
  replace (M + k * msPerDay) with (addDays M k) by reflexivity.
  rewrite localDay_addDays. Z.to_euclidean_division_equations. lia.
Qed.

Lemma map_nth_seq {A : Type} (d : A) (l : list A) :
  forall n, (n <= List.length l)%nat ->
            map (fun k => nth k l d) (seq 0 n) = firstn n l.
Proof.
  induction l as [| x l IH]; intros [| n] Hn; cbn in *; try reflexivity; try lia.
  f_equal. rewrite <- seq_shift, map_map. apply IH. lia.
Qed.

Lemma labels_from_monday (M : Z) (n : nat) :
  getDay tz M = 1 -> (n <= 7)%nat ->
  map (format_EEE tz) (dayList M n) = firstn n weekdayLabels.
Proof.
  intros Hmon Hn. unfold dayList. rewrite map_map.
  rewrite <- (map_nth_seq EmptyString weekdayLabels n) by (cbn; lia).
  apply map_ext_in. intros k Hk. apply in_seq in Hk. unfold format_EEE.
  rewrite (getDay_addDays_monday M (Z.of_nat k) Hmon).
  do 7 (destruct k as [| k]; [reflexivity |]). lia.
Qed.

End BucketProperties.

(** ** The records of the weekly buckets *)

Section WeeklyRows.

Import Calendar.
Variable tz : Z.
Variable newDate : string -> option Z.

Lemma fold_add_hours (rows : list Report.t) (a : Q) :
  exists q, fold_left JS.add (map reportHours rows) (JS.Num a) = JS.Num q
            /\ (q == a + hoursQ rows)%Q.
Proof.
  revert a. induction rows as [| r rows IH]; intros a; cbn [map fold_left hoursQ fold_right].
  - exists a. split; [reflexivity | ring].
  - destruct (reportHours_isNum r) as [h Hh]. rewrite Hh. cbn [JS.add valueOf].
    destruct (IH (a + h)%Q) as (q & Hq & Hval). exists q. split; [assumption |].
    rewrite Hval. fold (hoursQ rows). ring.
Qed.

Lemma toFixed_eqn (d : nat) (a b : JS.number) :
  JS.eqn a b -> JS.eqn (JS.toFixed d a) (JS.toFixed d b).
Proof.
  destruct a as [| p], b as [| q]; cbn [JS.eqn]; try tauto. intros H.
  unfold JS.toFixed.
  assert (Qabs p == Qabs q)%Q as Habs by (rewrite H; reflexivity).
  rewrite (Qleb_comp _ _ (Qeq_refl _) _ _ Habs).
  destruct (Qle_bool (inject_Z (10 ^ 21)) (Qabs q)); cbn [JS.eqn]; [assumption |].
  rewrite (Qleb_comp _ _ (Qeq_refl 0) _ _ H).
  assert (Qfloor (Qabs p * inject_Z (JS.pow10 d) + (1 # 2))
          = Qfloor (Qabs q * inject_Z (JS.pow10 d) + (1 # 2))) as Hfl
    by (apply Qfloor_comp; rewrite Habs; reflexivity).
  rewrite Hfl. destruct (Qle_bool 0 q); reflexivity.
Qed.


(** Bucket [k] spans the week that starts [k] weeks after the Monday of
    the week of range.start, cut at the effective end. *)
Lemma week_interval (S E : Z) (k : nat) :
  weekLo tz (addWeeks S (Z.of_nat k)) = startOfWeek tz S + Z.of_nat k * (7 * msPerDay)
  /\ weekHi tz E (addWeeks S (Z.of_nat k))
     = Z.min (startOfWeek tz S + Z.of_nat k * (7 * msPerDay) + 7 * msPerDay - 1) E.
Proof.
  rewrite weekHi_eq. unfold weekLo. rewrite startOfWeek_addWeeks.
  split; [ring | f_equal; ring].
Qed.




End WeeklyRows.

(** ** Tags and tools *)

Lemma getOwn_setOwn_same (o : JS.object) (k : string) (v : JS.value) :
  JS.getOwn (JS.setOwn o k v) k = Some v.
Proof.
  induction o as [| [k0 v0] o IH]; cbn [JS.setOwn JS.getOwn].
  - rewrite String.eqb_refl. reflexivity.
  - destruct (String.eqb k0 k) eqn:E; cbn [JS.getOwn]; rewrite E; [reflexivity | exact IH].
Qed.

Lemma getOwn_setOwn_other (o : JS.object) (k k' : string) (v : JS.value) :
  k <> k' -> JS.getOwn (JS.setOwn o k v) k' = JS.getOwn o k'.
Proof.
  intros Hne. induction o as [| [k0 v0] o IH]; cbn [JS.setOwn JS.getOwn].
  - destruct (String.eqb_spec k k'); [contradiction | reflexivity].
  - destruct (String.eqb_spec k0 k) as [-> | Hk]; cbn [JS.getOwn].
    + destruct (String.eqb_spec k k'); [contradiction | reflexivity].
    + destruct (String.eqb k0 k'); [reflexivity | exact IH].
Qed.

Lemma get_set_same (o : JS.object) (k : string) (v : JS.value) :
  k <> "__proto__"%string -> JS.get (JS.set o k v) k = JS.Own v.
Proof.
  intros Hk. unfold JS.get, JS.set.
  destruct (String.eqb_spec k "__proto__"); [contradiction |].
  rewrite getOwn_setOwn_same. reflexivity.
Qed.

Lemma get_set_other (o : JS.object) (k k' : string) (v : JS.value) :
  k <> k' -> JS.get (JS.set o k v) k' = JS.get o k'.
Proof.
  intros Hne. unfold JS.get, JS.set.
  destruct (String.eqb k "__proto__"); [reflexivity |].
  rewrite getOwn_setOwn_other by assumption. reflexivity.
Qed.

(** A read of [__proto__] always finds the prototype. *)
Lemma get_set_proto (o : JS.object) (v : JS.value) :
  JS.set o "__proto__" v = o.
Proof. reflexivity. Qed.

Lemma hasCount_bump (x : JS.lookup) (n : Z) :
  0 <= n -> hasCount x n ->
  hasCount (JS.Own (JS.orZeroPlusOne x)) (n + 1).
Proof.
  intros Hn [[-> ->] | (Hpos & q & -> & Hq)]; right.
  - split; [lia |]. eexists. split; [reflexivity |]. reflexivity.
  - split; [lia |]. cbn [JS.orZeroPlusOne]. unfold JS.orZero, JS.truthy.
    destruct (Qeq_bool q 0) eqn:Hz.
    + apply Qeq_bool_eq in Hz. rewrite Hq in Hz.
      unfold Qeq, inject_Z in Hz. cbn [Qnum Qden] in Hz. lia.
    + cbn. eexists. split; [reflexivity |]. rewrite Hq, inject_Z_plus. reflexivity.
Qed.

Lemma hasText_bump (x : JS.lookup) (label : string) (n : Z) :
  0 <= n -> label <> "__proto__"%string -> hasText x label n ->
  hasText (JS.Own (JS.orZeroPlusOne x)) label (n + 1).
Proof.
  intros Hn Hl [[[-> | Hp] ->] | (Hpos & _ & ->)]; right.
  - split; [lia |]. split; [assumption |]. reflexivity.
  - contradiction.
  - split; [lia |]. split; [assumption |]. cbn [JS.orZeroPlusOne].
    replace (Z.to_nat (n + 1)) with (S (Z.to_nat n)) by lia. reflexivity.
Qed.

Lemma occurrences_cons (label l0 : string) (labels : list string) :
  occurrences label (l0 :: labels)
  = (if String.eqb label l0 then 1 else 0) + occurrences label labels.
Proof.
  unfold occurrences. cbn [filter]. destruct (String.eqb label l0); cbn [List.length]; lia.
Qed.

Lemma occurrences_nonneg (label : string) (labels : list string) :
  0 <= occurrences label labels.
Proof. unfold occurrences. lia. Qed.

Lemma occurrences_app (label : string) (l1 l2 : list string) :
  occurrences label (l1 ++ l2) = occurrences label l1 + occurrences label l2.
Proof.
  unfold occurrences. rewrite filter_app, length_app. lia.
Qed.

(** Each label of the list adds one to its own count and to no other. *)
Lemma tallyLabels_count (labels : list string) :
  forall (o : JS.object) (label : string) (n : Z),
    JS.inherited label = false ->
    0 <= n ->
    hasCount (JS.get o label) n ->
    hasCount (JS.get (tallyLabels o labels) label) (n + occurrences label labels).
Proof.
  induction labels as [| l0 labels IH]; intros o label n Hplain Hn Hc.
  - unfold occurrences. cbn. rewrite Z.add_0_r. assumption.
  - cbn [tallyLabels fold_left]. fold (tallyLabels
      (JS.set o l0 (JS.orZeroPlusOne (JS.get o l0))) labels).
    rewrite occurrences_cons.
    destruct (String.eqb_spec label l0) as [<- | Hne].
    + rewrite Z.add_assoc. apply IH; [assumption | lia |].
      rewrite get_set_same by (intros ->; discriminate).
      apply hasCount_bump; assumption.
    + rewrite Z.add_0_l. apply IH; [assumption | assumption |].
      rewrite get_set_other by congruence. assumption.
Qed.

(** A label that [Object.prototype] defines gathers a text, not a count. *)
Lemma tallyLabels_text (labels : list string) :
  forall (o : JS.object) (label : string) (n : Z),
    0 <= n ->
    hasText (JS.get o label) label n ->
    hasText (JS.get (tallyLabels o labels) label) label (n + occurrences label labels).
Proof.
  induction labels as [| l0 labels IH]; intros o label n Hn Hc.
  - unfold occurrences. cbn. rewrite Z.add_0_r. assumption.
  - cbn [tallyLabels fold_left]. fold (tallyLabels
      (JS.set o l0 (JS.orZeroPlusOne (JS.get o l0))) labels).
    rewrite occurrences_cons.
    destruct (String.eqb_spec label l0) as [<- | Hne].
    + rewrite Z.add_assoc. apply IH; [lia |].
      destruct (String.eqb_spec label "__proto__") as [-> | Hp].
      * rewrite get_set_proto. destruct Hc as [[_ Hx] | (_ & Hp & _)]; [| contradiction].
        left. split; [right; reflexivity | assumption].
      * rewrite get_set_same by assumption. apply hasText_bump; assumption.
    + rewrite Z.add_0_l. apply IH; [assumption |].
      rewrite get_set_other by congruence. assumption.
Qed.

Lemma tallyLabels_app (o : JS.object) (l1 l2 : list string) :
  tallyLabels o (l1 ++ l2) = tallyLabels (tallyLabels o l1) l2.
Proof. unfold tallyLabels. apply fold_left_app. Qed.

Lemma tallyField_labels (o : JS.object) (f : option string) :
  tallyField o f = tallyLabels o (fieldLabels f).
Proof. destruct f as [[| c s] |]; reflexivity. Qed.

Lemma tally_allLabels (field : Report.t -> option string) (reports : list Report.t) :
  forall o,
    fold_left (fun o r => tallyField o (field r)) reports o
    = tallyLabels o (allLabels field reports).
Proof.
  induction reports as [| r reports IH]; intros o; [reflexivity |].
  cbn [fold_left allLabels flat_map]. rewrite IH, tallyField_labels, tallyLabels_app.
  reflexivity.
Qed.

(** C6 (as amended). The tag / tool tally splits each record's
    comma-delimited field on commas, trims each piece, and increments the
    count of every resulting label, the empty label included: for a label
    that is not a property name of [Object.prototype], the count held is
    the number of pieces equal to it.  A label that [Object.prototype]
    defines (constructor, toString, ...) holds no count: after [n] > 0
    pieces it holds the text of the inherited function followed by [n]
    digits 1, and [__proto__] is never stored.  For records with tags
    "api, testing" and "api, design" the mapping is
    {api: 2, testing: 1, design: 1}, enumerated in insertion order api,
    testing, design. *)
Theorem tally_counts_every_trimmed_piece :
  (forall reports label,
      JS.inherited label = false ->
      hasCount (JS.get (tallyTags reports) label)
               (occurrences label (allLabels Report.tags reports))
      /\ hasCount (JS.get (tallyTools reports) label)
                  (occurrences label (allLabels Report.skills_tools reports)))
  /\ (forall reports label,
         JS.inherited label = true ->
         hasText (JS.get (tallyTags reports) label) label
                 (occurrences label (allLabels Report.tags reports))
         /\ hasText (JS.get (tallyTools reports) label) label
                    (occurrences label (allLabels Report.skills_tools reports)))
  /\ allLabels Report.tags taggedRows = ["api"; "testing"; "api"; "design"]%string
  /\ JS.entries (tallyTags taggedRows)
     = [("api"%string, JS.Number (JS.Num 2)); ("testing"%string, JS.Number (JS.Num 1));
        ("design"%string, JS.Number (JS.Num 1))].
Proof.
  split; [| split; [| split]].
  - intros reports label Hplain. unfold tallyTags, tallyTools.
    rewrite !tally_allLabels. split.
    + apply (tallyLabels_count _ [] label 0); [assumption | lia |].
      left. split; [reflexivity |]. unfold JS.get. cbn [JS.getOwn]. rewrite Hplain.
      reflexivity.
    + apply (tallyLabels_count _ [] label 0); [assumption | lia |].
      left. split; [reflexivity |]. unfold JS.get. cbn [JS.getOwn]. rewrite Hplain.
      reflexivity.
  - intros reports label Hproto. unfold tallyTags, tallyTools.
    rewrite !tally_allLabels. split.
    + apply (tallyLabels_text _ [] label 0); [lia |].
      left. split; [left; reflexivity |]. unfold JS.get. cbn [JS.getOwn]. rewrite Hproto.
      reflexivity.
    + apply (tallyLabels_text _ [] label 0); [lia |].
      left. split; [left; reflexivity |]. unfold JS.get. cbn [JS.getOwn]. rewrite Hproto.
      reflexivity.
  - vm_compute. reflexivity.
  - vm_compute. reflexivity.
Qed.

(** ** Bucket totals are numbers *)

Lemma weekly_total_isNum (tz : Z) (newDate : string -> option Z)
  (reports : list Report.t) (startDate endDate today : Z) (ws : list Week.t) (b : Week.t) :
  weeklyData tz newDate reports startDate endDate today = Ok ws ->
  In b ws -> isNum (Week.totalHours b).
Proof.
  intros Hws Hin. apply In_nth_error in Hin. destruct Hin as [k Hk].
  destruct (weeklyData_spec tz newDate reports startDate endDate today)
    as (ws' & Hrun & Hnth & _).
  rewrite Hrun in Hws. injection Hws as ->.
  destruct (Hnth k b Hk) as [Hg Hb].
  destruct (weekBucket_spec tz newDate reports _ _ Hg) as (b' & Hb' & _ & _ & Htot & _).
  rewrite Hb in Hb'. injection Hb' as <-. rewrite Htot.
  unfold sumNumbers.
  match goal with
  | |- context [fold_left JS.add (map reportHours ?rows) _] =>
      destruct (fold_add_hours rows 0) as (q & -> & _)
  end.
  apply toFixed_isNum.
Qed.

Lemma monthly_total_isNum (tz : Z) (newDate : string -> option Z)
  (reports : list Report.t) (startDate endDate currentDate : Z)
  (ms : list Month.t) (b : Month.t) :
  monthlyData tz newDate reports startDate endDate currentDate = Ok ms ->
  In b ms -> isNum (Month.totalHours b).
Proof.
  intros Hms Hin. apply In_nth_error in Hin. destruct Hin as [k Hk].
  destruct (monthlyData_spec tz newDate reports startDate endDate currentDate)
    as (ms' & Hrun & Hnth & _).
  rewrite Hrun in Hms. injection Hms as ->.
  destruct (Hnth k b Hk) as [Hg Hb].
  rewrite (monthBucket_spec tz newDate reports _ _ Hg) in Hb.
  injection Hb as <-. cbn [Month.totalHours].
  unfold sumNumbers.
  match goal with
  | |- context [fold_left JS.add (map reportHours ?rows) _] =>
      destruct (fold_add_hours rows 0) as (q & -> & _)
  end.
  apply toFixed_isNum.
Qed.

(** ** The worked example *)

Lemma isoDateOnly_jan01 : isoDateOnly "2024-01-01" = Some jan01.
Proof. vm_compute. reflexivity. Qed.

Lemma isoDateOnly_jan20 : isoDateOnly "2024-01-20" = Some jan20.
Proof. vm_compute. reflexivity. Qed.

Section January.

Import Calendar.

(** The local zone: a constant offset from UTC to UTC+14. *)
Variable tz : Z.
Hypothesis east : 0 <= tz <= 50400000.

Lemma localDay_east (d x : Z) :
  0 <= x -> x + tz < msPerDay -> localDay tz (d * msPerDay + x) = d.
Proof.
  intros H1 H2. unfold localDay. unfold msPerDay in *.
  Z.to_euclidean_division_equations. lia.
Qed.

(** 2024-01-01 at 00:00 UTC is a Monday in such a zone, past its local
    midnight by the offset. *)
Lemma startOfWeek_jan01 : startOfWeek tz jan01 = jan01 - tz.
Proof.
  rewrite startOfWeek_eq. unfold startOfDay, daysSinceMonday, localTime.
  change jan01 with (19723 * msPerDay + 0).
  rewrite localDay_east by (unfold msPerDay; lia).
  change ((19723 + 3) mod 7) with 0. ring.
Qed.

Lemma january_week (E : Z) (k : nat) :
  weekLo tz (addWeeks jan01 (Z.of_nat k)) = jan01 - tz + Z.of_nat k * 604800000
  /\ weekHi tz E (addWeeks jan01 (Z.of_nat k))
     = Z.min (jan01 - tz + Z.of_nat k * 604800000 + 604800000 - 1) E.
Proof.
  destruct (week_interval tz jan01 E k) as [-> ->]. rewrite startOfWeek_jan01.
  unfold msPerDay. split; [ring | f_equal; ring].
Qed.

Lemma rowsIn_entry_in (lo hi t : Z) (s : string) (rs : list Report.t) :
  isoDateOnly s = Some t -> lo <= t <= hi ->
  rowsIn isoDateOnly lo hi (entryOn s :: rs) = entryOn s :: rowsIn isoDateOnly lo hi rs.
Proof.
  intros H [H1 H2]. unfold rowsIn. cbn [filter]. unfold inInterval at 1, entryOn at 1.
  cbn [Report.date]. rewrite H.
  destruct (Z.leb_spec lo t); [| lia]. destruct (Z.leb_spec t hi); [| lia]. reflexivity.
Qed.

Lemma rowsIn_entry_out (lo hi t : Z) (s : string) (rs : list Report.t) :
  isoDateOnly s = Some t -> t < lo \/ hi < t ->
  rowsIn isoDateOnly lo hi (entryOn s :: rs) = rowsIn isoDateOnly lo hi rs.
Proof.
  intros H Hout. unfold rowsIn. cbn [filter]. unfold inInterval at 1, entryOn at 1.
  cbn [Report.date]. rewrite H.
  destruct (Z.leb_spec lo t); [| reflexivity].
  destruct (Z.leb_spec t hi); [lia | reflexivity].
Qed.

(** Decides, row after row, which rows of the example a bucket takes in. *)
Ltac january_rows :=
  unfold january2024; cbn [map firstn skipn];
  repeat match goal with
         | |- context [rowsIn isoDateOnly ?lo ?hi (entryOn ?s :: ?rs)] =>
             let t := eval vm_compute in (isoDateOnly s) in
             lazymatch t with
             | Some ?n =>
                 first [ rewrite (rowsIn_entry_in lo hi n s rs)
                           by (lazymatch goal with
                               | |- isoDateOnly _ = _ => vm_compute; reflexivity
                               | |- _ => unfold jan01, jan20; lia
                               end)
                       | rewrite (rowsIn_entry_out lo hi n s rs)
                           by (lazymatch goal with
                               | |- isoDateOnly _ = _ => vm_compute; reflexivity
                               | |- _ => unfold jan01, jan20; lia
                               end) ]
             end
         end;
  reflexivity.

Lemma january_rows_week1 :
  rowsIn isoDateOnly (jan01 - tz) (Z.min (jan01 - tz + 604800000 - 1) jan20) january2024
  = firstn 7 january2024.
Proof. january_rows. Qed.

Lemma january_rows_week2 :
  rowsIn isoDateOnly (jan01 - tz + 604800000)
         (Z.min (jan01 - tz + 604800000 + 604800000 - 1) jan20) january2024
  = firstn 7 (skipn 7 january2024).
Proof. january_rows. Qed.

Lemma january_rows_week3 :
  rowsIn isoDateOnly (jan01 - tz + 2 * 604800000)
         (Z.min (jan01 - tz + 2 * 604800000 + 604800000 - 1) jan20) january2024
  = skipn 14 january2024.
Proof. january_rows. Qed.

Lemma format_MMM_dd_day (t d : Z) :
  localDay tz t = d -> format_MMM_dd tz t = format_MMM_dd 0 (d * msPerDay).
Proof.
  intros H. unfold format_MMM_dd, getMonth, getDate. rewrite H.
  replace (localDay 0 (d * msPerDay)) with d; [reflexivity |].
  unfold localDay. rewrite Z.add_0_r, Z.div_mul by discriminate. reflexivity.
Qed.

(** C7 (as amended). Range [2024-01-01, 2024-01-20], the dates being
    read as UTC midnights, today at 2024-01-20 00:00 UTC or later, one
    completed record of 60 minutes on each day, and the local zone at a
    constant offset between UTC and UTC+14: the weekly pass produces
    exactly 3 buckets; the first two total 420 minutes at 100%
    completion; the third starts on Monday 2024-01-15, has the 6 days
    through 2024-01-20 and totals 60 minutes times 6. *)
Theorem three_weeks_of_january (today : Z) :
  jan20 <= today ->
  isoDateOnly "2024-01-01" = Some jan01
  /\ isoDateOnly "2024-01-20" = Some jan20
  /\ exists b1 b2 b3,
    weeklyData tz isoDateOnly january2024 jan01 jan20 today = Ok [b1; b2; b3]
    /\ JS.eqn (JS.mul (Week.totalHours b1) (JS.Num 60)) (JS.Num 420)
    /\ JS.eqn (Week.completionRate b1) (JS.Num 100)
    /\ JS.eqn (JS.mul (Week.totalHours b2) (JS.Num 60)) (JS.Num 420)
    /\ JS.eqn (Week.completionRate b2) (JS.Num 100)
    /\ Week.weekStart b3 = "Jan 15"%string
    /\ Week.weekEnd b3 = "Jan 20"%string
    /\ map Day.day (Week.days b3) = ["Mon"; "Tue"; "Wed"; "Thu"; "Fri"; "Sat"]%string
    /\ map Day.date (Week.days b3) = dayList (jan01 + 14 * msPerDay - tz) 6
    /\ JS.eqn (JS.mul (Week.totalHours b3) (JS.Num 60))
              (JS.Num (60 * inject_Z (Z.of_nat (List.length (Week.days b3))))).
Proof.
  intros Htoday.
  split; [exact isoDateOnly_jan01 |]. split; [exact isoDateOnly_jan20 |].
  assert (min today jan20 = jan20) as HE
    by (unfold min; destruct (Z.ltb_spec jan20 today); lia).
  destruct (weeklyData_spec tz isoDateOnly january2024 jan01 jan20 today)
    as (ws & Hrun & Hnth & Hlen & _).
  rewrite HE in Hnth, Hlen.
  specialize (Hlen ltac:(unfold jan01, jan20; lia)).
  change (Z.to_nat (numWeeks jan01 jan20)) with 3%nat in Hlen.
  destruct ws as [| b1 [| b2 [| b3 [| b4 ws]]]]; try discriminate Hlen.
  exists b1, b2, b3. split; [exact Hrun |].
  destruct (Hnth 0%nat b1 eq_refl) as [Hg1 Hb1].
  destruct (Hnth 1%nat b2 eq_refl) as [Hg2 Hb2].
  destruct (Hnth 2%nat b3 eq_refl) as [Hg3 Hb3].
  destruct (weekBucket_spec tz isoDateOnly january2024 _ _ Hg1)
    as (b1' & Hb1' & _ & _ & Htot1 & Hrate1 & _).
  rewrite Hb1 in Hb1'. injection Hb1' as <-.
  destruct (weekBucket_spec tz isoDateOnly january2024 _ _ Hg2)
    as (b2' & Hb2' & _ & _ & Htot2 & Hrate2 & _).
  rewrite Hb2 in Hb2'. injection Hb2' as <-.
  destruct (weekBucket_spec tz isoDateOnly january2024 _ _ Hg3)
    as (b3' & Hb3' & Hstart3 & Hend3 & Htot3 & _ & Hdates3 & Hlabels3 & _).
  rewrite Hb3 in Hb3'. injection Hb3' as <-.
  destruct (january_week jan20 0) as [Hlo1 Hhi1].
  destruct (january_week jan20 1) as [Hlo2 Hhi2].
  destruct (january_week jan20 2) as [Hlo3 Hhi3].
  rewrite Hlo1, Hhi1 in Htot1, Hrate1.
  rewrite Hlo2, Hhi2 in Htot2, Hrate2.
  rewrite Hlo3 in Htot3, Hstart3, Hdates3, Hlabels3.
  rewrite Hhi3 in Htot3, Hend3, Hdates3, Hlabels3.
  change (Z.of_nat 0) with 0 in *. change (Z.of_nat 1) with 1 in *.
  change (Z.of_nat 2) with 2 in *.
  rewrite Z.mul_0_l, Z.add_0_r in Htot1, Hrate1. rewrite Z.mul_1_l in Htot2, Hrate2.
  rewrite january_rows_week1 in Htot1, Hrate1.
  rewrite january_rows_week2 in Htot2, Hrate2.
  rewrite january_rows_week3 in Htot3.
  assert (Z.min (jan01 - tz + 2 * 604800000 + 604800000 - 1) jan20 = jan20) as Hmin
    by (unfold jan01, jan20; lia).
  rewrite Hmin in Hend3, Hdates3, Hlabels3.
  assert (localDay tz (jan01 - tz + 2 * 604800000) = 19737) as Hday_lo.
  { replace (jan01 - tz + 2 * 604800000) with (19737 * msPerDay + (- tz))
      by (unfold jan01, msPerDay; ring).
    unfold localDay, msPerDay. Z.to_euclidean_division_equations. lia. }
  assert (localDay tz jan20 = 19742) as Hday_hi.
  { change jan20 with (19742 * msPerDay + 0).
    apply localDay_east; unfold msPerDay; lia. }
  rewrite Hday_lo, Hday_hi in Hdates3, Hlabels3.
  change (Z.to_nat (19742 - 19737 + 1)) with 6%nat in Hdates3, Hlabels3.
  split; [rewrite Htot1; vm_compute; reflexivity |].
  split; [rewrite Hrate1; vm_compute; reflexivity |].
  split; [rewrite Htot2; vm_compute; reflexivity |].
  split; [rewrite Hrate2; vm_compute; reflexivity |].
  split; [rewrite Hstart3, (format_MMM_dd_day _ _ Hday_lo); vm_compute; reflexivity |].
  split; [rewrite Hend3, (format_MMM_dd_day _ _ Hday_hi); vm_compute; reflexivity |].
  split.
  { rewrite Hlabels3.
    rewrite (labels_from_monday tz (jan01 - tz + 2 * 604800000) 6); [reflexivity | | lia].
    rewrite <- Hlo3. apply startOfWeek_monday. }
  split.
  { rewrite Hdates3. f_equal. unfold msPerDay. ring. }
  pose proof (f_equal (@List.length Z) Hdates3) as Hl.
  rewrite length_map, dayList_length in Hl. rewrite Hl, Htot3.
  vm_compute. reflexivity.
Qed.

End January.

(** ** The overall total against the bucket totals *)

Lemma raw_hours_of_number (r : Report.t) :
  hasNumericTime r ->
  exists h, JS.div (JS.toNumber (Report.time_spent r)) 60 = JS.Num h
            /\ (h == valueOf (reportHours r))%Q.
Proof.
  intros [Hnull | [q Hq]]; unfold reportHours, JS.orZero, JS.truthy.
  - rewrite Hnull. cbn. eexists. split; reflexivity.
  - rewrite Hq. cbn [JS.toNumber JS.div].
    eexists. split; [reflexivity |].
    destruct (Qeq_bool q 0) eqn:Hz; cbn [negb JS.toNumber JS.div valueOf].
    + apply Qeq_bool_eq in Hz. rewrite Hz. reflexivity.
    + reflexivity.
Qed.

Lemma overall_total_of_numbers (rows : list Report.t) :
  Forall hasNumericTime rows ->
  forall a b, (a == b)%Q ->
    exists p q,
      fold_left
        (fun sum report => JS.add sum (JS.div (JS.toNumber (Report.time_spent report)) 60))
        rows (JS.Num a) = JS.Num p
      /\ fold_left JS.add (map reportHours rows) (JS.Num b) = JS.Num q
      /\ (p == q)%Q.
Proof.
  induction 1 as [| r rows Hr Hrows IH]; intros a b Hab.
  - exists a, b. split; [reflexivity |]. split; [reflexivity | assumption].
  - cbn [fold_left map]. destruct (raw_hours_of_number r Hr) as (h & -> & Hh).
    destruct (reportHours_isNum r) as [h' Hh']. rewrite Hh' in *. cbn [valueOf] in Hh.
    cbn [JS.add]. apply IH. rewrite Hab, Hh. reflexivity.
Qed.

(** C10 (as amended). For every record set whose time_spent values are
    numbers or null, the overall total-hours statistic is a number, not
    NaN, and shows what the guarded sum of the buckets' kind shows: the
    overall sum divides the raw field by 60 without substituting zero,
    but null / 60 is 0.  The statistic is NaN as soon as a record has no
    time_spent property at all (undefined) or holds NaN. *)
Theorem totalHours_is_a_number_for_null (reports : list Report.t) :
  (Forall hasNumericTime reports ->
   isNum (totalHours reports)
   /\ isNum (JS.toFixed 1 (totalHours reports))
   /\ JS.eqn (JS.toFixed 1 (totalHours reports))
             (JS.toFixed 1 (sumNumbers (map reportHours reports))))
  /\ ((exists r, In r reports
                /\ (Report.time_spent r = JS.Undefined
                    \/ Report.time_spent r = JS.Value JS.NaN)) ->
      totalHours reports = JS.NaN
      /\ JS.toFixed 1 (totalHours reports) = JS.NaN
      /\ isNum (JS.toFixed 1 (sumNumbers (map reportHours reports)))).
Proof.
  split.
  - intros Hall.
    destruct (overall_total_of_numbers reports Hall 0 0 (Qeq_refl 0))
      as (p & q & Hp & Hq & Hpq).
    unfold totalHours, sumNumbers. rewrite Hp, Hq.
    split; [eexists; reflexivity |]. split; [apply toFixed_isNum |].
    apply toFixed_eqn. exact Hpq.
  - intros (r & Hin & Hbad). apply in_split in Hin. destruct Hin as (before & after & ->).
    assert (totalHours (before ++ r :: after) = JS.NaN) as Hnan.
    { unfold totalHours. rewrite fold_left_app. cbn [fold_left].
      assert (JS.div (JS.toNumber (Report.time_spent r)) 60 = JS.NaN) as ->
        by (destruct Hbad as [-> | ->]; reflexivity).
      destruct (fold_left _ before (JS.Num 0)); cbn [JS.add]; apply totalHours_fold_NaN. }
    rewrite Hnan. split; [reflexivity |]. split; [reflexivity |].
    unfold sumNumbers.
    match goal with
    | |- context [fold_left JS.add (map reportHours ?rows) _] =>
        destruct (fold_add_hours rows 0) as (q & -> & _)
    end.
    apply toFixed_isNum.
Qed.

(** ** Instances and counterexamples *)



(** C2, as stated, fails: with the range [2024-01-20, 2024-01-01]
    neither pass returns a single bucket. *)
Lemma inverted_range_counterexample :
  ~ (exists b, weeklyData 0 isoDateOnly january2024 jan20 jan01 jan20 = Ok [b])
  /\ ~ (exists m, monthlyData 0 isoDateOnly january2024 jan20 jan01 jan20 = Ok [m]).
Proof.
  split; intros [b Hb]; vm_compute in Hb; discriminate.
Qed.

Lemma inverted_range_witness :
  jan01 < jan20
  /\ weeklyData 0 isoDateOnly january2024 jan20 jan01 jan20 = Ok []
  /\ monthlyData 0 isoDateOnly january2024 jan20 jan01 jan20 = Ok [].
Proof.
  split; [reflexivity |].
  apply (inverted_range_yields_no_bucket 0 isoDateOnly january2024 jan20 jan01 jan20 jan20).
  reflexivity.
Defined.

Lemma completionRate_witness :
  exists ws b ms m,
    weeklyData 0 isoDateOnly january2024 jan01 jan20 jan20 = Ok ws
    /\ nth_error ws 2 = Some b
    /\ monthlyData 0 isoDateOnly january2024 jan01 jan20 jan20 = Ok ms
    /\ nth_error ms 0 = Some m
    /\ roundedPercent 6 6 (Week.completionRate b)
    /\ roundedPercent 20 20 (Month.completionRate m).
Proof.
  destruct (completionRate_is_rounded_percentage 0 isoDateOnly january2024
              jan01 jan20 jan20 jan20) as [Hw Hm].
  do 4 eexists.
  split; [vm_compute; reflexivity |]. split; [reflexivity |].
  split; [vm_compute; reflexivity |]. split; [reflexivity |].
  split.
  - refine (Hw _ 2%nat _ _ _); [vm_compute; reflexivity | reflexivity].
  - refine (Hm _ 0%nat _ _ _); [vm_compute; reflexivity | reflexivity].
Defined.

(** C4, as stated, fails: a record of -30 minutes lowers the totals and
    the day's hours by half an hour. *)
Lemma negative_duration_counterexample :
  exists b d ds ws m,
    weeklyData 0 isoDateOnly [rowWithNegativeDuration] jan01 jan20 jan20 = Ok (b :: ws)
    /\ JS.eqn (Week.totalHours b) (JS.Num (- (1 # 2)))
    /\ ~ JS.eqn (Week.totalHours b) (JS.Num 0)
    /\ Week.days b = d :: ds
    /\ JS.eqn (Day.hours d) (JS.Num (- (1 # 2)))
    /\ monthlyData 0 isoDateOnly [rowWithNegativeDuration] jan01 jan20 jan20 = Ok [m]
    /\ JS.eqn (Month.totalHours m) (JS.Num (- (1 # 2)))
    /\ ~ JS.eqn (Month.totalHours m) (JS.Num 0).
Proof.
  do 5 eexists.
  split; [vm_compute; reflexivity |]. split; [vm_compute; reflexivity |].
  split; [vm_compute; discriminate |]. split; [reflexivity |].
  split; [vm_compute; reflexivity |]. split; [vm_compute; reflexivity |].
  split; [vm_compute; reflexivity | vm_compute; discriminate].
Qed.

Lemma missing_duration_witness :
  Report.time_spent rowWithNullDuration = JS.Null
  /\ weeklyData 0 isoDateOnly ([] ++ rowWithNullDuration :: january2024) jan01 jan20 jan20
     = weeklyData 0 isoDateOnly
         ([] ++ withDuration rowWithNullDuration (JS.Value (JS.Num 0)) :: january2024)
         jan01 jan20 jan20
  /\ In rowWithNegativeDuration [rowWithNegativeDuration; rowOnTuesday]
  /\ Report.time_spent rowWithNegativeDuration = JS.Value (JS.Num (-30))
  /\ (-30 < 0)%Q
  /\ reportHours rowWithNegativeDuration = JS.Num (-30 / 60)
  /\ exists b ws,
       weeklyData 0 isoDateOnly [rowWithNegativeDuration; rowOnTuesday] jan01 jan20 jan20
       = Ok (b :: ws)
       /\ Week.totalHours b
          = JS.toFixed 1
              (sumNumbers (map reportHours [rowWithNegativeDuration; rowOnTuesday])).
Proof.
  destruct (missing_duration_is_zero_negative_is_kept 0 isoDateOnly) as [Hmiss Hneg].
  split; [reflexivity |]. split.
  { apply (Hmiss [] january2024 rowWithNullDuration jan01 jan20 jan20 jan20).
    right. reflexivity. }
  assert (In rowWithNegativeDuration [rowWithNegativeDuration; rowOnTuesday]) as Hin
    by (left; reflexivity).
  assert (-30 < 0)%Q as Hlt by reflexivity.
  split; [exact Hin |]. split; [reflexivity |]. split; [exact Hlt |].
  destruct (Hneg [rowWithNegativeDuration; rowOnTuesday] rowWithNegativeDuration (-30)%Q
              jan01 jan20 jan20 jan20 Hin eq_refl Hlt) as (Hh & _ & Hweek & _).
  split; [exact Hh |].
  assert (exists b ws,
            weeklyData 0 isoDateOnly [rowWithNegativeDuration; rowOnTuesday]
                       jan01 jan20 jan20 = Ok (b :: ws)) as (b & ws & Hrun)
    by (do 2 eexists; vm_compute; reflexivity).
  exists b, ws. split; [exact Hrun |].
  specialize (Hweek (b :: ws) 0%nat b Hrun eq_refl). cbv zeta in Hweek.
  destruct (Hweek ltac:(vm_compute; reflexivity)) as (_ & Htot & _).
  exact Htot.
Defined.

(** C10, as stated, fails for the values a query delivers: with null
    for a missing time_spent the overall total is a number, and no record
    set of numbers and nulls makes it NaN. *)
Lemma null_time_spent_counterexample :
  Report.time_spent rowWithNullDuration = JS.Null
  /\ JS.eqn (totalHours [rowWithNullDuration]) (JS.Num 0)
  /\ (exists st,
        fetchReportStats 0 isoDateOnly (rowWithNullDuration :: january2024)
                         jan01 jan20 jan20 jan20 = Ok st
        /\ JS.eqn (Stats.totalHours st) (JS.Num 20))
  /\ ~ (exists reports, Forall hasNumericTime reports /\ totalHours reports = JS.NaN).
Proof.
  split; [reflexivity |]. split; [reflexivity |]. split.
  - eexists. split; [vm_compute; reflexivity |]. vm_compute. reflexivity.
  - intros (reports & Hall & Hnan).
    destruct (overall_total_of_numbers reports Hall 0 0 (Qeq_refl 0))
      as (p & q & Hp & _).
    unfold totalHours in Hnan. rewrite Hp in Hnan. discriminate.
Qed.

Lemma totalHours_null_witness :
  Forall hasNumericTime [rowWithNullDuration; rowOnTuesday]
  /\ isNum (JS.toFixed 1 (totalHours [rowWithNullDuration; rowOnTuesday]))
  /\ JS.eqn (JS.toFixed 1 (totalHours [rowWithNullDuration; rowOnTuesday]))
            (JS.toFixed 1 (sumNumbers (map reportHours [rowWithNullDuration; rowOnTuesday])))
  /\ (exists r, In r [rowWithoutDuration; rowOnTuesday]
               /\ (Report.time_spent r = JS.Undefined
                   \/ Report.time_spent r = JS.Value JS.NaN))
  /\ totalHours [rowWithoutDuration; rowOnTuesday] = JS.NaN.
Proof.
  assert (Forall hasNumericTime [rowWithNullDuration; rowOnTuesday]) as Hall.
  { constructor; [left; reflexivity |].
    constructor; [right; eexists; reflexivity | constructor]. }
  assert (exists r, In r [rowWithoutDuration; rowOnTuesday]
                    /\ (Report.time_spent r = JS.Undefined
                        \/ Report.time_spent r = JS.Value JS.NaN)) as Hbad.
  { exists rowWithoutDuration. split; [left; reflexivity | left; reflexivity]. }
  split; [exact Hall |].
  destruct (totalHours_is_a_number_for_null [rowWithNullDuration; rowOnTuesday])
    as [Hnum _].
  destruct (Hnum Hall) as (_ & H1 & H2).
  split; [exact H1 |]. split; [exact H2 |]. split; [exact Hbad |].
  destruct (totalHours_is_a_number_for_null [rowWithoutDuration; rowOnTuesday])
    as [_ Hnan].
  exact (proj1 (Hnan Hbad)).
Defined.

(** C6, as stated, fails: the tags "api," count the empty label. *)
Lemma empty_label_counterexample :
  JS.get (tallyTags [rowWithTrailingComma]) "" = JS.Own (JS.Number (JS.Num 1))
  /\ JS.entries (tallyTags [rowWithTrailingComma])
     = [("api"%string, JS.Number (JS.Num 1)); (""%string, JS.Number (JS.Num 1))].
Proof. split; vm_compute; reflexivity. Qed.

(** The tag "constructor" is read from [Object.prototype] the first time:
    what is stored under it is a text, and a second piece appends to it. *)
Lemma constructor_label_holds_a_text :
  JS.entries (tallyTags [rowTaggedConstructor])
  = [("constructor"%string, JS.Appended "constructor" 1);
     ("api"%string, JS.Number (JS.Num 1))]
  /\ JS.get (tallyTags [rowTaggedConstructor; rowTaggedConstructor]) "constructor"
     = JS.Own (JS.Appended "constructor" 2).
Proof. split; vm_compute; reflexivity. Qed.

Lemma tally_counts_witness :
  JS.inherited "api" = false
  /\ hasCount (JS.get (tallyTags taggedRows) "api") 2
  /\ JS.inherited "constructor" = true
  /\ hasText (JS.get (tallyTags [rowTaggedConstructor]) "constructor") "constructor" 1.
Proof.
  destruct tally_counts_every_trimmed_piece as (Hcount & Htext & _).
  split; [reflexivity |]. split.
  - exact (proj1 (Hcount taggedRows "api"%string eq_refl)).
  - split; [reflexivity |].
    exact (proj1 (Htext [rowTaggedConstructor] "constructor"%string eq_refl)).
Defined.

(** C7, as stated, fails west of UTC: at UTC-5 the first bucket is the
    week of Monday 2023-12-25 and holds the record of 2024-01-01 only, 60
    minutes instead of 420, and the last bucket ends on 2024-01-14. *)
Lemma january_west_of_utc_counterexample :
  exists b1 b2 b3,
    weeklyData utcMinus5 isoDateOnly january2024 jan01 jan20 jan20 = Ok [b1; b2; b3]
    /\ Week.weekStart b1 = "Dec 25"%string
    /\ Week.weekEnd b1 = "Dec 31"%string
    /\ JS.eqn (JS.mul (Week.totalHours b1) (JS.Num 60)) (JS.Num 60)
    /\ ~ JS.eqn (JS.mul (Week.totalHours b1) (JS.Num 60)) (JS.Num 420)
    /\ Week.weekStart b3 = "Jan 08"%string
    /\ Week.weekEnd b3 = "Jan 14"%string.
Proof.
  do 3 eexists. split; [vm_compute; reflexivity |].
  split; [vm_compute; reflexivity |]. split; [vm_compute; reflexivity |].
  split; [vm_compute; reflexivity |]. split; [vm_compute; discriminate |].
  split; vm_compute; reflexivity.
Qed.

Lemma three_weeks_of_january_witness :
  0 <= utcPlus0530 <= 50400000
  /\ jan20 <= jan20
  /\ exists b1 b2 b3,
       weeklyData utcPlus0530 isoDateOnly january2024 jan01 jan20 jan20 = Ok [b1; b2; b3]
       /\ JS.eqn (JS.mul (Week.totalHours b1) (JS.Num 60)) (JS.Num 420)
       /\ JS.eqn (JS.mul (Week.totalHours b2) (JS.Num 60)) (JS.Num 420)
       /\ Week.weekStart b3 = "Jan 15"%string
       /\ Week.weekEnd b3 = "Jan 20"%string
       /\ List.length (Week.days b3) = 6%nat.
Proof.
  assert (0 <= utcPlus0530 <= 50400000) as Heast by (unfold utcPlus0530; lia).
  assert (jan20 <= jan20) as Htoday by lia.
  split; [exact Heast |]. split; [exact Htoday |].
  destruct (three_weeks_of_january utcPlus0530 Heast jan20 Htoday)
    as (_ & _ & b1 & b2 & b3 & Hrun & H1 & _ & H2 & _ & Hs & He & _ & Hd & _).
  exists b1, b2, b3. split; [exact Hrun |]. split; [exact H1 |]. split; [exact H2 |].
  split; [exact Hs |]. split; [exact He |].
  pose proof (f_equal (@List.length Z) Hd) as Hl.
  rewrite length_map, dayList_length in Hl. exact Hl.
Defined.

Lemma weekly_buckets_witness :
  exists ws b,
    weeklyData 0 isoDateOnly january2024 jan01 jan20 jan20 = Ok ws
    /\ nth_error ws 1 = Some b
    /\ getDay 0 (addWeeks (startOfWeek 0 jan01) 1) = 1
    /\ exists n : nat,
         map Day.date (Week.days b) = dayList (addWeeks (startOfWeek 0 jan01) 1) n
         /\ ((2 < List.length ws)%nat -> n = 7%nat).
Proof.
  do 2 eexists.
  split; [vm_compute; reflexivity |]. split; [reflexivity |].
  destruct (weekly_buckets_are_consecutive_weeks 0 isoDateOnly january2024
              jan01 jan20 jan20 _ ltac:(vm_compute; reflexivity) 1%nat _ eq_refl)
    as (Hday & _ & n & Hdates & _ & Hfull & _).
  split; [exact Hday |].
  exists n. split; [exact Hdates |].
  intros Hlen. apply Hfull. exact Hlen.
Defined.

Lemma inProgress_spellings_witness :
  Report.status rowInProgress = "in_progress"%string
  /\ inProgress [rowInProgress] = inProgress [] + 1.
Proof.
  split; [reflexivity |].
  destruct inProgress_spellings_and_uncounted_statuses as [Hip _].
  apply (Hip rowInProgress []). right. left. reflexivity.
Defined.

(** ** Further observations *)

(** The week count is the number of full weeks plus one, so the calendar
    week of the effective end can be left without a bucket: from Wednesday
    2024-01-03 to Tuesday 2024-01-16 there are two buckets, for the weeks
    of 01-01 and of 01-08, and the row of 01-16 is in neither. *)
Lemma last_week_can_be_missing :
  inInterval isoDateOnly jan03 (min jan20 jan16) rowOnJan16 = true
  /\ exists b1 b2,
       weeklyData 0 isoDateOnly [rowOnJan16] jan03 jan16 jan20 = Ok [b1; b2]
       /\ Week.weekEnd b2 = "Jan 14"%string
       /\ JS.eqn (Week.totalHours b1) (JS.Num 0)
       /\ JS.eqn (Week.totalHours b2) (JS.Num 0).
Proof.
  split; [vm_compute; reflexivity |].
  do 2 eexists. split; [vm_compute; reflexivity |].
  repeat split; vm_compute; reflexivity.
Qed.

(** Outside the two passes, [calculateDayStreak] calls [toISOString] on
    every row: with a row whose date is invalid the whole computation
    throws, and the page shows the error toast instead of statistics. *)
Lemma fetchReportStats_invalid_date_throws :
  fetchReportStats 0 isoDateOnly (rowWithBadDate :: january2024) jan01 jan20 jan20 jan20
  = Throw RangeError.
Proof. vm_compute. reflexivity. Qed.

(** The total a bucket shows is rounded to a tenth of an hour: a single
    row of one minute shows as 0, while the hours of its day keep 1/60. *)
Lemma rounded_total_loses_minutes :
  exists b d ds ws,
    weeklyData 0 isoDateOnly [rowOfOneMinute] jan01 jan20 jan20 = Ok (b :: ws)
    /\ JS.eqn (Week.totalHours b) (JS.Num 0)
    /\ Week.days b = d :: ds
    /\ JS.eqn (Day.hours d) (JS.Num (1 # 60)).
Proof.
  do 4 eexists. split; [vm_compute; reflexivity |].
  split; [vm_compute; reflexivity |]. split; [reflexivity |].
  vm_compute; reflexivity.
Qed.

(** ** Hours and minutes of an entry *)

Lemma Qfloor_div60 (t : Z) : Qfloor (inject_Z t / 60) = t / 60.
Proof.
  unfold Qdiv, Qinv, Qmult, inject_Z, Qfloor. cbn [Qnum Qden].
  rewrite Z.mul_1_r. reflexivity.
Qed.

Lemma truncate_div60 (t : Z) : JSMath.truncate (inject_Z t / 60) = Z.quot t 60.
Proof.
  unfold JSMath.truncate.
  destruct (Qle_bool 0 (inject_Z t / 60)) eqn:Hs.
  - apply Qle_bool_iff in Hs. rewrite Qfloor_div60.
    unfold Qle, Qdiv, Qinv, Qmult, inject_Z in Hs. cbn [Qnum Qden] in Hs.
    symmetry. apply Z.quot_div_nonneg; lia.
  - assert (~ (0 <= inject_Z t / 60)%Q) as Hn
      by (intros H; apply Qle_bool_iff in H; congruence).
    unfold Qle, Qdiv, Qinv, Qmult, inject_Z in Hn. cbn [Qnum Qden] in Hn.
    unfold Qceiling, Qopp, Qdiv, Qinv, Qmult, inject_Z, Qfloor. cbn [Qnum Qden].
    rewrite Z.mul_1_r.
    change (Z.pos (1 * 60)) with 60.
    Z.to_euclidean_division_equations. lia.
Qed.

(** What [startEditing] computes from a whole number of minutes. *)
Lemma split_minutes (e : Entry.t) (t : Z) :
  Entry.time_spent e = JS.Value (JS.Num (inject_Z t)) ->
  Entries.hours e = JS.Num (inject_Z (t / 60))
  /\ JS.eqn (Entries.minutes e) (JS.Num (inject_Z (Z.rem t 60))).
Proof.
  intros Ht. unfold Entries.hours, Entries.minutes. rewrite Ht.
  cbn [JS.toNumber JS.div JSMath.floor JSMath.rem]. split.
  - rewrite Qfloor_div60. reflexivity.
  - cbn [JS.eqn]. rewrite truncate_div60.
    pose proof (Z.quot_rem' t 60) as Hqr.
    unfold Qeq, Qminus, Qplus, Qopp, Qmult, inject_Z. cbn [Qnum Qden]. lia.
Qed.

(** X1. Opening an entry for editing and saving it unchanged keeps a
    non-negative whole number of minutes: the form shows hours =
    time_spent div 60 and minutes = time_spent mod 60 (below 60), and
    hours * 60 + minutes is the stored value again.  A negative value
    that is not a multiple of 60 comes back 60 minutes lower, since the
    hours are rounded down while the remainder keeps the sign. *)
Theorem edit_round_trip_of_minutes (e : Entry.t) (t : Z) :
  Entry.time_spent e = JS.Value (JS.Num (inject_Z t)) ->
  (0 <= t ->
     Entries.hours e = JS.Num (inject_Z (t / 60))
     /\ JS.eqn (Entries.minutes e) (JS.Num (inject_Z (t mod 60)))
     /\ 0 <= t mod 60 < 60
     /\ JS.eqn (Entries.time_spent (Entries.hours e) (Entries.minutes e))
               (JS.Num (inject_Z t)))
  /\ (t < 0 -> t mod 60 <> 0 ->
      JS.eqn (Entries.time_spent (Entries.hours e) (Entries.minutes e))
             (JS.Num (inject_Z (t - 60)))).
Proof.
  intros Ht. destruct (split_minutes e t Ht) as [Hh Hm].
  destruct (Entries.minutes e) as [| m]; [destruct Hm |]. cbn [JS.eqn] in Hm.
  split.
  - intros Hpos. split; [assumption |].
    assert (Z.rem t 60 = t mod 60) as Hr by (apply Z.rem_mod_nonneg; lia).
    split; [cbn [JS.eqn]; rewrite Hm, Hr; reflexivity |].
    split; [apply Z.mod_pos_bound; lia |].
    rewrite Hh. unfold Entries.time_spent. cbn [JS.mul JS.add JS.eqn]. rewrite Hm, Hr.
    unfold Qeq, Qplus, Qmult, inject_Z. cbn [Qnum Qden].
    pose proof (Z.div_mod t 60). lia.
  - intros Hneg Hnz. rewrite Hh. unfold Entries.time_spent.
    cbn [JS.mul JS.add JS.eqn]. rewrite Hm.
    unfold Qeq, Qplus, Qmult, inject_Z. cbn [Qnum Qden].
    Z.to_euclidean_division_equations. lia.
Qed.

(** X2. Saving hours and minutes and opening the entry again shows the
    same total, with the minutes brought below 60: for whole
    non-negative h and m the form shows h + m div 60 hours and m mod 60
    minutes. *)
Theorem save_then_edit_normalises_minutes (e : Entry.t) (h m : Z) :
  Entry.time_spent e
  = JS.Value (Entries.time_spent (JS.Num (inject_Z h)) (JS.Num (inject_Z m))) ->
  0 <= h -> 0 <= m ->
  JS.eqn (Entries.hours e) (JS.Num (inject_Z (h + m / 60)))
  /\ JS.eqn (Entries.minutes e) (JS.Num (inject_Z (m mod 60))).
Proof.
  intros Ht Hh Hm. unfold Entries.hours, Entries.minutes. rewrite Ht.
  unfold Entries.time_spent.
  cbn [JS.mul JS.add JS.toNumber JS.div JSMath.floor JSMath.rem JS.eqn].
  assert (inject_Z h * 60 + inject_Z m == inject_Z (h * 60 + m))%Q as Hsum.
  { unfold Qeq, Qplus, Qmult, inject_Z. cbn [Qnum Qden]. lia. }
  assert ((inject_Z h * 60 + inject_Z m) / 60 == inject_Z (h * 60 + m) / 60)%Q as Hq
    by (rewrite Hsum; reflexivity).
  split.
  - rewrite (Qfloor_comp _ _ Hq), Qfloor_div60.
    unfold Qeq, inject_Z. cbn [Qnum Qden].
    Z.to_euclidean_division_equations. lia.
  - assert (JSMath.truncate ((inject_Z h * 60 + inject_Z m) / 60)
            = JSMath.truncate (inject_Z (h * 60 + m) / 60)) as Htr.
    { unfold JSMath.truncate. rewrite (Qleb_comp _ _ (Qeq_refl 0) _ _ Hq).
      unfold Qceiling. rewrite (Qfloor_comp _ _ Hq).
      assert (- ((inject_Z h * 60 + inject_Z m) / 60)
              == - (inject_Z (h * 60 + m) / 60))%Q as Hn by (rewrite Hq; reflexivity).
      rewrite (Qfloor_comp _ _ Hn). reflexivity. }
    rewrite Htr, truncate_div60, Hsum.
    rewrite Z.quot_div_nonneg by lia.
    unfold Qeq, Qminus, Qplus, Qopp, Qmult, inject_Z. cbn [Qnum Qden].
    Z.to_euclidean_division_equations. lia.
Qed.

(** X3. The entry form reads a missing time_spent (undefined, null, NaN
    or 0) as 0 hours and 0 minutes, while the Entries page, which divides
    the raw value, shows NaN for an absent property. *)
Theorem form_reads_missing_time_as_zero :
  (forall f, JS.truthy f = false ->
     JS.eqn (NewEntryForm.hours f) (JS.Num 0)
     /\ JS.eqn (NewEntryForm.minutes f) (JS.Num 0))
  /\ (forall e, Entry.time_spent e = JS.Undefined ->
        Entries.hours e = JS.NaN /\ Entries.minutes e = JS.NaN
        /\ Entries.time_spent (Entries.hours e) (Entries.minutes e) = JS.NaN).
Proof.
  split.
  - intros f Hf. unfold NewEntryForm.hours, NewEntryForm.minutes,
      NewEntryForm.timeSpent, JS.orZero. rewrite Hf.
    split; vm_compute; reflexivity.
  - intros e He. unfold Entries.hours, Entries.minutes. rewrite He.
    repeat split; reflexivity.
Qed.

(** ** The status written by [toggleEntryStatus] *)

Lemma lowerChar_idem (c : ascii) :
  JSString.lowerChar (JSString.lowerChar c) = JSString.lowerChar c.
Proof. destruct c as [[] [] [] [] [] [] [] []]; reflexivity. Qed.

Lemma toLowerCase_idem (s : string) :
  JSString.toLowerCase (JSString.toLowerCase s) = JSString.toLowerCase s.
Proof.
  induction s as [| c s IH]; [reflexivity |].
  cbn [JSString.toLowerCase]. rewrite lowerChar_idem, IH. reflexivity.
Qed.

Lemma newStatus_canonical (s : string) : canonicalStatus (Entries.newStatus s).
Proof.
  unfold Entries.newStatus, canonicalStatus.
  destruct (String.eqb _ "completed"); [tauto |].
  destruct (String.eqb _ "in progress"); [tauto |].
  destruct (String.eqb _ "pending"); tauto.
Qed.

(** X4. toggleEntryStatus writes one of 'completed', 'in progress' and
    'pending', whatever status it is given: the lower-case form of the
    status when that is one of the three, so that 'COMPLETED' is written
    as 'completed' and a status that is one of the three is written back
    unchanged (applying the handler again changes nothing); and 'pending'
    when the lower-case form is none of the three, as for 'in_progress'
    and 'inprogress'.  When the update of the table succeeds, only
    entries with the given id are touched in the list and the ids stay as
    they are; when it fails the list stays as it is and the failure is
    shown. *)
Theorem toggle_writes_a_canonical_status :
  (forall s, canonicalStatus (Entries.newStatus s))
  /\ (forall s, canonicalStatus (JSString.toLowerCase s) ->
        Entries.newStatus s = JSString.toLowerCase s)
  /\ (forall s, ~ canonicalStatus (JSString.toLowerCase s) ->
        Entries.newStatus s = "pending"%string)
  /\ (forall s, canonicalStatus s -> Entries.newStatus s = s)
  /\ (forall s, Entries.newStatus (Entries.newStatus s) = Entries.newStatus s)
  /\ Entries.newStatus "COMPLETED" = "completed"%string
  /\ Entries.newStatus "In Progress" = "in progress"%string
  /\ Entries.newStatus "in_progress" = "pending"%string
  /\ Entries.newStatus "inprogress" = "pending"%string
  /\ (forall entries id currentStatus now,
        exists after,
          Entries.toggleEntryStatus entries id currentStatus now None
          = (after, Entries.StatusUpdated (Entries.newStatus currentStatus))
          /\ map Entry.id after = map Entry.id entries
          /\ (forall e, In e entries -> Entry.id e <> id -> In e after)
          /\ (forall e, In e after -> Entry.id e = id ->
                Entry.status e = Entries.newStatus currentStatus))
  /\ (forall entries id currentStatus now message,
        Entries.toggleEntryStatus entries id currentStatus now (Some message)
        = (entries, Entries.FailedToUpdateStatus message)).
Proof.
  assert (forall s, canonicalStatus s -> Entries.newStatus s = s) as Hfix
    by (intros s [-> | [-> | ->]]; reflexivity).
  split; [exact newStatus_canonical |].
  split.
  { intros s Hc. unfold Entries.newStatus, canonicalStatus in *.
    destruct (String.eqb_spec (JSString.toLowerCase s) "completed") as [-> | H1];
      [reflexivity |].
    destruct (String.eqb_spec (JSString.toLowerCase s) "in progress") as [-> | H2];
      [reflexivity |].
    destruct (String.eqb_spec (JSString.toLowerCase s) "pending") as [-> | H3];
      [reflexivity |].
    tauto. }
  split.
  { intros s Hn. unfold Entries.newStatus, canonicalStatus in *.
    destruct (String.eqb_spec (JSString.toLowerCase s) "completed"); [tauto |].
    destruct (String.eqb_spec (JSString.toLowerCase s) "in progress"); [tauto |].
    destruct (String.eqb_spec (JSString.toLowerCase s) "pending"); reflexivity. }
  split; [exact Hfix |].
  split; [intros s; apply Hfix, newStatus_canonical |].
  split; [reflexivity |]. split; [reflexivity |].
  split; [reflexivity |]. split; [reflexivity |].
  split; [| reflexivity].
  intros entries id currentStatus now. unfold Entries.toggleEntryStatus.
  eexists. split; [reflexivity |]. split; [| split].
  - rewrite map_map. apply map_ext. intros e.
    destruct (String.eqb (Entry.id e) id); reflexivity.
  - intros e Hin Hne. apply in_map_iff. exists e. split; [| assumption].
    destruct (String.eqb_spec (Entry.id e) id); [contradiction | reflexivity].
  - intros e Hin Hid. apply in_map_iff in Hin. destruct Hin as (e0 & He & _).
    destruct (String.eqb_spec (Entry.id e0) id) as [Heq | Hne].
    + rewrite <- He. reflexivity.
    + subst e. contradiction.
Qed.

(** ** The search box *)

Lemma string_app_assoc (a b c : string) : ((a ++ b) ++ c = a ++ (b ++ c))%string.
Proof. induction a as [| x a IH]; cbn; [reflexivity | rewrite IH; reflexivity]. Qed.

Lemma startsWith_iff (s q : string) :
  JSString.startsWith s q = true <-> exists b, s = (q ++ b)%string.
Proof.
  revert s. induction q as [| y q IH]; intros s.
  - split; [intros _; exists s; reflexivity | destruct s; reflexivity].
  - destruct s as [| x s]; cbn [JSString.startsWith].
    + split; [discriminate | intros [b Hb]; discriminate].
    + rewrite andb_true_iff, IH. unfold JS.ascii_eqb. rewrite Ascii.eqb_eq. split.
      * intros [-> [b ->]]. exists b. reflexivity.
      * intros [b Hb]. cbn in Hb. injection Hb as -> ->. split; [reflexivity | eauto].
Qed.

Lemma includes_iff (s q : string) :
  JSString.includes s q = true <-> exists a b, s = (a ++ q ++ b)%string.
Proof.
  induction s as [| x s IH]; cbn [JSString.includes]; rewrite orb_true_iff, startsWith_iff.
  - split.
    + intros [[b Hb] | H]; [exists EmptyString, b; assumption | discriminate].
    + intros (a & b & H). left. destruct a; [exists b; assumption | discriminate].
  - rewrite IH. split.
    + intros [[b Hb] | (a & b & Hab)].
      * exists EmptyString, b. assumption.
      * exists (String x a), b. cbn. rewrite Hab. reflexivity.
    + intros (a & b & Hab). destruct a as [| y a].
      * left. exists b. assumption.
      * right. cbn in Hab. injection Hab as -> ->. eauto.
Qed.

Lemma toLowerCase_app (a b : string) :
  JSString.toLowerCase (a ++ b)
  = (JSString.toLowerCase a ++ JSString.toLowerCase b)%string.
Proof. induction a as [| x a IH]; cbn; [reflexivity | rewrite IH; reflexivity]. Qed.

Lemma includes_toLowerCase (s q : string) :
  JSString.includes s q = true ->
  JSString.includes (JSString.toLowerCase s) (JSString.toLowerCase q) = true.
Proof.
  rewrite !includes_iff. intros (a & b & ->).
  exists (JSString.toLowerCase a), (JSString.toLowerCase b).
  rewrite !toLowerCase_app. reflexivity.
Qed.

Lemma includes_trans (s q2 q1 : string) :
  JSString.includes s q2 = true -> JSString.includes q2 q1 = true ->
  JSString.includes s q1 = true.
Proof.
  rewrite !includes_iff. intros (a & b & ->) (c & d & ->).
  exists (a ++ c)%string, (d ++ b)%string.
  rewrite !string_app_assoc. reflexivity.
Qed.

(** X6. The search box of the Entries page: an empty query keeps every
    entry.  For text of ASCII characters, an entry whose summary contains
    the query is kept whatever the letter case of either, and lengthening
    the query never brings back an entry that the shorter query had
    removed. *)
Theorem search_keeps_matching_entries (entries : list Entry.t) :
  Entries.filteredEntries entries "" = entries
  /\ (forall q q' e,
        In e entries ->
        asciiOnly (Entry.summary e) = true -> asciiOnly q = true -> asciiOnly q' = true ->
        JSString.includes (Entry.summary e) q' = true ->
        JSString.toLowerCase q' = JSString.toLowerCase q ->
        In e (Entries.filteredEntries entries q))
  /\ (forall q1 q2 e,
        asciiOnly q1 = true -> asciiOnly q2 = true ->
        JSString.includes q2 q1 = true ->
        In e (Entries.filteredEntries entries q2) ->
        In e (Entries.filteredEntries entries q1)).
Proof.
  unfold Entries.filteredEntries. split; [| split].
  - induction entries as [| e entries IH]; [reflexivity |].
    cbn [filter]. rewrite IH.
    assert (Entries.matchesQuery "" e = true) as ->; [| reflexivity].
    unfold Entries.matchesQuery. cbn [JSString.toLowerCase].
    destruct (JSString.toLowerCase (Entry.summary e)); reflexivity.
  - intros q q' e Hin _ _ _ Hinc Hcase. apply filter_In. split; [assumption |].
    unfold Entries.matchesQuery. rewrite <- Hcase.
    rewrite (includes_toLowerCase _ _ Hinc). reflexivity.
  - intros q1 q2 e _ _ Hsub Hin. apply filter_In in Hin. destruct Hin as [Hin Hm].
    apply filter_In. split; [assumption |].
    pose proof (includes_toLowerCase _ _ Hsub) as Hl.
    unfold Entries.matchesQuery in *.
    rewrite !orb_true_iff in *.
    destruct Hm as [[[H | H] | H] | H];
      [left; left; left | left; left; right | left; right | right];
      exact (includes_trans _ _ _ H Hl).
Qed.

(** ** The two passes as a whole *)

Section Passes.

Import Calendar.
Variable tz : Z.
Variable newDate : string -> option Z.


Lemma rate_isNum (c t : Z) : isNum (rate c t).
Proof. unfold rate, isNum. destruct (0 <? t); cbn; eauto. Qed.

(** A bucket built for a week that starts no later than the effective
    end has between one and seven days. *)
Lemma week_day_count (E wsd : Z) :
  wsd <= E ->
  1 <= localDay tz (weekHi tz E wsd) - localDay tz (weekLo tz wsd) + 1 <= 7.
Proof.
  intros Hg. rewrite weekHi_eq. unfold weekLo.
  pose proof (localDay_endOfWeek tz wsd) as Hsun. rewrite endOfWeek_eq in Hsun.
  pose proof (startOfWeek_le tz wsd) as Hlo.
  pose proof (localDay_mono tz _ _ Hlo) as Hm1.
  pose proof (localDay_mono tz _ _ Hg) as Hm2.
  destruct (Z.min_spec (startOfWeek tz wsd + 7 * msPerDay - 1) E) as [[Hlt ->] | [Hge ->]].
  - lia.
  - pose proof (localDay_mono tz _ _ Hge) as Hm3. lia.
Qed.

(** X7. The weekly pass never throws, whatever the records and the
    range.  When range.start is not after effectiveEnd it builds as many
    buckets as the loop has turns, numWeeks = max(1, full weeks from
    range.start to effectiveEnd + 1), so at least one: the guard in the
    loop never stops it early.  Otherwise it builds none.  Every bucket
    has between one and seven days, and its total and its completion
    rate are numbers, never NaN. *)
Theorem weekly_pass_returns_and_counts
  (reports : list Report.t) (startDate endDate today : Z) :
  exists ws,
    weeklyData tz newDate reports startDate endDate today = Ok ws
    /\ List.length ws
       = (if startDate <=? min today endDate
          then Z.to_nat (numWeeks startDate (min today endDate))
          else 0%nat)
    /\ (startDate <= min today endDate -> ws <> [])
    /\ (forall b, In b ws ->
          isNum (Week.totalHours b)
          /\ isNum (Week.completionRate b)
          /\ (1 <= List.length (Week.days b) <= 7)%nat).
Proof.
  destruct (weeklyData_spec tz newDate reports startDate endDate today)
    as (ws & Hrun & Hnth & Hlen & Hnone).
  exists ws. split; [assumption |]. split; [| split].
  - destruct (Z.leb_spec startDate (min today endDate)) as [Hle | Hgt].
    + exact (Hlen Hle).
    + rewrite (Hnone Hgt). reflexivity.
  - intros Hle Hnil. specialize (Hlen Hle). rewrite Hnil in Hlen. cbn in Hlen.
    pose proof (numWeeks_pos startDate (min today endDate)). lia.
  - intros b Hin. split; [eapply weekly_total_isNum; eassumption |].
    apply In_nth_error in Hin. destruct Hin as [k Hk].
    destruct (Hnth k b Hk) as [Hg Hb].
    destruct (weekBucket_spec tz newDate reports _ _ Hg)
      as (b' & Hb' & _ & _ & _ & Hrate & Hdates & _).
    rewrite Hb in Hb'. injection Hb' as <-.
    split.
    + rewrite Hrate. destruct (rate_isNum
        (count isCompleted (rowsIn newDate (weekLo tz (addWeeks startDate (Z.of_nat k)))
           (weekHi tz (min today endDate) (addWeeks startDate (Z.of_nat k))) reports))
        (Z.of_nat (List.length (rowsIn newDate (weekLo tz (addWeeks startDate (Z.of_nat k)))
           (weekHi tz (min today endDate) (addWeeks startDate (Z.of_nat k))) reports))))
        as [q ->].
      apply toFixed_isNum.
    + pose proof (f_equal (@List.length Z) Hdates) as Hl.
      rewrite length_map, dayList_length in Hl. rewrite Hl.
      pose proof (week_day_count _ _ Hg). lia.
Qed.

Lemma monthsLoop_length (reports : list Report.t) (S A : Z) (fuel : nat) :
  forall (i : Z) (acc : list Month.t),
  exists bs,
    monthsLoop tz newDate reports S A fuel i acc = Ok (acc ++ bs)
    /\ (List.length bs <= fuel)%nat
    /\ ((0 < fuel)%nat -> addMonths tz S i <= A -> bs <> [])
    /\ (forall b, In b bs -> isNum (Month.totalHours b) /\ isNum (Month.completionRate b)).
Proof.
  induction fuel as [| fuel IH]; intros i acc.
  - exists []. cbn. rewrite app_nil_r.
    split; [reflexivity |]. split; [lia |]. split; [lia |]. intros b [].
  - cbn [monthsLoop]. unfold isAfter.
    destruct (Z.ltb_spec A (addMonths tz S i)) as [Hbreak | Hgo].
    + exists []. rewrite app_nil_r.
      split; [reflexivity |]. split; [cbn; lia |]. split; [lia |]. intros b [].
    + pose proof (monthBucket_spec tz newDate reports A (addMonths tz S i) Hgo) as Hb.
      cbv zeta in Hb.
      assert (exists b, monthBucket tz newDate reports A (addMonths tz S i) = Ok b
                        /\ isNum (Month.totalHours b) /\ isNum (Month.completionRate b))
        as (b & Hbok & Hn1 & Hn2).
      { eexists. split; [exact Hb |]. cbn [Month.totalHours Month.completionRate]. split.
        - unfold sumNumbers.
          match goal with
          | |- context [fold_left JS.add (map reportHours ?rows) _] =>
              destruct (fold_add_hours rows 0) as (q & -> & _)
          end.
          apply toFixed_isNum.
        - match goal with
          | |- context [rate ?c ?t] => destruct (rate_isNum c t) as [q ->]
          end.
          apply toFixed_isNum. }
      rewrite Hbok. cbn [bind].
      destruct (IH (i + 1) (acc ++ [b])) as (bs & Hrun & Hlen & _ & Hall).
      exists (b :: bs). rewrite Hrun, <- app_assoc. cbn [app List.length].
      split; [reflexivity |]. split; [lia |]. split; [discriminate |].
      intros b' [<- | Hin]; [split; assumption | apply Hall; assumption].
Qed.

(** X8. The monthly pass never throws either.  It builds at least one
    bucket when range.start is not after the analysis end, none when it
    is, and never more than the month difference plus one; every
    bucket's total and completion rate are numbers, never NaN. *)
Theorem monthly_pass_returns
  (reports : list Report.t) (startDate endDate currentDate : Z) :
  exists ms,
    monthlyData tz newDate reports startDate endDate currentDate = Ok ms
    /\ (List.length ms
        <= Z.to_nat (numMonths tz startDate
                       (if isAfter endDate currentDate then currentDate else endDate)))%nat
    /\ (startDate <= (if isAfter endDate currentDate then currentDate else endDate) ->
        ms <> [])
    /\ ((if isAfter endDate currentDate then currentDate else endDate) < startDate ->
        ms = [])
    /\ (forall b, In b ms ->
          isNum (Month.totalHours b) /\ isNum (Month.completionRate b)).
Proof.
  set (A := if isAfter endDate currentDate then currentDate else endDate).
  destruct (monthsLoop_length reports startDate A
              (Z.to_nat (numMonths tz startDate A)) 0 [])
    as (bs & Hrun & Hlen & Hne & Hall).
  exists bs. unfold monthlyData. fold A. cbn [app] in Hrun.
  split; [assumption |]. split; [assumption |]. split; [| split; [| assumption]].
  - intros Hle. apply Hne.
    + unfold numMonths. lia.
    + unfold addMonths. cbn. assumption.
  - intros Hgt.
    destruct (monthlyData_spec tz newDate reports startDate endDate currentDate)
      as (ms & Hrun' & _ & Hnone).
    unfold monthlyData in Hrun'. fold A in Hrun', Hnone.
    rewrite Hrun in Hrun'. injection Hrun' as ->. apply Hnone. assumption.
Qed.

(** X9. The days of every weekly bucket are labelled Mon, Tue, ... in
    order from Monday: the labels are the first days of the list Mon to
    Sun, as many as the bucket has days. *)
Theorem weekly_days_are_labelled_from_monday
  (reports : list Report.t) (startDate endDate today : Z) (ws : list Week.t) (b : Week.t) :
  weeklyData tz newDate reports startDate endDate today = Ok ws ->
  In b ws ->
  map Day.day (Week.days b) = firstn (List.length (Week.days b)) weekdayLabels
  /\ (forall d, In d (Week.days b) ->
        Day.day d = format_EEE tz (Day.date d)).
Proof.
  intros Hws Hin. apply In_nth_error in Hin. destruct Hin as [k Hk].
  destruct (weeklyData_spec tz newDate reports startDate endDate today)
    as (ws' & Hrun & Hnth & _).
  rewrite Hrun in Hws. injection Hws as ->.
  destruct (Hnth k b Hk) as [Hg Hb].
  destruct (weekBucket_spec tz newDate reports _ _ Hg)
    as (b' & Hb' & _ & _ & _ & _ & Hdates & Hlabels & _).
  rewrite Hb in Hb'. injection Hb' as <-.
  pose proof (week_day_count _ _ Hg) as Hcount.
  pose proof (f_equal (@List.length Z) Hdates) as Hl.
  rewrite length_map, dayList_length in Hl.
  split.
  - rewrite Hlabels, Hl. apply labels_from_monday.
    + apply startOfWeek_monday.
    + lia.
  - intros d Hd. rewrite <- Hdates in Hlabels.
    clear - Hlabels Hd. induction (Week.days b) as [| d0 ds IH]; [destruct Hd |].
    cbn [map] in Hlabels. injection Hlabels as H0 Hrest.
    destruct Hd as [<- | Hd]; [assumption | apply IH; assumption].
Qed.

End Passes.

(** ** Rows outside every bucket *)

Section Outside.

Import Calendar.
Variable tz : Z.
Variable newDate : string -> option Z.

Lemma weekBucket_skip_out (before after : list Report.t) (r : Report.t) (E wsd : Z) :
  inInterval newDate (weekLo tz wsd) (weekHi tz E wsd) r = false ->
  weekBucket tz newDate (before ++ r :: after) E wsd
  = weekBucket tz newDate (before ++ after) E wsd.
Proof.
  intros Hout. unfold weekBucket. fold (weekLo tz wsd) (weekHi tz E wsd).
  unfold eachDayOfInterval.
  destruct (Z.leb_spec (weekLo tz wsd) (weekHi tz E wsd)) as [Hle | Hgt]; [| reflexivity].
  cbn [bind]. rewrite forEach_skip; [reflexivity |].
  intros s. apply weekReport_out; assumption.
Qed.

Lemma monthBucket_skip_out (before after : list Report.t) (r : Report.t) (A md : Z) :
  md <= A ->
  inInterval newDate (monthLo tz md) (monthHi tz A md) r = false ->
  monthBucket tz newDate (before ++ r :: after) A md
  = monthBucket tz newDate (before ++ after) A md.
Proof.
  intros Hg Hout. unfold monthBucket. fold (monthLo tz md) (monthHi tz A md).
  rewrite forEach_skip; [reflexivity |].
  intros s. unfold monthReport.
  rewrite isWithinInterval_ok by (apply (monthLo_le_monthHi tz A md Hg)).
  rewrite Hout. reflexivity.
Qed.

Lemma weeksLoop_ext_range (reports reports' : list Report.t) (S E : Z) (fuel : nat) :
  forall i acc,
    (forall j, i <= j < i + Z.of_nat fuel ->
       weekBucket tz newDate reports E (addWeeks S j)
       = weekBucket tz newDate reports' E (addWeeks S j)) ->
    weeksLoop tz newDate reports S E fuel i acc
    = weeksLoop tz newDate reports' S E fuel i acc.
Proof.
  induction fuel as [| fuel IH]; intros i acc Hb; cbn [weeksLoop]; [reflexivity |].
  destruct (E <? addWeeks S i); [reflexivity |].
  rewrite (Hb i) by lia.
  destruct (weekBucket tz newDate reports' E (addWeeks S i)); cbn [bind]; [| reflexivity].
  apply IH. intros j Hj. apply Hb. lia.
Qed.

Lemma weekHi_le (E wsd : Z) : weekHi tz E wsd <= E.
Proof. rewrite weekHi_eq. lia. Qed.

Lemma monthHi_le (A md : Z) : monthHi tz A md <= A.
Proof. unfold monthHi, isBefore. destruct (Z.ltb_spec (endOfMonth tz md) A); lia. Qed.

(** A row dated outside what the buckets span changes nothing. *)
Lemma weeklyData_skip_outside
  (before after : list Report.t) (r : Report.t) (t startDate endDate today : Z) :
  newDate (Report.date r) = Some t ->
  t < startOfWeek tz startDate
  \/ min today endDate < t
  \/ addWeeks (startOfWeek tz startDate) (numWeeks startDate (min today endDate)) <= t ->
  weeklyData tz newDate (before ++ r :: after) startDate endDate today
  = weeklyData tz newDate (before ++ after) startDate endDate today.
Proof.
  intros Ht Hout. unfold weeklyData. apply weeksLoop_ext_range. intros j Hj.
  apply weekBucket_skip_out. unfold inInterval. rewrite Ht.
  pose proof (weekHi_le (min today endDate) (addWeeks startDate j)) as Hhi.
  pose proof (weekHi_eq tz (min today endDate) (addWeeks startDate j)) as Hhe.
  unfold weekLo. rewrite startOfWeek_addWeeks in *.
  pose proof (numWeeks_pos startDate (min today endDate)) as Hn.
  rewrite Z2Nat.id in Hj by lia.
  unfold addWeeks, addDays in Hout. pose proof msPerDay_pos as HD.
  destruct Hout as [H | [H | H]].
  - destruct (Z.leb_spec (startOfWeek tz startDate + j * 7 * msPerDay) t);
      [nia | reflexivity].
  - destruct (Z.leb_spec t (weekHi tz (min today endDate) (addWeeks startDate j)));
      [lia | apply andb_false_r].
  - destruct (Z.leb_spec t (weekHi tz (min today endDate) (addWeeks startDate j)));
      [nia | apply andb_false_r].
Qed.

(** X10. A record dated before the Monday of the week of range.start,
    after effectiveEnd, or from the Monday that follows the last weekly
    bucket on, contributes to no weekly bucket; a record dated after the
    analysis end contributes to no monthly bucket.  The passes return
    what they return without the record. *)
Theorem rows_outside_the_buckets_are_ignored
  (before after : list Report.t) (r : Report.t)
  (t startDate endDate today currentDate : Z) :
  newDate (Report.date r) = Some t ->
  (t < startOfWeek tz startDate
   \/ min today endDate < t
   \/ addWeeks (startOfWeek tz startDate) (numWeeks startDate (min today endDate)) <= t ->
   weeklyData tz newDate (before ++ r :: after) startDate endDate today
   = weeklyData tz newDate (before ++ after) startDate endDate today)
  /\ ((if isAfter endDate currentDate then currentDate else endDate) < t ->
      monthlyData tz newDate (before ++ r :: after) startDate endDate currentDate
      = monthlyData tz newDate (before ++ after) startDate endDate currentDate).
Proof.
  intros Ht. split.
  - apply weeklyData_skip_outside. assumption.
  - intros Hafter. unfold monthlyData. apply monthsLoop_ext. intros md Hg.
    apply monthBucket_skip_out; [assumption |].
    unfold inInterval. rewrite Ht.
    pose proof (monthHi_le (if isAfter endDate currentDate then currentDate else endDate) md).
    destruct (Z.leb_spec t (monthHi tz
                (if isAfter endDate currentDate then currentDate else endDate) md));
      [lia | apply andb_false_r].
Qed.


End Outside.

(** ** Days with entries *)

Section DayStreak.

Import Calendar.
Variable tz : Z.
Variable newDate : string -> option Z.

Lemma distinct_In (x : Z) (xs : list Z) : In x (distinct xs) <-> In x xs.
Proof.
  induction xs as [| y xs IH]; [reflexivity |]. cbn [distinct].
  destruct (existsb (Z.eqb y) (distinct xs)) eqn:Hex.
  - apply existsb_exists in Hex. destruct Hex as (z & Hz & Heq).
    apply Z.eqb_eq in Heq. subst z.
    split; [intros H; right; apply IH; assumption |].
    intros [<- | H]; [assumption | apply IH; assumption].
  - cbn [In]. rewrite IH. reflexivity.
Qed.

Lemma distinct_NoDup (xs : list Z) : NoDup (distinct xs).
Proof.
  induction xs as [| y xs IH]; [constructor |]. cbn [distinct].
  destruct (existsb (Z.eqb y) (distinct xs)) eqn:Hex; [assumption |].
  constructor; [| assumption]. intros Hin.
  assert (existsb (Z.eqb y) (distinct xs) = true) as Ht
    by (apply existsb_exists; exists y; split; [assumption | apply Z.eqb_refl]).
  congruence.
Qed.

Lemma distinct_length (xs : list Z) :
  (List.length (distinct xs) <= List.length xs)%nat
  /\ (xs <> [] -> 1 <= List.length (distinct xs))%nat.
Proof.
  split.
  - induction xs as [| y xs IH]; [reflexivity |]. cbn [distinct].
    destruct (existsb (Z.eqb y) (distinct xs)); cbn [List.length]; lia.
  - intros Hne. destruct xs as [| y xs]; [congruence |].
    assert (In y (distinct (y :: xs))) as Hin by (apply distinct_In; left; reflexivity).
    destruct (distinct (y :: xs)); [destruct Hin | cbn; lia].
Qed.

Lemma mapM_isoDay_valid (reports : list Report.t) :
  (forall r, In r reports -> newDate (Report.date r) <> None) ->
  mapM (fun r => isoDay (newDate (Report.date r))) reports
  = Ok (map (utcDayOf newDate) reports).
Proof.
  induction reports as [| r reports IH]; intros Hall; [reflexivity |].
  cbn [mapM map]. unfold utcDayOf at 1.
  destruct (newDate (Report.date r)) eqn:Hr;
    [| exfalso; apply (Hall r); [left; reflexivity | assumption]].
  cbn [isoDay bind]. rewrite IH by (intros r' Hr'; apply Hall; right; assumption).
  reflexivity.
Qed.

Lemma mapM_isoDay_invalid (reports : list Report.t) :
  (exists r, In r reports /\ newDate (Report.date r) = None) ->
  mapM (fun r => isoDay (newDate (Report.date r))) reports = Throw RangeError.
Proof.
  induction reports as [| r reports IH]; intros (r0 & Hin & Hbad); [destruct Hin |].
  cbn [mapM]. destruct (newDate (Report.date r)) eqn:Hr; cbn [isoDay bind];
    [| reflexivity].
  destruct Hin as [-> | Hin]; [congruence |].
  rewrite IH by eauto. reflexivity.
Qed.

(** X12. calculateDayStreak is the number of distinct UTC dates on
    which there is an entry, consecutive or not: at most the number of
    entries and at least 1 for a non-empty set.  It throws as soon as one
    entry has an invalid date.  The Dashboard's dayStreak is computed to
    the same value. *)
Theorem dayStreak_counts_distinct_days (reports : list Report.t) :
  ((exists r, In r reports /\ newDate (Report.date r) = None) ->
     calculateDayStreak newDate reports = Throw RangeError)
  /\ ((forall r, In r reports -> newDate (Report.date r) <> None) ->
      exists days,
        calculateDayStreak newDate reports = Ok (Z.of_nat (List.length days))
        /\ NoDup days
        /\ (forall d, In d days <-> exists r, In r reports /\ utcDayOf newDate r = d)
        /\ (List.length days <= List.length reports)%nat
        /\ (reports <> [] -> 1 <= List.length days)%nat)
  /\ Dashboard.daysWithEntries newDate reports = calculateDayStreak newDate reports.
Proof.
  split; [| split].
  - intros Hbad. unfold calculateDayStreak.
    destruct reports as [| r reports]; [destruct Hbad as (r & [] & _) |].
    rewrite (mapM_isoDay_invalid _ Hbad). reflexivity.
  - intros Hall. exists (distinct (map (utcDayOf newDate) reports)).
    split.
    + unfold calculateDayStreak. destruct reports as [| r reports]; [reflexivity |].
      rewrite (mapM_isoDay_valid _ Hall). reflexivity.
    + split; [apply distinct_NoDup |]. split.
      * intros d. rewrite distinct_In, in_map_iff. split.
        -- intros (r & Hr & Hin). eauto.
        -- intros (r & Hin & Hr). eauto.
      * pose proof (distinct_length (map (utcDayOf newDate) reports)) as [H1 H2].
        rewrite length_map in H1. split; [assumption |].
        intros Hne. apply H2. destruct reports; [congruence | discriminate].
  - unfold Dashboard.daysWithEntries, calculateDayStreak.
    destruct reports; reflexivity.
Qed.

(** X13. fetchReportStats fails exactly on a record with an invalid
    date: then it throws (the page shows the error toast); otherwise it
    returns statistics in which totalEntries is the number of records, the
    three status counters together do not exceed it, dayStreak is between
    0 and totalEntries, and the weekly and monthly data are those of the
    two passes. *)
Theorem fetchReportStats_fails_only_on_invalid_dates
  (reports : list Report.t) (startDate endDate currentDate today : Z) :
  ((exists r, In r reports /\ newDate (Report.date r) = None) ->
     fetchReportStats tz newDate reports startDate endDate currentDate today
     = Throw RangeError)
  /\ ((forall r, In r reports -> newDate (Report.date r) <> None) ->
      exists st,
        fetchReportStats tz newDate reports startDate endDate currentDate today = Ok st
        /\ Stats.totalEntries st = Z.of_nat (List.length reports)
        /\ Stats.completed st + Stats.pending st + Stats.inProgress st
           <= Stats.totalEntries st
        /\ 0 <= Stats.dayStreak st <= Stats.totalEntries st
        /\ weeklyData tz newDate reports startDate endDate today
           = Ok (Stats.weeklyData st)
        /\ monthlyData tz newDate reports startDate endDate currentDate
           = Ok (Stats.monthlyData st)
        /\ Stats.tags st = tallyTags reports
        /\ Stats.tools st = tallyTools reports).
Proof.
  split.
  - intros Hbad. unfold fetchReportStats, calculateDayStreak.
    destruct reports as [| r reports]; [destruct Hbad as (r & [] & _) |].
    rewrite (mapM_isoDay_invalid _ Hbad). reflexivity.
  - intros Hall. unfold fetchReportStats.
    assert (exists n, calculateDayStreak newDate reports = Ok (Z.of_nat n)
                      /\ (n <= List.length reports)%nat) as (n & Hs & Hn).
    { unfold calculateDayStreak. destruct reports as [| r reports].
      - exists 0%nat. split; [reflexivity | lia].
      - rewrite (mapM_isoDay_valid _ Hall). cbn [bind]. eexists. split; [reflexivity |].
        pose proof (distinct_length (map (utcDayOf newDate) (r :: reports))) as [H1 _].
        rewrite length_map in H1. exact H1. }
    rewrite Hs. cbn [bind].
    destruct (weeklyData_spec tz newDate reports startDate endDate today) as (ws & Hw & _).
    destruct (monthlyData_spec tz newDate reports startDate endDate currentDate)
      as (ms & Hm & _).
    rewrite Hw, Hm. cbn [bind]. eexists. split; [reflexivity |].
    cbn [Stats.totalEntries Stats.completed Stats.pending Stats.inProgress
         Stats.dayStreak Stats.weeklyData Stats.monthlyData Stats.tags Stats.tools].
    split; [reflexivity |]. split.
    + pose proof (counters_partition reports). pose proof (count_nonneg isOther reports).
      lia.
    + split; [lia |]. repeat split; reflexivity.
Qed.

End DayStreak.

(** ** The Dashboard against the Reports page *)

Lemma dashboard_status_row (r : Report.t) :
  (if Dashboard.isPendingOrInProgress r then 1 else 0)
  + (if isOtherInProgress r then 1 else 0)
  = (if isPending r then 1 else 0) + (if isInProgress r then 1 else 0).
Proof.
  unfold Dashboard.isPendingOrInProgress, isOtherInProgress, isPending, isInProgress.
  destruct (String.eqb_spec (Report.status r) "pending") as [e | _];
    [rewrite e; reflexivity |].
  destruct (String.eqb_spec (Report.status r) "in progress") as [e | _];
    [rewrite e; reflexivity |].
  destruct (String.eqb_spec (Report.status r) "in_progress") as [e | _];
    [rewrite e; reflexivity |].
  destruct (String.eqb (Report.status r) "inprogress"); reflexivity.
Qed.

(** X14. The Dashboard counts the same completed entries as the
    Reports page, but its "pending / in progress" counter knows the
    spelling 'in progress' only: it is the Reports page's pending plus
    inProgress minus the records spelled 'in_progress' or 'inprogress',
    which the Dashboard counts nowhere. *)
Theorem dashboard_counters_against_reports (reports : list Report.t) :
  Dashboard.completedEntries reports = completed reports
  /\ Dashboard.pendingEntries reports + count isOtherInProgress reports
     = pending reports + inProgress reports
  /\ Dashboard.pendingEntries reports <= pending reports + inProgress reports
  /\ Dashboard.completedEntries reports + Dashboard.pendingEntries reports
     <= Z.of_nat (List.length reports).
Proof.
  assert (Dashboard.pendingEntries reports + count isOtherInProgress reports
          = pending reports + inProgress reports) as Heq.
  { unfold Dashboard.pendingEntries, pending, inProgress.
    induction reports as [| r reports IH]; [reflexivity |].
    rewrite !count_cons. pose proof (dashboard_status_row r). lia. }
  split; [reflexivity |]. split; [assumption |].
  pose proof (count_nonneg isOtherInProgress reports).
  pose proof (counters_partition reports). pose proof (count_nonneg isOther reports).
  unfold Dashboard.completedEntries. unfold completed in *. split; lia.
Qed.

Lemma dashboard_fold (rows : list Report.t) (a : JS.number) :
  fold_left (fun total entry => JS.add total (reportHours entry)) rows a
  = fold_left JS.add (map reportHours rows) a.
Proof.
  revert a. induction rows as [| r rows IH]; intros a; [reflexivity |]. cbn. apply IH.
Qed.

Lemma raw_hours_numeric (r : Report.t) :
  hasNumericTime r ->
  exists q, JS.div (JS.toNumber (Report.time_spent r)) 60 = JS.Num q
            /\ (q == valueOf (reportHours r))%Q.
Proof.
  unfold reportHours, JS.orZero, JS.truthy. intros [-> | [q ->]]; cbn.
  - eexists. split; reflexivity.
  - destruct (Qeq_bool q 0) eqn:Hz; cbn.
    + apply Qeq_bool_eq in Hz. eexists. split; [reflexivity |]. rewrite Hz. reflexivity.
    + eexists. split; reflexivity.
Qed.

Lemma totalHours_fold_numeric (rows : list Report.t) :
  Forall hasNumericTime rows ->
  forall a b, (a == b)%Q ->
    exists q,
      fold_left
        (fun sum report => JS.add sum (JS.div (JS.toNumber (Report.time_spent report)) 60))
        rows (JS.Num a) = JS.Num q
      /\ (q == b + hoursQ rows)%Q.
Proof.
  induction 1 as [| r rows Hr Hrows IH]; intros a b Hab.
  - exists a. split; [reflexivity |]. cbn. rewrite Hab. ring.
  - cbn [fold_left]. destruct (raw_hours_numeric r Hr) as (h & -> & Hh).
    cbn [JS.add].
    destruct (IH (a + h)%Q (b + valueOf (reportHours r))%Q) as (q & Hq & Hval).
    { rewrite Hab, Hh. reflexivity. }
    exists q. split; [assumption |]. rewrite Hval. cbn [hoursQ fold_right].
    fold (hoursQ rows). ring.
Qed.

Lemma totalHours_bad_row (before after : list Report.t) (r : Report.t) :
  Report.time_spent r = JS.Undefined \/ Report.time_spent r = JS.Value JS.NaN ->
  totalHours (before ++ r :: after) = JS.NaN.
Proof.
  intros Hbad. unfold totalHours. rewrite fold_left_app. cbn [fold_left].
  assert (JS.div (JS.toNumber (Report.time_spent r)) 60 = JS.NaN) as ->
    by (destruct Hbad as [-> | ->]; reflexivity).
  destruct (fold_left _ before (JS.Num 0)); cbn [JS.add]; apply totalHours_fold_NaN.
Qed.

(** X15. The Dashboard's total hours are always a number, the sum of
    (time_spent || 0) / 60 over all entries.  The Reports page's overall
    total is the same number when every time_spent holds a number or
    null, and NaN as soon as one time_spent is absent or NaN. *)
Theorem dashboard_total_against_reports_total (reports : list Report.t) :
  JS.eqn (Dashboard.totalHours reports) (JS.Num (hoursQ reports))
  /\ (Forall hasNumericTime reports ->
      JS.eqn (totalHours reports) (Dashboard.totalHours reports))
  /\ ((exists r, In r reports
                 /\ (Report.time_spent r = JS.Undefined
                     \/ Report.time_spent r = JS.Value JS.NaN)) ->
      totalHours reports = JS.NaN).
Proof.
  assert (JS.eqn (Dashboard.totalHours reports) (JS.Num (hoursQ reports))) as Hd.
  { unfold Dashboard.totalHours. rewrite dashboard_fold.
    destruct (fold_add_hours reports 0) as (q & -> & Hq). cbn [JS.eqn]. rewrite Hq. ring. }
  split; [assumption |]. split.
  - intros Hall. destruct (totalHours_fold_numeric reports Hall 0 0 (Qeq_refl 0))
      as (q & Hq & Hval).
    unfold totalHours. rewrite Hq.
    destruct (Dashboard.totalHours reports) as [| d]; [destruct Hd |].
    cbn [JS.eqn] in *. rewrite Hval, Hd. ring.
  - intros (r & Hin & Hbad). apply in_split in Hin. destruct Hin as (before & after & ->).
    apply totalHours_bad_row. assumption.
Qed.

(** ** The week chart of the Dashboard *)

Section DashboardWeek.

Import Calendar.
Variable tz : Z.
Variable newDate : string -> option Z.

Lemma week_of_today (today : Z) :
  eachDayOfInterval tz (startOfWeek tz today) (endOfWeek tz today)
  = Ok (dayList (startOfWeek tz today) 7).
Proof.
  pose proof (startOfWeek_le tz today). pose proof (endOfWeek_ge tz today).
  rewrite eachDayOfInterval_dayList by lia.
  destruct (startOfWeek_monday tz today) as [_ ->].
  rewrite localDay_endOfWeek.
  replace (localDay tz (startOfWeek tz today) + 6 - localDay tz (startOfWeek tz today) + 1)
    with 7 by ring.
  reflexivity.
Qed.

Lemma findIndex_lt {A : Type} (p : A -> bool) (l : list A) (i : nat) :
  findIndex p l = Some i -> (i < List.length l)%nat.
Proof.
  revert i. induction l as [| a l IH]; intros i; cbn [findIndex]; [discriminate |].
  destruct (p a).
  - intros [= <-]. cbn. lia.
  - destruct (findIndex p l) as [j |]; cbn [option_map]; [| discriminate].
    intros [= <-]. specialize (IH j eq_refl). cbn. lia.
Qed.

(** One entry with a valid date: the days keep their dates and labels,
    and the entry's hours go to the day with its date, if there is one. *)
Lemma weekEntry_valid (lo hi : Z) (days : list Day.t) (e : Report.t) (t : Z) :
  newDate (Report.date e) = Some t ->
  exists days',
    Dashboard.weekEntry tz newDate days e = Ok days'
    /\ map Day.date days' = map Day.date days
    /\ map Day.day days' = map Day.day days
    /\ (Forall isNum (map Day.hours days) ->
        Forall isNum (map Day.hours days')
        /\ (coversDays tz lo hi (map Day.date days) -> lo <= t <= hi ->
            (dayHoursQ days' == dayHoursQ days + valueOf (reportHours e))%Q)).
Proof.
  intros Ht. unfold Dashboard.weekEntry, dayIndexOf. rewrite Ht. cbn [bind].
  destruct (reportHours_isNum e) as [q Hq]. rewrite Hq. cbn [valueOf].
  destruct (findIndex _ days) as [i |] eqn:Hi.
  - pose proof (findIndex_lt _ _ _ Hi) as Hlt.
    eexists. split; [reflexivity |].
    rewrite addHoursAt_dates, addHoursAt_labels.
    split; [reflexivity |]. split; [reflexivity |].
    intros Hall. destruct (addHoursAt_sum days i q Hlt Hall) as [Hn Hs].
    split; [assumption |]. intros _ _. assumption.
  - eexists. split; [reflexivity |]. split; [reflexivity |]. split; [reflexivity |].
    intros Hall. split; [assumption |]. intros Hcov Hin. exfalso.
    destruct (Hcov t Hin) as (d & Hd & Hday).
    apply in_map_iff in Hd. destruct Hd as (day & Hdate & Hday_in).
    destruct (findIndex_some
                (fun day => String.eqb (format_yyyy_MM_dd tz (Day.date day))
                                       (format_yyyy_MM_dd tz t)) days)
      as (i & Hi' & _).
    { exists day. split; [assumption |]. apply String.eqb_eq.
      apply format_yyyy_MM_dd_same_day. rewrite Hdate. assumption. }
    congruence.
Qed.

Lemma forEach_weekEntry_valid (lo hi : Z) (entries : list Report.t) :
  (forall e, In e entries -> newDate (Report.date e) <> None) ->
  forall days,
  exists days',
    forEach (Dashboard.weekEntry tz newDate) entries days = Ok days'
    /\ map Day.date days' = map Day.date days
    /\ map Day.day days' = map Day.day days
    /\ (Forall isNum (map Day.hours days) ->
        Forall isNum (map Day.hours days')
        /\ (coversDays tz lo hi (map Day.date days) ->
            (forall e, In e entries -> inInterval newDate lo hi e = true) ->
            (dayHoursQ days' == dayHoursQ days + hoursQ entries)%Q)).
Proof.
  induction entries as [| e entries IH]; intros Hall days.
  - exists days. cbn. split; [reflexivity |]. split; [reflexivity |].
    split; [reflexivity |]. intros Hn. split; [assumption |]. intros _ _. ring.
  - cbn [forEach].
    destruct (newDate (Report.date e)) as [t |] eqn:Ht;
      [| exfalso; apply (Hall e); [left; reflexivity | assumption]].
    destruct (weekEntry_valid lo hi days e t Ht) as (d1 & Hstep & Hd1 & Hl1 & Hs1).
    rewrite Hstep. cbn [bind].
    destruct (IH (fun e' He' => Hall e' (or_intror He')) d1)
      as (d2 & Hrun & Hd2 & Hl2 & Hs2).
    exists d2. split; [assumption |].
    split; [rewrite Hd2; assumption |]. split; [rewrite Hl2; assumption |].
    intros Hn. destruct (Hs1 Hn) as [Hn1 Hv1]. destruct (Hs2 Hn1) as [Hn2 Hv2].
    split; [assumption |]. intros Hcov Hin.
    rewrite Hv2.
    + rewrite Hv1.
      * cbn [hoursQ fold_right]. fold (hoursQ entries). ring.
      * assumption.
      * specialize (Hin e (or_introl eq_refl)). unfold inInterval in Hin.
        rewrite Ht in Hin. apply andb_prop in Hin. destruct Hin as [H1 H2].
        apply Z.leb_le in H1. apply Z.leb_le in H2. lia.
    + rewrite Hd1. assumption.
    + intros e' He'. apply Hin. right. assumption.
Qed.

Lemma forEach_weekEntry_invalid (entries : list Report.t) :
  (exists e, In e entries /\ newDate (Report.date e) = None) ->
  forall days, days <> [] ->
    forEach (Dashboard.weekEntry tz newDate) entries days = Throw RangeError.
Proof.
  induction entries as [| e entries IH]; intros (e0 & Hin & Hbad) days Hne;
    [destruct Hin |].
  cbn [forEach].
  destruct (newDate (Report.date e)) as [t |] eqn:Ht.
  - destruct (weekEntry_valid 0 0 days e t Ht) as (d1 & Hstep & Hd1 & _).
    rewrite Hstep. cbn [bind].
    destruct Hin as [-> | Hin]; [congruence |].
    apply IH; [eauto |].
    intros ->. destruct days; [congruence | discriminate].
  - unfold Dashboard.weekEntry, dayIndexOf. rewrite Ht.
    destruct days; [congruence | reflexivity].
Qed.

(** X16. The Dashboard's week chart always has the seven days of the
    current week, Monday to Sunday, labelled Mon to Sun.  It throws when
    an entry has an invalid date; otherwise every day's hours are numbers,
    and when all entries are dated within the current week the hours of
    the seven days add up to the entries' (time_spent || 0) / 60. *)
Theorem dashboard_week_chart (today : Z) (entries : list Report.t) :
  ((exists e, In e entries /\ newDate (Report.date e) = None) ->
     Dashboard.weeklyHours tz newDate today entries = Throw RangeError)
  /\ ((forall e, In e entries -> newDate (Report.date e) <> None) ->
      exists days,
        Dashboard.weeklyHours tz newDate today entries = Ok days
        /\ map Day.date days = dayList (startOfWeek tz today) 7
        /\ map Day.day days = weekdayLabels
        /\ Forall isNum (map Day.hours days)
        /\ ((forall e, In e entries ->
                inInterval newDate (startOfWeek tz today) (endOfWeek tz today) e = true) ->
            (dayHoursQ days == hoursQ entries)%Q)).
Proof.
  unfold Dashboard.weeklyHours. rewrite week_of_today. cbn [bind].
  set (days0 := map (fun date => Day.mk (format_EEE tz date) date (JS.Num 0))
                    (dayList (startOfWeek tz today) 7)).
  assert (map Day.date days0 = dayList (startOfWeek tz today) 7) as Hd0.
  { unfold days0. rewrite map_map. cbn [Day.date]. apply map_id. }
  assert (map Day.day days0 = weekdayLabels) as Hl0.
  { unfold days0. rewrite map_map. cbn [Day.day].
    destruct (startOfWeek_monday tz today) as [Hmon _].
    exact (labels_from_monday tz (startOfWeek tz today) 7 Hmon (Nat.le_refl 7)). }
  split.
  - intros Hbad. apply forEach_weekEntry_invalid; [assumption |].
    unfold days0, dayList. discriminate.
  - intros Hall.
    destruct (forEach_weekEntry_valid (startOfWeek tz today) (endOfWeek tz today)
                entries Hall days0) as (days & Hrun & Hd & Hl & Hs).
    exists days. split; [assumption |].
    split; [rewrite Hd; assumption |]. split; [rewrite Hl; assumption |].
    destruct (dayHoursQ_zero tz (dayList (startOfWeek tz today) 7)) as [Hn0 Hz].
    fold days0 in Hn0, Hz. destruct (Hs Hn0) as [Hn Hv].
    split; [assumption |]. intros Hin.
    rewrite Hv; [rewrite Hz; ring | | assumption].
    rewrite Hd0. intros t Ht.
    pose proof (startOfWeek_le tz today). pose proof (endOfWeek_ge tz today).
    pose proof (dayList_covers tz (startOfWeek tz today) (endOfWeek tz today) t Ht) as Hc.
    destruct (startOfWeek_monday tz today) as [_ Hmid]. rewrite Hmid in Hc.
    rewrite localDay_endOfWeek in Hc.
    replace (localDay tz (startOfWeek tz today) + 6 - localDay tz (startOfWeek tz today) + 1)
      with 7 in Hc by ring.
    exact Hc.
Qed.

End DashboardWeek.

(** ** The most frequent tags and tools *)

Lemma insertIndexed_perm (e : Z * (string * JS.value)) (l : list (Z * (string * JS.value))) :
  Permutation (JS.insertIndexed e l) (e :: l).
Proof.
  induction l as [| x l IH]; cbn [JS.insertIndexed]; [reflexivity |].
  destruct (fst e <? fst x); [reflexivity |].
  rewrite IH. apply perm_swap.
Qed.

(** [Object.entries] lists every own property exactly once. *)
Lemma entries_perm (o : JS.object) : Permutation (JS.entries o) o.
Proof.
  unfold JS.entries. induction o as [| [k v] o IH]; [reflexivity |].
  cbn [JS.indexedEntries JS.namedEntries]. destruct (JS.arrayIndex k) as [i |].
  - rewrite insertIndexed_perm. cbn [map snd app]. apply perm_skip. exact IH.
  - rewrite <- Permutation_middle. apply perm_skip. exact IH.
Qed.

Lemma sort_insert_perm {A : Type} (cmp : A -> A -> JS.number) (e : A) (l : list A) :
  Permutation (JSArray.insert A cmp e l) (e :: l).
Proof.
  induction l as [| x l IH]; cbn [JSArray.insert]; [reflexivity |].
  destruct (JSArray.notAfter A cmp x e); [| reflexivity].
  rewrite IH. apply perm_swap.
Qed.

Lemma sort_perm {A : Type} (cmp : A -> A -> JS.number) (xs : list A) :
  Permutation (JSArray.sort A cmp xs) xs.
Proof.
  unfold JSArray.sort.
  assert (forall acc, Permutation (fold_left (fun s e => JSArray.insert A cmp e s) xs acc)
                                  (acc ++ xs)) as H.
  { induction xs as [| x xs IH]; intros acc; cbn [fold_left].
    - rewrite app_nil_r. reflexivity.
    - rewrite IH, sort_insert_perm. apply Permutation_middle. }
  apply (H []).
Qed.

Lemma notAfter_byCount (x e : string * JS.value) :
  isCount (snd x) -> isCount (snd e) ->
  (JSArray.notAfter _ byCountDescending x e = true <-> countAtLeast x e).
Proof.
  intros [p Hp] [q Hq]. unfold JSArray.notAfter, byCountDescending, countAtLeast.
  rewrite Hp, Hq. cbn [JSMath.sub valueOf JS.valueToNumber]. rewrite Qle_bool_iff.
  destruct p as [pn pd], q as [qn qd].
  unfold Qle, Qminus, Qplus, Qopp. cbn [Qnum Qden]. lia.
Qed.

Lemma countAtLeast_trans (x y z : string * JS.value) :
  countAtLeast x y -> countAtLeast y z -> countAtLeast x z.
Proof. unfold countAtLeast. intros H1 H2. eapply Qle_trans; eassumption. Qed.

Lemma Forall_perm {A : Type} (P : A -> Prop) (l l' : list A) :
  Permutation l l' -> Forall P l -> Forall P l'.
Proof.
  intros Hp Hl. rewrite Forall_forall in *. intros x Hx. apply Hl.
  eapply Permutation_in; [symmetry; eassumption | assumption].
Qed.

Lemma insert_sorted (e : string * JS.value) (l : list (string * JS.value)) :
  isCount (snd e) -> Forall (fun x => isCount (snd x)) l ->
  StronglySorted countAtLeast l ->
  StronglySorted countAtLeast (JSArray.insert _ byCountDescending e l).
Proof.
  intros He Hall Hs. induction Hs as [| x l Hs IH Hx]; cbn [JSArray.insert].
  - constructor; constructor.
  - inversion Hall as [| ? ? Hnx Hnl]; subst.
    destruct (JSArray.notAfter _ byCountDescending x e) eqn:Hcmp.
    + apply notAfter_byCount in Hcmp; [| assumption | assumption].
      constructor; [apply IH; assumption |].
      apply (Forall_perm _ (e :: l)).
      * symmetry. apply sort_insert_perm.
      * constructor; assumption.
    + assert (countAtLeast e x) as Hex.
      { destruct (Qlt_le_dec (valueOf (JS.valueToNumber (snd x)))
                             (valueOf (JS.valueToNumber (snd e)))) as [Hlt | Hle].
        - unfold countAtLeast. apply Qlt_le_weak. assumption.
        - exfalso. apply (notAfter_byCount x e Hnx He) in Hle. congruence. }
      constructor; [constructor; assumption |].
      constructor; [assumption |].
      eapply Forall_impl; [| exact Hx]. intros y Hy.
      eapply countAtLeast_trans; eassumption.
Qed.

Lemma sort_sorted (xs : list (string * JS.value)) :
  Forall (fun x => isCount (snd x)) xs ->
  StronglySorted countAtLeast (JSArray.sort _ byCountDescending xs).
Proof.
  unfold JSArray.sort.
  assert (forall acc,
            Forall (fun x => isCount (snd x)) xs ->
            Forall (fun x => isCount (snd x)) acc ->
            StronglySorted countAtLeast acc ->
            StronglySorted countAtLeast
              (fold_left (fun s e => JSArray.insert _ byCountDescending e s) xs acc)) as H.
  { induction xs as [| x xs IH]; intros acc Hxs Hacc Hs; cbn [fold_left]; [assumption |].
    inversion Hxs; subst. apply IH; [assumption | | apply insert_sorted; assumption].
    apply (Forall_perm _ (x :: acc)).
    - symmetry. apply sort_insert_perm.
    - constructor; assumption. }
  intros Hxs. apply H; [assumption | constructor | constructor].
Qed.

Lemma sorted_firstn_skipn {A : Type} (R : A -> A -> Prop) (n : nat) (l : list A) :
  StronglySorted R l ->
  StronglySorted R (firstn n l)
  /\ (forall x y, In x (firstn n l) -> In y (skipn n l) -> R x y).
Proof.
  intros Hs. revert n. induction Hs as [| a l Hs IH Ha]; intros n.
  - rewrite firstn_nil, skipn_nil. split; [constructor | intros x y []].
  - destruct n as [| n]; cbn [firstn skipn].
    + split; [constructor | intros x y []].
    + destruct (IH n) as [H1 H2]. split.
      * constructor; [assumption |].
        rewrite Forall_forall in *. intros x Hx. apply Ha.
        rewrite <- (firstn_skipn n l). apply in_or_app. left. assumption.
      * intros x y [<- | Hx] Hy.
        -- rewrite Forall_forall in Ha. apply Ha.
           rewrite <- (firstn_skipn n l). apply in_or_app. right. assumption.
        -- apply H2; assumption.
Qed.

Lemma set_values (P : JS.value -> Prop) (o : JS.object) (k : string) (v : JS.value) :
  Forall (fun x => P (snd x)) o -> P v -> Forall (fun x => P (snd x)) (JS.set o k v).
Proof.
  intros Ho Hv. unfold JS.set. destruct (String.eqb k "__proto__"); [assumption |].
  induction Ho as [| [k0 v0] o H0 Ho IH]; cbn [JS.setOwn].
  - constructor; [assumption | constructor].
  - destruct (String.eqb k0 k); constructor; assumption.
Qed.

Lemma getOwn_values (P : JS.value -> Prop) (o : JS.object) (k : string) (v : JS.value) :
  Forall (fun x => P (snd x)) o -> JS.getOwn o k = Some v -> P v.
Proof.
  intros Ho. induction Ho as [| [k0 v0] o H0 Ho IH]; cbn [JS.getOwn]; [discriminate |].
  destruct (String.eqb k0 k); [| exact IH]. intros [= <-]. exact H0.
Qed.

(** As long as no label is a name of [Object.prototype], every stored
    value is a number. *)
Lemma tallyLabels_values (labels : list string) :
  plainLabels labels ->
  forall o, Forall (fun x => isCount (snd x)) o ->
            Forall (fun x => isCount (snd x)) (tallyLabels o labels).
Proof.
  induction 1 as [| l labels Hl Hplain IH]; intros o Ho; [assumption |].
  cbn [tallyLabels fold_left]. apply IH. apply set_values; [assumption |].
  unfold JS.get. destruct (JS.getOwn o l) as [v |] eqn:Hget.
  - destruct (getOwn_values _ _ _ _ Ho Hget) as [q ->]. cbn [JS.orZeroPlusOne].
    unfold JS.orZero. destruct (JS.truthy (JS.Value (JS.Num q))); cbn; eexists; reflexivity.
  - rewrite Hl. cbn. eexists; reflexivity.
Qed.

Lemma tally_values (field : Report.t -> option string) (reports : list Report.t) :
  plainLabels (allLabels field reports) ->
  Forall (fun x => isCount (snd x))
         (fold_left (fun o r => tallyField o (field r)) reports []).
Proof.
  intros Hplain. rewrite tally_allLabels. apply tallyLabels_values; [assumption | constructor].
Qed.

(** What the chart shows of an object whose values are numbers. *)
Lemma topEntries_spec (n : nat) (o : JS.object) :
  Forall (fun x => isCount (snd x)) o ->
  List.length (topEntries n o) = Nat.min n (List.length o)
  /\ (forall x, In x (topEntries n o) -> In x o)
  /\ StronglySorted countAtLeast (topEntries n o)
  /\ (forall x y, In x (topEntries n o) -> In y o -> ~ In y (topEntries n o) ->
        countAtLeast x y)
  /\ ((List.length o <= n)%nat -> Permutation (topEntries n o) o).
Proof.
  intros Ho. unfold topEntries, JSArray.slice0.
  set (sorted := JSArray.sort _ byCountDescending (JS.entries o)).
  assert (Permutation sorted o) as Hperm
    by (unfold sorted; rewrite sort_perm; apply entries_perm).
  assert (StronglySorted countAtLeast sorted) as Hs.
  { apply sort_sorted. apply (Forall_perm _ o); [| assumption].
    symmetry. apply entries_perm. }
  destruct (sorted_firstn_skipn countAtLeast n sorted Hs) as [Hf Hfs].
  split; [rewrite length_firstn, (Permutation_length Hperm); reflexivity |].
  split.
  { intros x Hx. eapply Permutation_in; [exact Hperm |].
    rewrite <- (firstn_skipn n sorted). apply in_or_app. left. assumption. }
  split; [assumption |]. split.
  - intros x y Hx Hy Hny. apply Hfs; [assumption |].
    eapply Permutation_in in Hy; [| symmetry; exact Hperm].
    rewrite <- (firstn_skipn n sorted) in Hy. apply in_app_or in Hy.
    destruct Hy; [contradiction | assumption].
  - intros Hlen. rewrite firstn_all2; [assumption |].
    rewrite (Permutation_length Hperm). assumption.
Qed.

(** X17. When no tag is a property name of [Object.prototype], the
    Reports page shows at most 12 tags, taken from the tally: all of them
    when there are no more, otherwise those in front when the tally is
    sorted by descending count.  The shown tags are in descending order
    of count, and no tag left out has a higher count than a shown one.
    The same holds of the tools, of which at most 5 are shown. *)
Theorem popular_labels_are_the_most_frequent
  (tz : Z) (newDate : string -> option Z) (reports : list Report.t)
  (startDate endDate currentDate today : Z) (st : Stats.t) :
  fetchReportStats tz newDate reports startDate endDate currentDate today = Ok st ->
  (plainLabels (allLabels Report.tags reports) ->
   List.length (popularTags st) = Nat.min 12 (List.length (tallyTags reports))
   /\ (forall x, In x (popularTags st) -> In x (tallyTags reports) /\ isCount (snd x))
   /\ StronglySorted countAtLeast (popularTags st)
   /\ (forall x y, In x (popularTags st) -> In y (tallyTags reports) ->
         ~ In y (popularTags st) -> countAtLeast x y)
   /\ ((List.length (tallyTags reports) <= 12)%nat ->
       Permutation (popularTags st) (tallyTags reports)))
  /\ (plainLabels (allLabels Report.skills_tools reports) ->
      List.length (popularTools st) = Nat.min 5 (List.length (tallyTools reports))
      /\ (forall x, In x (popularTools st) -> In x (tallyTools reports) /\ isCount (snd x))
      /\ StronglySorted countAtLeast (popularTools st)
      /\ (forall x y, In x (popularTools st) -> In y (tallyTools reports) ->
            ~ In y (popularTools st) -> countAtLeast x y)
      /\ ((List.length (tallyTools reports) <= 5)%nat ->
          Permutation (popularTools st) (tallyTools reports))).
Proof.
  intros Hst. unfold fetchReportStats in Hst.
  destruct (calculateDayStreak newDate reports); cbn [bind] in Hst; [| discriminate].
  destruct (weeklyData tz newDate reports startDate endDate today);
    cbn [bind] in Hst; [| discriminate].
  destruct (monthlyData tz newDate reports startDate endDate currentDate);
    cbn [bind] in Hst; [| discriminate].
  injection Hst as <-. unfold popularTags, popularTools.
  cbn [Stats.tags Stats.tools]. split; intros Hplain.
  - pose proof (tally_values Report.tags reports Hplain) as Hv.
    destruct (topEntries_spec 12 _ Hv) as (H1 & H2 & H3 & H4 & H5).
    split; [exact H1 |]. split; [| split; [exact H3 | split; [exact H4 | exact H5]]].
    intros x Hx. split; [apply H2; assumption |].
    rewrite Forall_forall in Hv. apply Hv. apply H2. assumption.
  - pose proof (tally_values Report.skills_tools reports Hplain) as Hv.
    destruct (topEntries_spec 5 _ Hv) as (H1 & H2 & H3 & H4 & H5).
    split; [exact H1 |]. split; [| split; [exact H3 | split; [exact H4 | exact H5]]].
    intros x Hx. split; [apply H2; assumption |].
    rewrite Forall_forall in Hv. apply Hv. apply H2. assumption.
Qed.

(** ** Instances of the further properties *)

Lemma edit_round_trip_witness :
  Entry.time_spent entryOf135Minutes = JS.Value (JS.Num (inject_Z 135))
  /\ 0 <= 135
  /\ JS.eqn (Entries.time_spent (Entries.hours entryOf135Minutes)
                                (Entries.minutes entryOf135Minutes))
            (JS.Num (inject_Z 135))
  /\ Entry.time_spent entryOfMinus30Minutes = JS.Value (JS.Num (inject_Z (-30)))
  /\ -30 < 0 /\ (-30) mod 60 <> 0
  /\ JS.eqn (Entries.time_spent (Entries.hours entryOfMinus30Minutes)
                                (Entries.minutes entryOfMinus30Minutes))
            (JS.Num (inject_Z (-30 - 60))).
Proof.
  split; [reflexivity |]. split; [lia |]. split.
  - destruct (edit_round_trip_of_minutes entryOf135Minutes 135 eq_refl) as [H _].
    apply H. lia.
  - split; [reflexivity |]. split; [lia |]. split; [vm_compute; discriminate |].
    destruct (edit_round_trip_of_minutes entryOfMinus30Minutes (-30) eq_refl) as [_ H].
    apply H; [lia | vm_compute; discriminate].
Defined.

Lemma save_then_edit_witness :
  0 <= 1 /\ 0 <= 75
  /\ JS.eqn (Entries.hours entryOf1h75) (JS.Num (inject_Z (1 + 75 / 60)))
  /\ JS.eqn (Entries.minutes entryOf1h75) (JS.Num (inject_Z (75 mod 60))).
Proof.
  split; [lia |]. split; [lia |].
  apply (save_then_edit_normalises_minutes entryOf1h75 1 75); [reflexivity | lia | lia].
Defined.

Lemma form_reads_missing_time_witness :
  JS.truthy JS.Null = false
  /\ JS.eqn (NewEntryForm.hours JS.Null) (JS.Num 0)
  /\ Entry.time_spent entryWithoutTime = JS.Undefined
  /\ Entries.hours entryWithoutTime = JS.NaN.
Proof.
  destruct form_reads_missing_time_as_zero as [Hform Hpage].
  split; [reflexivity |]. split; [apply (Hform JS.Null); reflexivity |].
  split; [reflexivity |]. apply (Hpage entryWithoutTime). reflexivity.
Defined.

Lemma toggle_witness :
  canonicalStatus (JSString.toLowerCase "In Progress")
  /\ Entries.newStatus "In Progress" = JSString.toLowerCase "In Progress"
  /\ ~ canonicalStatus (JSString.toLowerCase "Blocked")
  /\ Entries.newStatus "Blocked" = "pending"%string.
Proof.
  destruct toggle_writes_a_canonical_status as (_ & Hlower & Hother & _).
  assert (canonicalStatus (JSString.toLowerCase "In Progress")) as Hc
    by (right; left; reflexivity).
  assert (~ canonicalStatus (JSString.toLowerCase "Blocked")) as Hn
    by (intros [H | [H | H]]; vm_compute in H; discriminate).
  split; [exact Hc |]. split; [exact (Hlower _ Hc) |].
  split; [exact Hn |]. exact (Hother _ Hn).
Defined.

Lemma search_witness :
  In entryOf135Minutes [entryOf135Minutes; entryOfMinus30Minutes]
  /\ asciiOnly (Entry.summary entryOf135Minutes) = true
  /\ JSString.includes (Entry.summary entryOf135Minutes) "API" = true
  /\ JSString.toLowerCase "API" = JSString.toLowerCase "api"
  /\ In entryOf135Minutes
        (Entries.filteredEntries [entryOf135Minutes; entryOfMinus30Minutes] "api").
Proof.
  destruct (search_keeps_matching_entries [entryOf135Minutes; entryOfMinus30Minutes])
    as (_ & Hkeep & _).
  assert (In entryOf135Minutes [entryOf135Minutes; entryOfMinus30Minutes]) as Hin
    by (left; reflexivity).
  split; [exact Hin |]. split; [reflexivity |]. split; [reflexivity |].
  split; [reflexivity |].
  apply (Hkeep "api"%string "API"%string entryOf135Minutes Hin); reflexivity.
Defined.

Lemma weekly_pass_witness :
  exists ws,
    weeklyData 0 isoDateOnly january2024 jan01 jan20 jan20 = Ok ws
    /\ List.length ws = 3%nat.
Proof.
  destruct (weekly_pass_returns_and_counts 0 isoDateOnly january2024 jan01 jan20 jan20)
    as (ws & Hrun & Hlen & _).
  exists ws. split; [exact Hrun |]. rewrite Hlen. vm_compute. reflexivity.
Defined.

Lemma monthly_pass_witness :
  jan01 <= (if isAfter jan20 jan20 then jan20 else jan20)
  /\ exists ms,
       monthlyData 0 isoDateOnly january2024 jan01 jan20 jan20 = Ok ms /\ ms <> [].
Proof.
  assert (jan01 <= (if isAfter jan20 jan20 then jan20 else jan20)) as Hle
    by (vm_compute; discriminate).
  split; [exact Hle |].
  destruct (monthly_pass_returns 0 isoDateOnly january2024 jan01 jan20 jan20)
    as (ms & Hrun & _ & Hne & _).
  exists ms. split; [exact Hrun | exact (Hne Hle)].
Defined.

Lemma weekly_labels_witness :
  exists ws b,
    weeklyData 0 isoDateOnly january2024 jan01 jan20 jan20 = Ok ws
    /\ In b ws
    /\ map Day.day (Week.days b) = firstn (List.length (Week.days b)) weekdayLabels.
Proof.
  do 2 eexists. split; [vm_compute; reflexivity |].
  split; [right; right; left; reflexivity |].
  refine (proj1 (weekly_days_are_labelled_from_monday 0 isoDateOnly january2024
                   jan01 jan20 jan20 _ _ _ _)).
  - vm_compute. reflexivity.
  - right. right. left. reflexivity.
Defined.

Lemma rows_outside_witness :
  isoDateOnly (Report.date rowAfterEnd) = Some jan25
  /\ min jan20 jan20 < jan25
  /\ weeklyData 0 isoDateOnly (january2024 ++ rowAfterEnd :: []) jan01 jan20 jan20
     = weeklyData 0 isoDateOnly (january2024 ++ []) jan01 jan20 jan20.
Proof.
  assert (min jan20 jan20 < jan25) as Hlt by (vm_compute; reflexivity).
  split; [vm_compute; reflexivity |]. split; [exact Hlt |].
  destruct (rows_outside_the_buckets_are_ignored 0 isoDateOnly january2024 []
              rowAfterEnd jan25 jan01 jan20 jan20 jan20) as [Hw _].
  - vm_compute. reflexivity.
  - apply Hw. right. left. exact Hlt.
Defined.


Lemma dayStreak_witness :
  (exists r, In r [rowWithBadDate] /\ isoDateOnly (Report.date r) = None)
  /\ calculateDayStreak isoDateOnly [rowWithBadDate] = Throw RangeError.
Proof.
  assert (exists r, In r [rowWithBadDate] /\ isoDateOnly (Report.date r) = None) as Hbad
    by (exists rowWithBadDate; split; [left; reflexivity | reflexivity]).
  split; [exact Hbad |].
  destruct (dayStreak_counts_distinct_days isoDateOnly [rowWithBadDate]) as [Hthrow _].
  exact (Hthrow Hbad).
Defined.

Lemma fetchReportStats_witness :
  (forall r, In r taggedRows -> isoDateOnly (Report.date r) <> None)
  /\ exists st,
       fetchReportStats 0 isoDateOnly taggedRows jan01 jan20 jan20 jan20 = Ok st
       /\ Stats.totalEntries st = Z.of_nat (List.length taggedRows).
Proof.
  assert (forall r, In r taggedRows -> isoDateOnly (Report.date r) <> None) as Hall
    by (intros r [<- | [<- | []]]; vm_compute; discriminate).
  split; [exact Hall |].
  destruct (fetchReportStats_fails_only_on_invalid_dates 0 isoDateOnly taggedRows
              jan01 jan20 jan20 jan20) as [_ Hok].
  destruct (Hok Hall) as (st & Hrun & Htot & _).
  exists st. split; [exact Hrun | exact Htot].
Defined.

Lemma dashboard_total_witness :
  Forall hasNumericTime taggedRows
  /\ JS.eqn (totalHours taggedRows) (Dashboard.totalHours taggedRows).
Proof.
  assert (Forall hasNumericTime taggedRows) as Hall
    by (constructor; [right; eexists; reflexivity |];
        constructor; [right; eexists; reflexivity | constructor]).
  split; [exact Hall |].
  destruct (dashboard_total_against_reports_total taggedRows) as (_ & Hsame & _).
  exact (Hsame Hall).
Defined.

Lemma dashboard_week_witness :
  (exists e, In e [rowWithBadDate] /\ isoDateOnly (Report.date e) = None)
  /\ Dashboard.weeklyHours 0 isoDateOnly jan20 [rowWithBadDate] = Throw RangeError.
Proof.
  assert (exists e, In e [rowWithBadDate] /\ isoDateOnly (Report.date e) = None) as Hbad
    by (exists rowWithBadDate; split; [left; reflexivity | reflexivity]).
  split; [exact Hbad |].
  destruct (dashboard_week_chart 0 isoDateOnly jan20 [rowWithBadDate]) as [Hthrow _].
  exact (Hthrow Hbad).
Defined.

Lemma popular_labels_witness :
  exists st,
    fetchReportStats 0 isoDateOnly taggedRows jan01 jan20 jan20 jan20 = Ok st
    /\ plainLabels (allLabels Report.tags taggedRows)
    /\ List.length (popularTags st) = Nat.min 12 (List.length (tallyTags taggedRows))
    /\ StronglySorted countAtLeast (popularTags st).
Proof.
  eexists. split; [vm_compute; reflexivity |].
  assert (plainLabels (allLabels Report.tags taggedRows)) as Hplain
    by (repeat constructor).
  split; [exact Hplain |].
  destruct (popular_labels_are_the_most_frequent 0 isoDateOnly taggedRows
              jan01 jan20 jan20 jan20 _ ltac:(vm_compute; reflexivity))
    as [Htags _].
  destruct (Htags Hplain) as (Hlen & _ & Hsorted & _).
  split; [exact Hlen | exact Hsorted].
Defined.
